(** * Tilemap renderers: vertex layout, projection and GL resource handling

    A shallow embedding of [src/renderer.py].

    Numbers.  Python integers (tile indices, grid coordinates, element
    counts) are [Z], list positions are [nat].  Python floats are read as
    exact rationals ([Qc], canonical fractions with Leibniz equality): the
    development is about the index arithmetic and the layout of the data,
    and rounding is outside its scope.  The conversion to [ctypes.c_float]
    is the identity in this reading; the conversion to [ctypes.c_uint32]
    is written out as reduction modulo 2^32.

    Effects.  Python exceptions are an explicit outcome that carries the
    state reached when the exception was raised, so that what has and has
    not run before a failure can be stated.  The graphics library is a
    state of named objects; what its driver answers is part of that
    state.

    [NaiveInstantaneousRenderer], which blits sub-images and keeps no
    buffers, has no part in the results and is left out. *)

From Stdlib Require Import ZArith QArith Qcanon Lia.
From stdpp Require Import base numbers list gmap strings.

Local Open Scope Z_scope.

(** ** Exceptions and the two monads *)

Inductive exn : Type :=
  | IndexError
  | ZeroDivisionError
  | TypeError
  | ValueError
  | FileNotFoundError
  | GLException
  | RuntimeError (msg : string).

(** Computations over locals only: a value or an exception. *)
Definition res (A : Type) : Type := exn + A.

Definition res_bind {A B : Type} (m : res A) (k : A → res B) : res B :=
  match m with
  | inl e => inl e
  | inr a => k a
  end.

Declare Scope res_scope.
Delimit Scope res_scope with res.
Notation "x <- m ;; k" := (res_bind m (λ x, k))
  (at level 100, m at next level, right associativity) : res_scope.

(** [for v in l: body] over a local state. *)
Fixpoint for_each {A S : Type} (l : list A) (body : A → S → res S) (s : S)
  : res S :=
  match l with
  | [] => inr s
  | a :: l' => res_bind (body a s) (for_each l' body)
  end.

(** [range(n)] *)
Definition range (n : Z) : list Z := seqZ 0 n.

(** [l[i] = v] on a Python list: [IndexError] out of range. *)
Definition setitem {A : Type} (l : list A) (i : nat) (v : A) : res (list A) :=
  if decide (i < length l)%nat then inr (<[i:=v]> l) else inl IndexError.

(** [a % b] and [a // b] on Python integers: floor division, the sign of
    the result of [%] follows the divisor, as [Z.modulo] and [Z.div]. *)
Definition py_mod (a b : Z) : res Z :=
  if decide (b = 0) then inl ZeroDivisionError else inr (a `mod` b).

Definition py_floordiv (a b : Z) : res Z :=
  if decide (b = 0) then inl ZeroDivisionError else inr (a `div` b).

(** [a / b], true division. *)
Definition py_truediv (a b : Qc) : res Qc :=
  if decide (b = 0%Qc) then inl ZeroDivisionError else inr (a / b)%Qc.

(** ** The tilemap collaborator *)

(** Modelled from the spec: the tilemap class is not part of the renderer
    module.  The spec describes it as a 2D grid, row-major, of unsigned
    tile indices with fixed dimensions, exposing its tile count, a linear
    backing buffer, a 2D lookup and a texture handle. *)
Record Tilemap : Type := {
  map : list Z;
  texture_id : N
}.

(** Modelled from the spec: [len(tilemap)], the tile count. *)
Definition tilemap_len (tm : Tilemap) : nat := length (map tm).

(** Modelled from the spec: [tilemap[row, col]] on the row-major backing
    buffer of a grid with [n_cols] columns. *)
Definition tilemap_getitem (n_cols : Z) (tm : Tilemap) (row col : Z) : res Z :=
  let k := row * n_cols + col in
  if decide (0 ≤ k) then
    match map tm !! Z.to_nat k with
    | Some t => inr t
    | None => inl IndexError
    end
  else inl IndexError.

(** The same lookup as a total function, for stating results. *)
Definition tile_at (n_cols : Z) (tm : Tilemap) (row col : Z) : Z :=
  map tm !!! Z.to_nat (row * n_cols + col).

(** ** The constants imported from [src.constants]

    The module is not part of the renderer file; its values are taken as
    parameters. *)
Class Constants : Type := {
  TEXTURE_N_TILES_PER_ROW : Z;
  TEXTURE_TILE_SIZE_NORMALIZED : Qc;
  TEXTURE_TILE_PADDING : Qc;
  TILEMAP_N_ROWS : Z;
  TILEMAP_N_COLS : Z;
  (** The three [str.replace] calls of [GeomBufferedRenderer._create_shader],
      which print the atlas constants into the geometry source.  How Python
      prints a float is outside this development, so the substituted text
      is a parameter too. *)
  geom_source_with_constants : string → string
}.

(** ** [pyglet.math]: the library's 4x4 matrices

    A [Mat4] is a 16-tuple in column-major order; [@] is the matrix
    product and the default constructor gives the identity. *)
Module pyglet_math.

Record Vec3 : Type := mkVec3 { v3x : Qc; v3y : Qc; v3z : Qc }.
Record Vec4 : Type := mkVec4 { v4x : Qc; v4y : Qc; v4z : Qc; v4w : Qc }.

Record Mat4 : Type := mkMat4 {
  m_a : Qc; m_b : Qc; m_c : Qc; m_d : Qc;   (* column 1 *)
  m_e : Qc; m_f : Qc; m_g : Qc; m_h : Qc;   (* column 2 *)
  m_i : Qc; m_j : Qc; m_k : Qc; m_l : Qc;   (* column 3 *)
  m_m : Qc; m_n : Qc; m_o : Qc; m_p : Qc    (* column 4 *)
}.

Definition identity : Mat4 :=
  mkMat4 1 0 0 0
         0 1 0 0
         0 0 1 0
         0 0 0 1.

Definition from_translation (v : Vec3) : Mat4 :=
  mkMat4 1 0 0 0
         0 1 0 0
         0 0 1 0
         (v3x v) (v3y v) (v3z v) 1.

Definition from_scale (v : Vec3) : Mat4 :=
  mkMat4 (v3x v) 0 0 0
         0 (v3y v) 0 0
         0 0 (v3z v) 0
         0 0 0 1.

Definition matmul (s o : Mat4) : Mat4 :=
  let '(mkMat4 a11 a12 a13 a14 a21 a22 a23 a24
               a31 a32 a33 a34 a41 a42 a43 a44) := s in
  let '(mkMat4 b11 b12 b13 b14 b21 b22 b23 b24
               b31 b32 b33 b34 b41 b42 b43 b44) := o in
  (mkMat4
    (a11 * b11 + a21 * b12 + a31 * b13 + a41 * b14)
    (a12 * b11 + a22 * b12 + a32 * b13 + a42 * b14)
    (a13 * b11 + a23 * b12 + a33 * b13 + a43 * b14)
    (a14 * b11 + a24 * b12 + a34 * b13 + a44 * b14)
    (a11 * b21 + a21 * b22 + a31 * b23 + a41 * b24)
    (a12 * b21 + a22 * b22 + a32 * b23 + a42 * b24)
    (a13 * b21 + a23 * b22 + a33 * b23 + a43 * b24)
    (a14 * b21 + a24 * b22 + a34 * b23 + a44 * b24)
    (a11 * b31 + a21 * b32 + a31 * b33 + a41 * b34)
    (a12 * b31 + a22 * b32 + a32 * b33 + a42 * b34)
    (a13 * b31 + a23 * b32 + a33 * b33 + a43 * b34)
    (a14 * b31 + a24 * b32 + a34 * b33 + a44 * b34)
    (a11 * b41 + a21 * b42 + a31 * b43 + a41 * b44)
    (a12 * b41 + a22 * b42 + a32 * b43 + a42 * b44)
    (a13 * b41 + a23 * b42 + a33 * b43 + a43 * b44)
    (a14 * b41 + a24 * b42 + a34 * b43 + a44 * b44))%Qc.

(** The matrix applied to the column vector (x, y, z, w). *)
Definition transform (m : Mat4) (v : Vec4) : Vec4 :=
  let '(mkVec4 x y z w) := v in
  (mkVec4 (x * m_a m + y * m_e m + z * m_i m + w * m_m m)
          (x * m_b m + y * m_f m + z * m_j m + w * m_n m)
          (x * m_c m + y * m_g m + z * m_k m + w * m_o m)
          (x * m_d m + y * m_h m + z * m_l m + w * m_p m))%Qc.

(** The 16 entries in storage order, as iterating the tuple gives them. *)
Definition entries (m : Mat4) : list Qc :=
  [ m_a m; m_b m; m_c m; m_d m; m_e m; m_f m; m_g m; m_h m;
    m_i m; m_j m; m_k m; m_l m; m_m m; m_n m; m_o m; m_p m ].

End pyglet_math.

(** ** The graphics library, as far as the renderers drive it

    Object names are [N], with 0 for "nothing bound".  What the driver
    answers to a compilation or a link is not determined by the program:
    it is part of the state, as is the set of entry points that fail
    (all of them once the context is gone). *)
Module gl.

Inductive shader_type : Type :=
  | GL_VERTEX_SHADER | GL_FRAGMENT_SHADER | GL_GEOMETRY_SHADER.

Inductive draw_mode : Type := GL_TRIANGLES | GL_POINTS.

Inductive component_type : Type := GL_FLOAT | GL_UNSIGNED_INT.

Inductive status_name : Type :=
  | GL_COMPILE_STATUS | GL_LINK_STATUS | GL_INFO_LOG_LENGTH.

Inductive entry : Type :=
  | CreateProgram | CreateShader | ShaderSource | CompileShader
  | GetShaderiv | GetShaderInfoLog | AttachShader | LinkProgram
  | GetProgramiv | GetProgramInfoLog | DetachShader | DeleteShader
  | GenBuffers | GenVertexArrays | DeleteVertexArrays | DeleteBuffers
  | DeleteProgram | BindTexture | BindVertexArray | BindBuffer
  | BufferData | EnableVertexAttribArray | VertexAttribPointer
  | VertexAttribIPointer | GetUniformLocation | ProgramUniformMatrix4fv
  | ProgramUniform1i | UseProgram | DrawArrays.

Record Shader : Type := mkShader {
  sh_type : shader_type;
  sh_source : string;
  sh_compiled : bool;
  sh_log : string
}.

Inductive uniform_value : Type :=
  | UFloats (l : list Qc)
  | UInt (z : Z).

Record Program : Type := mkProgram {
  pr_attached : list N;
  pr_linked : bool;
  pr_log : string;
  pr_uniforms : gmap string uniform_value
}.

Inductive buffer_data : Type :=
  | NoData
  | FloatData (l : list Qc)
  | UIntData (l : list Z).

Record AttribPointer : Type := mkAttribPointer {
  ap_buffer : N;
  ap_size : Z;
  ap_type : component_type;
  ap_integer : bool;
  ap_stride : Z;
  ap_offset : Z
}.

Record VertexArray : Type := mkVertexArray {
  va_enabled : list N;
  va_pointers : gmap N AttribPointer
}.

(** What a draw call consumes: the program, the texture, the layout of the
    bound vertex array and the buffer store at the time of the call. *)
Record DrawCall : Type := mkDrawCall {
  dc_mode : draw_mode;
  dc_first : Z;
  dc_count : Z;
  dc_program : N;
  dc_texture : N;
  dc_vertex_array : option VertexArray;
  dc_buffers : gmap N buffer_data
}.

Record State : Type := mkState {
  fails : entry → bool;
  driver_compile : shader_type → string → option string;
  driver_link : list (shader_type * string) → option string;
  next_name : N;
  shaders : gmap N Shader;
  programs : gmap N Program;
  buffers : gmap N buffer_data;
  vertex_arrays : gmap N VertexArray;
  array_buffer_binding : N;
  vertex_array_binding : N;
  texture_binding : N;
  current_program : N;
  draws : list DrawCall
}.

Definition set_next_name (v : N) (g : State) : State :=
  mkState (fails g) (driver_compile g) (driver_link g) v (shaders g)
          (programs g) (buffers g) (vertex_arrays g) (array_buffer_binding g)
          (vertex_array_binding g) (texture_binding g) (current_program g)
          (draws g).
Definition set_shaders (v : gmap N Shader) (g : State) : State :=
  mkState (fails g) (driver_compile g) (driver_link g) (next_name g) v
          (programs g) (buffers g) (vertex_arrays g) (array_buffer_binding g)
          (vertex_array_binding g) (texture_binding g) (current_program g)
          (draws g).
Definition set_programs (v : gmap N Program) (g : State) : State :=
  mkState (fails g) (driver_compile g) (driver_link g) (next_name g)
          (shaders g) v (buffers g) (vertex_arrays g) (array_buffer_binding g)
          (vertex_array_binding g) (texture_binding g) (current_program g)
          (draws g).
Definition set_buffers (v : gmap N buffer_data) (g : State) : State :=
  mkState (fails g) (driver_compile g) (driver_link g) (next_name g)
          (shaders g) (programs g) v (vertex_arrays g) (array_buffer_binding g)
          (vertex_array_binding g) (texture_binding g) (current_program g)
          (draws g).
Definition set_vertex_arrays (v : gmap N VertexArray) (g : State) : State :=
  mkState (fails g) (driver_compile g) (driver_link g) (next_name g)
          (shaders g) (programs g) (buffers g) v (array_buffer_binding g)
          (vertex_array_binding g) (texture_binding g) (current_program g)
          (draws g).
Definition set_array_buffer_binding (v : N) (g : State) : State :=
  mkState (fails g) (driver_compile g) (driver_link g) (next_name g)
          (shaders g) (programs g) (buffers g) (vertex_arrays g) v
          (vertex_array_binding g) (texture_binding g) (current_program g)
          (draws g).
Definition set_vertex_array_binding (v : N) (g : State) : State :=
  mkState (fails g) (driver_compile g) (driver_link g) (next_name g)
          (shaders g) (programs g) (buffers g) (vertex_arrays g)
          (array_buffer_binding g) v (texture_binding g) (current_program g)
          (draws g).
Definition set_texture_binding (v : N) (g : State) : State :=
  mkState (fails g) (driver_compile g) (driver_link g) (next_name g)
          (shaders g) (programs g) (buffers g) (vertex_arrays g)
          (array_buffer_binding g) (vertex_array_binding g) v
          (current_program g) (draws g).
Definition set_current_program (v : N) (g : State) : State :=
  mkState (fails g) (driver_compile g) (driver_link g) (next_name g)
          (shaders g) (programs g) (buffers g) (vertex_arrays g)
          (array_buffer_binding g) (vertex_array_binding g)
          (texture_binding g) v (draws g).
Definition set_draws (v : list DrawCall) (g : State) : State :=
  mkState (fails g) (driver_compile g) (driver_link g) (next_name g)
          (shaders g) (programs g) (buffers g) (vertex_arrays g)
          (array_buffer_binding g) (vertex_array_binding g)
          (texture_binding g) (current_program g) v.

(** A fresh object name; names start at 1. *)
Definition fresh (g : State) : N := N.max 1 (next_name g).

(** [GL_INFO_LOG_LENGTH] counts the terminating NUL of a non-empty log. *)
Definition info_log_length (log : string) : Z :=
  match log with
  | EmptyString => 0
  | _ => Z.of_nat (String.length log) + 1
  end.

(** A log read into a buffer of [max_length] bytes, NUL included. *)
Definition read_info_log (max_length : Z) (log : string) : string :=
  String.substring 0 (Z.to_nat (max_length - 1)) log.

(** The calls proper, on a context in which the entry point works.  A call
    the library rejects gives [GLException] and leaves the state as it
    is. *)

Definition glCreateProgram (g : State) : res (N * State) :=
  let name := fresh g in
  inr (name, set_next_name (name + 1)%N
               (set_programs (<[name := mkProgram [] false "" ∅]> (programs g)) g)).

Definition glCreateShader (ty : shader_type) (g : State) : res (N * State) :=
  let name := fresh g in
  inr (name, set_next_name (name + 1)%N
               (set_shaders (<[name := mkShader ty "" false ""]> (shaders g)) g)).

Definition glShaderSource (h : N) (source : string) (g : State)
  : res (unit * State) :=
  match shaders g !! h with
  | Some sh =>
      inr (tt, set_shaders
                 (<[h := mkShader (sh_type sh) source false ""]> (shaders g)) g)
  | None => inl GLException
  end.

Definition glCompileShader (h : N) (g : State) : res (unit * State) :=
  match shaders g !! h with
  | Some sh =>
      let sh' :=
        match driver_compile g (sh_type sh) (sh_source sh) with
        | None => mkShader (sh_type sh) (sh_source sh) true ""
        | Some log => mkShader (sh_type sh) (sh_source sh) false log
        end in
      inr (tt, set_shaders (<[h := sh']> (shaders g)) g)
  | None => inl GLException
  end.

Definition glGetShaderiv (h : N) (pname : status_name) (g : State)
  : res (Z * State) :=
  match shaders g !! h with
  | Some sh =>
      match pname with
      | GL_COMPILE_STATUS => inr (if sh_compiled sh then 1 else 0, g)
      | GL_INFO_LOG_LENGTH => inr (info_log_length (sh_log sh), g)
      | GL_LINK_STATUS => inl GLException
      end
  | None => inl GLException
  end.

Definition glGetShaderInfoLog (h : N) (max_length : Z) (g : State)
  : res (string * State) :=
  match shaders g !! h with
  | Some sh => inr (read_info_log max_length (sh_log sh), g)
  | None => inl GLException
  end.

Definition glAttachShader (p h : N) (g : State) : res (unit * State) :=
  match programs g !! p, shaders g !! h with
  | Some pr, Some _ =>
      inr (tt, set_programs
                 (<[p := mkProgram (pr_attached pr ++ [h]) (pr_linked pr)
                                   (pr_log pr) (pr_uniforms pr)]> (programs g)) g)
  | _, _ => inl GLException
  end.

(** The stages a link sees: type and source of each attached shader. *)
Definition attached_stages (g : State) (pr : Program)
  : list (shader_type * string) :=
  omap (λ h, (λ sh, (sh_type sh, sh_source sh)) <$> shaders g !! h)
       (pr_attached pr).

Definition glLinkProgram (p : N) (g : State) : res (unit * State) :=
  match programs g !! p with
  | Some pr =>
      let pr' :=
        match driver_link g (attached_stages g pr) with
        | None => mkProgram (pr_attached pr) true "" (pr_uniforms pr)
        | Some log => mkProgram (pr_attached pr) false log (pr_uniforms pr)
        end in
      inr (tt, set_programs (<[p := pr']> (programs g)) g)
  | None => inl GLException
  end.

Definition glGetProgramiv (p : N) (pname : status_name) (g : State)
  : res (Z * State) :=
  match programs g !! p with
  | Some pr =>
      match pname with
      | GL_LINK_STATUS => inr (if pr_linked pr then 1 else 0, g)
      | GL_INFO_LOG_LENGTH => inr (info_log_length (pr_log pr), g)
      | GL_COMPILE_STATUS => inl GLException
      end
  | None => inl GLException
  end.

Definition glGetProgramInfoLog (p : N) (max_length : Z) (g : State)
  : res (string * State) :=
  match programs g !! p with
  | Some pr => inr (read_info_log max_length (pr_log pr), g)
  | None => inl GLException
  end.

Definition glDetachShader (p h : N) (g : State) : res (unit * State) :=
  match programs g !! p with
  | Some pr =>
      if decide (h ∈ pr_attached pr) then
        inr (tt, set_programs
                   (<[p := mkProgram (filter (λ h', h' ≠ h) (pr_attached pr))
                                     (pr_linked pr) (pr_log pr)
                                     (pr_uniforms pr)]> (programs g)) g)
      else inl GLException
  | None => inl GLException
  end.

Definition glDeleteShader (h : N) (g : State) : res (unit * State) :=
  inr (tt, set_shaders (delete h (shaders g)) g).

Definition glGenBuffers (g : State) : res (N * State) :=
  let name := fresh g in
  inr (name, set_next_name (name + 1)%N
               (set_buffers (<[name := NoData]> (buffers g)) g)).

Definition glGenVertexArrays (g : State) : res (N * State) :=
  let name := fresh g in
  inr (name, set_next_name (name + 1)%N
               (set_vertex_arrays
                  (<[name := mkVertexArray [] ∅]> (vertex_arrays g)) g)).

Definition glDeleteVertexArrays (h : N) (g : State) : res (unit * State) :=
  inr (tt, set_vertex_arrays (delete h (vertex_arrays g)) g).

Definition glDeleteBuffers (h : N) (g : State) : res (unit * State) :=
  inr (tt, set_buffers (delete h (buffers g)) g).

Definition glDeleteProgram (p : N) (g : State) : res (unit * State) :=
  inr (tt, set_programs (delete p (programs g)) g).

Definition glBindTexture (t : N) (g : State) : res (unit * State) :=
  inr (tt, set_texture_binding t g).

Definition glBindVertexArray (h : N) (g : State) : res (unit * State) :=
  if decide (h = 0%N ∨ is_Some (vertex_arrays g !! h)) then
    inr (tt, set_vertex_array_binding h g)
  else inl GLException.

Definition glBindBuffer (h : N) (g : State) : res (unit * State) :=
  if decide (h = 0%N ∨ is_Some (buffers g !! h)) then
    inr (tt, set_array_buffer_binding h g)
  else inl GLException.

Definition glBufferData (data : buffer_data) (g : State) : res (unit * State) :=
  match buffers g !! array_buffer_binding g with
  | Some _ =>
      inr (tt, set_buffers (<[array_buffer_binding g := data]> (buffers g)) g)
  | None => inl GLException
  end.

Definition glEnableVertexAttribArray (index : N) (g : State)
  : res (unit * State) :=
  match vertex_arrays g !! vertex_array_binding g with
  | Some va =>
      inr (tt, set_vertex_arrays
                 (<[vertex_array_binding g :=
                      mkVertexArray (index :: va_enabled va) (va_pointers va)]>
                    (vertex_arrays g)) g)
  | None => inl GLException
  end.

Definition attrib_pointer (integer : bool) (index : N) (size : Z)
    (ty : component_type) (stride offset : Z) (g : State)
  : res (unit * State) :=
  match vertex_arrays g !! vertex_array_binding g with
  | Some va =>
      let ap := mkAttribPointer (array_buffer_binding g) size ty integer
                                stride offset in
      inr (tt, set_vertex_arrays
                 (<[vertex_array_binding g :=
                      mkVertexArray (va_enabled va)
                                    (<[index := ap]> (va_pointers va))]>
                    (vertex_arrays g)) g)
  | None => inl GLException
  end.

Definition glVertexAttribPointer := attrib_pointer false.
Definition glVertexAttribIPointer := attrib_pointer true.

(** A uniform's location is modelled by its name. *)
Definition glGetUniformLocation (p : N) (name : string) (g : State)
  : res (string * State) :=
  match programs g !! p with
  | Some _ => inr (name, g)
  | None => inl GLException
  end.

Definition program_uniform (p : N) (location : string) (v : uniform_value)
    (g : State) : res (unit * State) :=
  match programs g !! p with
  | Some pr =>
      inr (tt, set_programs
                 (<[p := mkProgram (pr_attached pr) (pr_linked pr) (pr_log pr)
                                   (<[location := v]> (pr_uniforms pr))]>
                    (programs g)) g)
  | None => inl GLException
  end.

Definition glProgramUniformMatrix4fv := program_uniform.
Definition glProgramUniform1i := program_uniform.

Definition glUseProgram (p : N) (g : State) : res (unit * State) :=
  match programs g !! p with
  | Some pr =>
      if pr_linked pr then inr (tt, set_current_program p g)
      else inl GLException
  | None => inl GLException
  end.

Definition glDrawArrays (mode : draw_mode) (first count : Z) (g : State)
  : res (unit * State) :=
  let call := mkDrawCall mode first count (current_program g)
                (texture_binding g)
                (vertex_arrays g !! vertex_array_binding g) (buffers g) in
  inr (tt, set_draws (draws g ++ [call]) g).

End gl.

(** ** The world: the shared tilemap, the renderer object, the context *)

(** The instance attributes of an [_OpenGLRenderer]. *)
Record RendererObject : Type := mkRendererObject {
  _texture_id : N;
  _shader_handle : option N;
  _vbo_handle : option N;
  _vao_handle : option N
}.

(** [tilemap] is the one tilemap object; the renderer's [_tilemap]
    attribute is a reference to it, so an edit made by its owner is seen
    by the renderer.  [shader_files] gives the text of a file of
    [SHADERS_FOLDER] by its name, if it can be read. *)
Record World : Type := mkWorld {
  tilemap : Tilemap;
  self : RendererObject;
  glstate : gl.State;
  shader_files : string → option string
}.

Definition set_tilemap (tm : Tilemap) (w : World) : World :=
  mkWorld tm (self w) (glstate w) (shader_files w).
Definition set_self (r : RendererObject) (w : World) : World :=
  mkWorld (tilemap w) r (glstate w) (shader_files w).
Definition set_glstate (g : gl.State) (w : World) : World :=
  mkWorld (tilemap w) (self w) g (shader_files w).

(** Stateful computations: they return or raise, and either way leave a
    world behind. *)
Inductive outcome (A : Type) : Type :=
  | Return (a : A) (w : World)
  | Raise (e : exn) (w : World).
Arguments Return {A} a w.
Arguments Raise {A} e w.

Definition M (A : Type) : Type := World → outcome A.

Definition ret {A : Type} (a : A) : M A := λ w, Return a w.

Definition bind {A B : Type} (m : M A) (k : A → M B) : M B :=
  λ w, match m w with
       | Return a w' => k a w'
       | Raise e w' => Raise e w'
       end.

Definition raise {A : Type} (e : exn) : M A := λ w, Raise e w.

(** [try: m  except: handler] with a bare [except], which catches
    everything. *)
Definition try_except {A : Type} (m : M A) (handler : M A) : M A :=
  λ w, match m w with
       | Return a w' => Return a w'
       | Raise _ w' => handler w'
       end.

Definition lift {A : Type} (r : res A) : M A :=
  λ w, match r with
       | inl e => Raise e w
       | inr a => Return a w
       end.

Declare Scope M_scope.
Delimit Scope M_scope with M.
Bind Scope M_scope with M.
Notation "x <- m ;; k" := (bind m (λ x, k))
  (at level 100, m at next level, right associativity) : M_scope.
Notation "m ;; k" := (bind m (λ _, k))
  (at level 100, right associativity) : M_scope.

(** [for v in l: body], threading the loop's locals. *)
Fixpoint for_M {A S : Type} (l : list A) (body : A → S → M S) (s : S) : M S :=
  match l with
  | [] => ret s
  | a :: l' => bind (body a s) (for_M l' body)
  end.

(** A call into the library: it raises when the entry point fails in this
    context, or when the library rejects the call. *)
Definition call {A : Type} (e : gl.entry)
    (f : gl.State → res (A * gl.State)) : M A :=
  λ w, if gl.fails (glstate w) e then Raise GLException w
       else match f (glstate w) with
            | inl err => Raise err w
            | inr (a, g) => Return a (set_glstate g w)
            end.

Definition get_self : M RendererObject := λ w, Return (self w) w.
Definition get_tilemap : M Tilemap := λ w, Return (tilemap w) w.

Definition set_shader_handle (h : option N) : M unit :=
  λ w, Return tt (set_self (mkRendererObject (_texture_id (self w)) h
                              (_vbo_handle (self w)) (_vao_handle (self w))) w).
Definition set_vbo_handle (h : option N) : M unit :=
  λ w, Return tt (set_self (mkRendererObject (_texture_id (self w))
                              (_shader_handle (self w)) h
                              (_vao_handle (self w))) w).
Definition set_vao_handle (h : option N) : M unit :=
  λ w, Return tt (set_self (mkRendererObject (_texture_id (self w))
                              (_shader_handle (self w))
                              (_vbo_handle (self w)) h) w).

(** A handle attribute passed where the library wants an integer: [None]
    is refused by the foreign-function layer. *)
Definition handle_arg (field : RendererObject → option N) : M N :=
  (r <- get_self ;;
   match field r with
   | Some h => ret h
   | None => raise TypeError
   end)%M.

(** [open(os.path.join(SHADERS_FOLDER, name)).read()] *)
Definition read_shader_file (name : string) : M string :=
  λ w, match shader_files w name with
       | Some text => Return text w
       | None => Raise FileNotFoundError w
       end.

(** ** [_AbstractRenderer] *)
Module _AbstractRenderer.
Section Methods.
Context `{Constants}.
Import pyglet_math.

Definition _get_projection_matrix : res Mat4 :=
  (tx <- py_truediv (Qc_of_Z (- TILEMAP_N_COLS)) (Qc_of_Z 2) ;;
   ty <- py_truediv (Qc_of_Z (- TILEMAP_N_ROWS)) (Qc_of_Z 2) ;;
   let model_matrix := from_translation (mkVec3 tx ty (Qc_of_Z 0)) in
   let view_matrix := identity in
   sx <- py_truediv (Qc_of_Z 2) (Qc_of_Z TILEMAP_N_COLS) ;;
   sy <- py_truediv (Qc_of_Z 2) (Qc_of_Z TILEMAP_N_ROWS) ;;
   let proj_matrix := from_scale (mkVec3 sx sy (Qc_of_Z 0)) in
   inr (matmul (matmul proj_matrix view_matrix) model_matrix))%res.

End Methods.
End _AbstractRenderer.

(** ** [_OpenGLRenderer] *)
Module _OpenGLRenderer.

(** The methods a concrete renderer has to supply. *)
Record Class : Type := mkClass {
  _create_shader : M unit;
  draw : M unit;
  _update_vbo : M unit;
  _update_vao : M unit
}.

(** A Python value handed to [_prepare_params_to_set_uniform]. *)
Inductive uniform_arg : Type :=
  | ArgMat4 (m : pyglet_math.Mat4)
  | ArgInt (z : Z).

Section Methods.
Context `{Constants}.
Import gl.

(** The body of the loop over the stages (lines 117-136). *)
Definition compile_stage (stage : string * shader_type) (handles : list N)
  : M (list N) :=
  let '(source, shader_type) := stage in
  (handle <- call CreateShader (glCreateShader shader_type) ;;
   let handles := handles ++ [handle] in
   call ShaderSource (glShaderSource handle source) ;;
   call CompileShader (glCompileShader handle) ;;
   (* Check if error occurred. *)
   temp <- call GetShaderiv (glGetShaderiv handle GL_COMPILE_STATUS) ;;
   if decide (temp = 0) then
     (* Retrieve the log length, then the log text. *)
     temp <- call GetShaderiv (glGetShaderiv handle GL_INFO_LOG_LENGTH) ;;
     buffer <- call GetShaderInfoLog (glGetShaderInfoLog handle temp) ;;
     (* Raise error with log content. *)
     raise (RuntimeError buffer)
   else
     program <- handle_arg _shader_handle ;;
     call AttachShader (glAttachShader program handle) ;;
     ret handles)%M.

(** The body of the closing loop (lines 152-154). *)
Definition release_stage (handle : N) (_ : unit) : M unit :=
  (program <- handle_arg _shader_handle ;;
   call DetachShader (glDetachShader program handle) ;;
   call DeleteShader (glDeleteShader handle))%M.

Definition _compile_shader_program
    (sources_and_shadertypes : list (string * shader_type)) : M unit :=
  (p <- call CreateProgram glCreateProgram ;;
   set_shader_handle (Some p) ;;
   handles <- for_M sources_and_shadertypes compile_stage [] ;;
   program <- handle_arg _shader_handle ;;
   call LinkProgram (glLinkProgram program) ;;
   (* Check if error occurred. *)
   program <- handle_arg _shader_handle ;;
   temp <- call GetProgramiv (glGetProgramiv program GL_LINK_STATUS) ;;
   if decide (temp = 0) then
     (* Retrieve the log length, then the log text. *)
     program <- handle_arg _shader_handle ;;
     temp <- call GetProgramiv (glGetProgramiv program GL_INFO_LOG_LENGTH) ;;
     program <- handle_arg _shader_handle ;;
     buffer <- call GetProgramInfoLog (glGetProgramInfoLog program temp) ;;
     (* Raise error with log content. *)
     raise (RuntimeError buffer)
   else
     for_M handles release_stage tt)%M.

Definition _allocate_vbo_vao : M unit :=
  (buffer_id <- call GenBuffers glGenBuffers ;;
   set_vbo_handle (Some buffer_id) ;;
   array_id <- call GenVertexArrays glGenVertexArrays ;;
   set_vao_handle (Some array_id))%M.

Definition recalculate (cls : Class) : M unit :=
  (_update_vbo cls ;;
   _update_vao cls)%M.

(** The attribute assignments that open [__init__]. *)
Definition init_attributes (texture : N) : M unit :=
  λ w, Return tt (set_self (mkRendererObject texture None None None) w).

(** [__init__(self, tilemap)]: [tilemap] is the world's tilemap object. *)
Definition __init__ (cls : Class) : M unit :=
  (tm <- get_tilemap ;;
   init_attributes (texture_id tm) ;;
   _create_shader cls ;;
   _allocate_vbo_vao ;;
   recalculate cls)%M.

(** The array built in the [try] branch: [len(values)] needs a sequence. *)
Definition as_ctypes_array (values : uniform_arg) : M uniform_value :=
  match values with
  | ArgMat4 m => ret (UFloats (pyglet_math.entries m))
  | ArgInt _ => raise TypeError
  end.

(** [ctype_type(values)]: the constructor needs a number. *)
Definition as_ctypes_scalar (values : uniform_arg) : M uniform_value :=
  match values with
  | ArgInt z => ret (UInt z)
  | ArgMat4 _ => raise TypeError
  end.

Definition _prepare_params_to_set_uniform (name : string)
    (values : uniform_arg) : M (string * uniform_value) :=
  (program <- handle_arg _shader_handle ;;
   location <- call GetUniformLocation (glGetUniformLocation program name) ;;
   values <- try_except (as_ctypes_array values) (as_ctypes_scalar values) ;;
   ret (location, values))%M.

Definition __del__ : M unit :=
  try_except
    (vao <- handle_arg _vao_handle ;;
     call DeleteVertexArrays (glDeleteVertexArrays vao) ;;
     vbo <- handle_arg _vbo_handle ;;
     call DeleteBuffers (glDeleteBuffers vbo) ;;
     program <- handle_arg _shader_handle ;;
     call DeleteProgram (glDeleteProgram program))%M
    (* pass *)
    (ret tt).

End Methods.
End _OpenGLRenderer.

(** The vertex shader's inputs, as [_update_vao] declares them. *)
Definition n_coords_vertex_position : nat := 2.
Definition n_coords_texture_coordinates : nat := 2.

(** [ctypes.sizeof(ctypes.c_float)] and [ctypes.sizeof(ctypes.c_uint32)] *)
Definition sizeof_c_float : Z := 4.
Definition sizeof_c_uint32 : Z := 4.

(** [ctypes.c_uint32(v)]: no overflow check, the value wraps. *)
Definition c_uint32 (v : Z) : Z := v `mod` 2 ^ 32.

(** ** [VertexBufferedRenderer] *)
Module VertexBufferedRenderer.
Section Methods.
Context `{Constants}.
Import gl.

Definition _create_shader : M unit :=
  (vert_source <- read_shader_file "VertexBufferedRenderer.vert" ;;
   frag_source <- read_shader_file "VertexBufferedRenderer.frag" ;;
   _OpenGLRenderer._compile_shader_program
     [(vert_source, GL_VERTEX_SHADER); (frag_source, GL_FRAGMENT_SHADER)])%M.

Definition draw : M unit :=
  (r <- get_self ;;
   call BindTexture (glBindTexture (_texture_id r)) ;;
   vao <- handle_arg _vao_handle ;;
   call BindVertexArray (glBindVertexArray vao) ;;
   projection <- lift _AbstractRenderer._get_projection_matrix ;;
   params <- _OpenGLRenderer._prepare_params_to_set_uniform "projection"
               (_OpenGLRenderer.ArgMat4 projection) ;;
   let '(location, projection) := params in
   program <- handle_arg _shader_handle ;;
   call ProgramUniformMatrix4fv
        (glProgramUniformMatrix4fv program location projection) ;;
   program <- handle_arg _shader_handle ;;
   call UseProgram (glUseProgram program) ;;
   let n_vertices_per_tile := 6 in
   tm <- get_tilemap ;;
   call DrawArrays
        (glDrawArrays GL_TRIANGLES 0
           (Z.of_nat (tilemap_len tm) * n_vertices_per_tile)))%M.

(** The atlas rectangle of a tile (lines 236-238). *)
Definition tx0_of (tile : Z) : res Qc :=
  (m <- py_mod tile TEXTURE_N_TILES_PER_ROW ;;
   inr (Qc_of_Z m * TEXTURE_TILE_SIZE_NORMALIZED + TEXTURE_TILE_PADDING)%Qc)%res.

Definition ty0_of (tile : Z) : res Qc :=
  (d <- py_floordiv tile TEXTURE_N_TILES_PER_ROW ;;
   inr (Qc_of_Z d * TEXTURE_TILE_SIZE_NORMALIZED + TEXTURE_TILE_PADDING)%Qc)%res.

Definition tSize_of : Qc :=
  (TEXTURE_TILE_SIZE_NORMALIZED - TEXTURE_TILE_PADDING * Qc_of_Z 2)%Qc.

(** One "vertex k" block of the loop body: four stores, then [i += 4]. *)
Definition store_vertex (px py tx ty : Qc) (st : nat * list Qc)
  : res (nat * list Qc) :=
  let '(i, vertex_data) := st in
  (vertex_data <- setitem vertex_data (i + 0) px ;;
   vertex_data <- setitem vertex_data (i + 1) py ;;
   vertex_data <- setitem vertex_data (i + 2) tx ;;
   vertex_data <- setitem vertex_data (i + 3) ty ;;
   inr ((i + 4)%nat, vertex_data))%res.

(** The body of the two nested loops (lines 232-280). *)
Definition tile_body (tm : Tilemap) (x y : Z) (st : nat * list Qc)
  : res (nat * list Qc) :=
  (tile <- tilemap_getitem TILEMAP_N_COLS tm y x ;;
   tx0 <- tx0_of tile ;;
   ty0 <- ty0_of tile ;;
   let tSize := tSize_of in
   (* vertex 0 (top left) *)
   st <- store_vertex (Qc_of_Z x) (Qc_of_Z y) tx0 ty0 st ;;
   (* vertex 1 (top right) *)
   st <- store_vertex (Qc_of_Z (x + 1)) (Qc_of_Z y) (tx0 + tSize)%Qc ty0 st ;;
   (* vertex 2 (bottom left) *)
   st <- store_vertex (Qc_of_Z x) (Qc_of_Z (y + 1)) tx0 (ty0 + tSize)%Qc st ;;
   (* vertex 3 (top right) *)
   st <- store_vertex (Qc_of_Z (x + 1)) (Qc_of_Z y) (tx0 + tSize)%Qc ty0 st ;;
   (* vertex 4 (bottom left) *)
   st <- store_vertex (Qc_of_Z x) (Qc_of_Z (y + 1)) tx0 (ty0 + tSize)%Qc st ;;
   (* vertex 5 (bottom right) *)
   store_vertex (Qc_of_Z (x + 1)) (Qc_of_Z (y + 1))
                (tx0 + tSize)%Qc (ty0 + tSize)%Qc st)%res.

(** The list [_update_vbo] builds before it uploads it (lines 221-282). *)
Definition build_vertex_data (tm : Tilemap) : res (list Qc) :=
  let float_count := (tilemap_len tm * 6 * 2 * 2)%nat in
  let vertex_data := replicate float_count (Qc_of_Z 0) in
  let i := 0%nat in
  (st <- for_each (range TILEMAP_N_COLS)
           (λ x, for_each (range TILEMAP_N_ROWS) (λ y, tile_body tm x y))
           (i, vertex_data) ;;
   inr (snd st))%res.

Definition _update_vbo : M unit :=
  (vbo <- handle_arg _vbo_handle ;;
   call BindBuffer (glBindBuffer vbo) ;;
   tm <- get_tilemap ;;
   vertex_data <- lift (build_vertex_data tm) ;;
   call BufferData (glBufferData (FloatData vertex_data)))%M.

Definition _update_vao : M unit :=
  (vao <- handle_arg _vao_handle ;;
   call BindVertexArray (glBindVertexArray vao) ;;
   vbo <- handle_arg _vbo_handle ;;
   call BindBuffer (glBindBuffer vbo) ;;
   let stride :=
     sizeof_c_float
     * Z.of_nat (n_coords_vertex_position + n_coords_texture_coordinates) in
   call EnableVertexAttribArray (glEnableVertexAttribArray 0) ;;
   call VertexAttribPointer
        (glVertexAttribPointer 0 (Z.of_nat n_coords_vertex_position)
           GL_FLOAT stride 0) ;;
   call EnableVertexAttribArray (glEnableVertexAttribArray 1) ;;
   call VertexAttribPointer
        (glVertexAttribPointer 1 (Z.of_nat n_coords_texture_coordinates)
           GL_FLOAT stride
           (sizeof_c_float * Z.of_nat n_coords_vertex_position)))%M.

Definition cls : _OpenGLRenderer.Class :=
  _OpenGLRenderer.mkClass _create_shader draw _update_vbo _update_vao.

End Methods.
End VertexBufferedRenderer.

(** ** [GeomBufferedRenderer] *)
Module GeomBufferedRenderer.
Section Methods.
Context `{Constants}.
Import gl.

Definition _create_shader : M unit :=
  (vert_source <- read_shader_file "GeometryShaderRenderer.vert" ;;
   frag_source <- read_shader_file "GeometryShaderRenderer.frag" ;;
   geom_source <- read_shader_file "GeometryShaderRenderer.geom" ;;
   let geom_source := geom_source_with_constants geom_source in
   _OpenGLRenderer._compile_shader_program
     [(vert_source, GL_VERTEX_SHADER); (frag_source, GL_FRAGMENT_SHADER);
      (geom_source, GL_GEOMETRY_SHADER)])%M.

Definition draw : M unit :=
  (r <- get_self ;;
   call BindTexture (glBindTexture (_texture_id r)) ;;
   vao <- handle_arg _vao_handle ;;
   call BindVertexArray (glBindVertexArray vao) ;;
   projection <- lift _AbstractRenderer._get_projection_matrix ;;
   params <- _OpenGLRenderer._prepare_params_to_set_uniform "projection"
               (_OpenGLRenderer.ArgMat4 projection) ;;
   let '(location, projection) := params in
   program <- handle_arg _shader_handle ;;
   call ProgramUniformMatrix4fv
        (glProgramUniformMatrix4fv program location projection) ;;
   params <- _OpenGLRenderer._prepare_params_to_set_uniform "n_cols"
               (_OpenGLRenderer.ArgInt TILEMAP_N_COLS) ;;
   let '(location, n_cols) := params in
   program <- handle_arg _shader_handle ;;
   call ProgramUniform1i (glProgramUniform1i program location n_cols) ;;
   program <- handle_arg _shader_handle ;;
   call UseProgram (glUseProgram program) ;;
   tm <- get_tilemap ;;
   call DrawArrays (glDrawArrays GL_POINTS 0 (Z.of_nat (tilemap_len tm))))%M.

Definition _update_vbo : M unit :=
  (vbo <- handle_arg _vbo_handle ;;
   call BindBuffer (glBindBuffer vbo) ;;
   tm <- get_tilemap ;;
   let vertex_data := map tm in
   let vertex_data := c_uint32 <$> vertex_data in
   call BufferData (glBufferData (UIntData vertex_data)))%M.

Definition _update_vao : M unit :=
  (vao <- handle_arg _vao_handle ;;
   call BindVertexArray (glBindVertexArray vao) ;;
   vbo <- handle_arg _vbo_handle ;;
   call BindBuffer (glBindBuffer vbo) ;;
   call EnableVertexAttribArray (glEnableVertexAttribArray 0) ;;
   call VertexAttribIPointer
        (glVertexAttribIPointer 0 1 GL_UNSIGNED_INT sizeof_c_uint32 0))%M.

Definition cls : _OpenGLRenderer.Class :=
  _OpenGLRenderer.mkClass _create_shader draw _update_vbo _update_vao.

End Methods.
End GeomBufferedRenderer.

(** ** [Pyglet_VertexBufferedRenderer]

    The variant that leaves buffers and vertex arrays to the library's
    [ShaderProgram.vertex_list], which keeps one array per shader input. *)
Module Pyglet_VertexBufferedRenderer.

Record VertexList : Type := mkVertexList {
  aPosition : list Qc;
  aTexCoord : list Qc
}.

(** [shader_program.vertex_list(count, mode)]: each input gets [count]
    times its number of coordinates. *)
Definition vertex_list (count : nat) : VertexList :=
  mkVertexList (replicate (count * n_coords_vertex_position) (Qc_of_Z 0))
               (replicate (count * n_coords_texture_coordinates) (Qc_of_Z 0)).

(** [array[:] = data] on a ctypes array, which cannot change size. *)
Definition assign_slice (array data : list Qc) : res (list Qc) :=
  if decide (length data = length array) then inr data else inl ValueError.

Section Methods.
Context `{Constants}.

Definition _allocate_vbo_vao (tm : Tilemap) : VertexList :=
  let vertex_count := (tilemap_len tm * 6)%nat in
  vertex_list vertex_count.

Definition tx0_of (tile : Z) : res Qc :=
  (m <- py_mod tile TEXTURE_N_TILES_PER_ROW ;;
   inr (Qc_of_Z m * TEXTURE_TILE_SIZE_NORMALIZED + TEXTURE_TILE_PADDING)%Qc)%res.

Definition ty0_of (tile : Z) : res Qc :=
  (d <- py_floordiv tile TEXTURE_N_TILES_PER_ROW ;;
   inr (Qc_of_Z d * TEXTURE_TILE_SIZE_NORMALIZED + TEXTURE_TILE_PADDING)%Qc)%res.

Definition tSize_of : Qc :=
  (TEXTURE_TILE_SIZE_NORMALIZED - TEXTURE_TILE_PADDING * Qc_of_Z 2)%Qc.

(** One "vertex k" block: two stores in each list, then [i += 2]. *)
Definition store_vertex (px py tx ty : Qc) (st : nat * (list Qc * list Qc))
  : res (nat * (list Qc * list Qc)) :=
  let '(i, (position_data, texcoord_data)) := st in
  (position_data <- setitem position_data (i + 0) px ;;
   position_data <- setitem position_data (i + 1) py ;;
   texcoord_data <- setitem texcoord_data (i + 0) tx ;;
   texcoord_data <- setitem texcoord_data (i + 1) ty ;;
   inr ((i + 2)%nat, (position_data, texcoord_data)))%res.

Definition tile_body (tm : Tilemap) (x y : Z)
    (st : nat * (list Qc * list Qc)) : res (nat * (list Qc * list Qc)) :=
  (tile <- tilemap_getitem TILEMAP_N_COLS tm y x ;;
   tx0 <- tx0_of tile ;;
   ty0 <- ty0_of tile ;;
   let tSize := tSize_of in
   (* vertex 0 (top left) *)
   st <- store_vertex (Qc_of_Z x) (Qc_of_Z y) tx0 ty0 st ;;
   (* vertex 1 (top right) *)
   st <- store_vertex (Qc_of_Z (x + 1)) (Qc_of_Z y) (tx0 + tSize)%Qc ty0 st ;;
   (* vertex 2 (bottom left) *)
   st <- store_vertex (Qc_of_Z x) (Qc_of_Z (y + 1)) tx0 (ty0 + tSize)%Qc st ;;
   (* vertex 3 (top right) *)
   st <- store_vertex (Qc_of_Z (x + 1)) (Qc_of_Z y) (tx0 + tSize)%Qc ty0 st ;;
   (* vertex 4 (bottom left) *)
   st <- store_vertex (Qc_of_Z x) (Qc_of_Z (y + 1)) tx0 (ty0 + tSize)%Qc st ;;
   (* vertex 5 (bottom right) *)
   store_vertex (Qc_of_Z (x + 1)) (Qc_of_Z (y + 1))
                (tx0 + tSize)%Qc (ty0 + tSize)%Qc st)%res.

Definition _update_vbo (tm : Tilemap) (vertex_list : VertexList)
  : res VertexList :=
  let float_count := length (aPosition vertex_list) in
  let position_data := replicate float_count (Qc_of_Z 0) in
  let texcoord_data := replicate float_count (Qc_of_Z 0) in
  let i := 0%nat in
  (st <- for_each (range TILEMAP_N_COLS)
           (λ x, for_each (range TILEMAP_N_ROWS) (λ y, tile_body tm x y))
           (i, (position_data, texcoord_data)) ;;
   let '(_, (position_data, texcoord_data)) := st in
   a_position <- assign_slice (aPosition vertex_list) position_data ;;
   a_texcoord <- assign_slice (aTexCoord vertex_list) texcoord_data ;;
   inr (mkVertexList a_position a_texcoord))%res.

Definition recalculate (tm : Tilemap) (vertex_list : VertexList)
  : res VertexList :=
  _update_vbo tm vertex_list.

End Methods.

(** The two arrays read vertex by vertex, in the order the interleaved
    buffer of [VertexBufferedRenderer] stores a vertex: two position
    coordinates, then two texture coordinates. *)
Fixpoint interleave (position texcoord : list Qc) : list Qc :=
  match position, texcoord with
  | px :: py :: position', tx :: ty :: texcoord' =>
      px :: py :: tx :: ty :: interleave position' texcoord'
  | _, _ => []
  end.

End Pyglet_VertexBufferedRenderer.

(** ** What the results are stated against *)
Section Specification.
Context `{Constants}.

(** The atlas rectangle of a tile: corner and side, as total functions. *)
Definition atlas_tx0 (tile : Z) : Qc :=
  (Qc_of_Z (tile `mod` TEXTURE_N_TILES_PER_ROW) * TEXTURE_TILE_SIZE_NORMALIZED
   + TEXTURE_TILE_PADDING)%Qc.

Definition atlas_ty0 (tile : Z) : Qc :=
  (Qc_of_Z (tile `div` TEXTURE_N_TILES_PER_ROW) * TEXTURE_TILE_SIZE_NORMALIZED
   + TEXTURE_TILE_PADDING)%Qc.

Definition atlas_size : Qc :=
  (TEXTURE_TILE_SIZE_NORMALIZED - Qc_of_Z 2 * TEXTURE_TILE_PADDING)%Qc.

(** The six vertices of the cell [(x, y)] showing [tile]: position and
    texture coordinates of each, 24 numbers. *)
Definition quad (x y tile : Z) : list Qc :=
  let tx0 := atlas_tx0 tile in
  let ty0 := atlas_ty0 tile in
  let tSize := atlas_size in
  [ Qc_of_Z x; Qc_of_Z y; tx0; ty0;
    Qc_of_Z (x + 1); Qc_of_Z y; (tx0 + tSize)%Qc; ty0;
    Qc_of_Z x; Qc_of_Z (y + 1); tx0; (ty0 + tSize)%Qc;
    Qc_of_Z (x + 1); Qc_of_Z y; (tx0 + tSize)%Qc; ty0;
    Qc_of_Z x; Qc_of_Z (y + 1); tx0; (ty0 + tSize)%Qc;
    Qc_of_Z (x + 1); Qc_of_Z (y + 1); (tx0 + tSize)%Qc; (ty0 + tSize)%Qc ].

(** The quads of a tilemap, column after column. *)
Definition quads (tm : Tilemap) : list (list Qc) :=
  x ← range TILEMAP_N_COLS;
  y ← range TILEMAP_N_ROWS;
  [quad x y (tile_at TILEMAP_N_COLS tm y x)].

(** The interleaved vertex data of a tilemap. *)
Definition layout (tm : Tilemap) : list Qc := mjoin (quads tm).

(** The position half and the texture half of a quad. *)
Definition quad_positions (x y : Z) : list Qc :=
  [ Qc_of_Z x; Qc_of_Z y; Qc_of_Z (x + 1); Qc_of_Z y;
    Qc_of_Z x; Qc_of_Z (y + 1); Qc_of_Z (x + 1); Qc_of_Z y;
    Qc_of_Z x; Qc_of_Z (y + 1); Qc_of_Z (x + 1); Qc_of_Z (y + 1) ].

Definition quad_texcoords (tile : Z) : list Qc :=
  let tx0 := atlas_tx0 tile in
  let ty0 := atlas_ty0 tile in
  let tSize := atlas_size in
  [ tx0; ty0; (tx0 + tSize)%Qc; ty0; tx0; (ty0 + tSize)%Qc;
    (tx0 + tSize)%Qc; ty0; tx0; (ty0 + tSize)%Qc;
    (tx0 + tSize)%Qc; (ty0 + tSize)%Qc ].

End Specification.

(** ** The geometry stage of [GeomBufferedRenderer] *)
Module GeometryStage.
Section Stage.
Context `{Constants}.

(** Modelled from the spec: the geometry shader source is not part of the
    renderer module.  The spec has the stage receive the tile index, the
    grid-column count and the atlas constants, and synthesize per point
    the same 6-vertex quad as the per-tile expansion.  The point's place
    in the draw, read against the column count of the row-major grid,
    gives its cell. *)
Definition expand (n_cols : Z) (point : nat) (tile : Z) : list Qc :=
  let x := Z.of_nat point `mod` n_cols in
  let y := Z.of_nat point `div` n_cols in
  quad x y tile.

(** Modelled from the spec: one quad per uploaded point, in draw order. *)
Definition expand_all (n_cols : Z) (points : list Z) : list (list Qc) :=
  imap (expand n_cols) points.

End Stage.
End GeometryStage.

(** A buffer cut into pieces of [n] numbers. *)
Fixpoint chunks_fuel {A : Type} (fuel n : nat) (l : list A) : list (list A) :=
  match fuel with
  | O => []
  | S fuel' =>
      match l with
      | [] => []
      | _ => take n l :: chunks_fuel fuel' n (drop n l)
      end
  end.

Definition chunks {A : Type} (n : nat) (l : list A) : list (list A) :=
  chunks_fuel (length l) n l.

(** The 6-vertex quads a per-vertex buffer holds. *)
Definition quads_of_buffer (vertex_data : list Qc) : list (list Qc) :=
  chunks 24 vertex_data.

(** Its vertex entries: position and texture coordinates of one vertex,
    the stride [_update_vao] declares. *)
Definition vertices_of_buffer (vertex_data : list Qc) : list (list Qc) :=
  chunks (n_coords_vertex_position + n_coords_texture_coordinates) vertex_data.

(** The owner of the tilemap changes its contents; the renderer holds a
    reference to the same object. *)
Definition edit_tilemap (tm : Tilemap) : M unit :=
  λ w, Return tt (set_tilemap tm w).

(** The log of the first stage the driver refuses to compile, if any. *)
Fixpoint first_compile_error (g : gl.State)
    (stages : list (string * gl.shader_type)) : option string :=
  match stages with
  | [] => None
  | (source, shader_type) :: stages' =>
      match gl.driver_compile g shader_type source with
      | Some log => Some log
      | None => first_compile_error g stages'
      end
  end.

(** The stages as the linker sees them. *)
Definition link_input (stages : list (string * gl.shader_type))
  : list (gl.shader_type * string) :=
  (λ stage, (snd stage, fst stage)) <$> stages.

(** A renderer in use: [recalculate] once, then after every edit of the
    tilemap again, on the same renderer object. *)
Definition recalculate_after_edits (cls : _OpenGLRenderer.Class)
    (edits : list Tilemap) : M unit :=
  (_OpenGLRenderer.recalculate cls ;;
   for_M edits
     (λ tm (_ : unit), edit_tilemap tm ;; _OpenGLRenderer.recalculate cls)
     tt)%M.

(** A tilemap has the dimensions the constants give. *)
Definition tilemap_wf `{Constants} (tm : Tilemap) : Prop :=
  0 ≤ TILEMAP_N_ROWS ∧ 0 ≤ TILEMAP_N_COLS
  ∧ length (map tm) = Z.to_nat (TILEMAP_N_ROWS * TILEMAP_N_COLS).

(** Its tile indices fit the unsigned 32-bit type of the data model. *)
Definition tiles_uint32 (tm : Tilemap) : Prop :=
  Forall (λ t, 0 ≤ t < 2 ^ 32) (map tm).

(** The renderer is constructed and its context works: every entry point
    answers, the three handles name live objects, the program is
    linked. *)
Definition ready (w : World) : Prop :=
  (∀ e, gl.fails (glstate w) e = false)
  ∧ ∃ program vbo vao pr,
      _shader_handle (self w) = Some program
      ∧ _vbo_handle (self w) = Some vbo
      ∧ _vao_handle (self w) = Some vao
      ∧ gl.programs (glstate w) !! program = Some pr
      ∧ gl.pr_linked pr = true
      ∧ is_Some (gl.buffers (glstate w) !! vbo)
      ∧ is_Some (gl.vertex_arrays (glstate w) !! vao).

(** ** Notions the results are stated with *)
Section Notions.
Context `{Constants}.
Import gl pyglet_math.

(** The context after [glBindBuffer(vbo)] and [glBufferData(data)]. *)
Definition uploaded (vbo : N) (data : gl.buffer_data) (g : gl.State)
  : gl.State :=
  gl.set_buffers (<[vbo := data]> (gl.buffers g))
                 (gl.set_array_buffer_binding vbo g).

(** The matrix the spec describes: projection, view and model composed. *)
Definition composed_matrix : Mat4 :=
  matmul
    (matmul
       (from_scale (mkVec3 (Qc_of_Z 2 / Qc_of_Z TILEMAP_N_COLS)
                           (Qc_of_Z 2 / Qc_of_Z TILEMAP_N_ROWS) (Qc_of_Z 0)))
       identity)
    (from_translation (mkVec3 (Qc_of_Z (- TILEMAP_N_COLS) / Qc_of_Z 2)
                              (Qc_of_Z (- TILEMAP_N_ROWS) / Qc_of_Z 2)
                              (Qc_of_Z 0))).

(** The arrays the loops leave behind. *)
Definition positions_of : list Qc :=
  range TILEMAP_N_COLS ≫= λ x, range TILEMAP_N_ROWS ≫= λ y, quad_positions x y.

Definition texcoords_of (tm : Tilemap) : list Qc :=
  range TILEMAP_N_COLS ≫= λ x,
    range TILEMAP_N_ROWS ≫= λ y,
      quad_texcoords (tile_at TILEMAP_N_COLS tm y x).

(** The place of the cell (x, y) in the row-major backing buffer. *)
Definition point_of (x y : Z) : nat := Z.to_nat (y * TILEMAP_N_COLS + x).

(** The cells in the order the CPU loops visit them, as points. *)
Definition column_major_points : list nat :=
  x ← range TILEMAP_N_COLS; y ← range TILEMAP_N_ROWS; [point_of x y].

(** The quad the geometry stage makes of the [k]-th uploaded point. *)
Definition stage_quad (tm : Tilemap) (k : nat) : list Qc :=
  GeometryStage.expand TILEMAP_N_COLS k (map tm !!! k).

(** What [recalculate] leaves: the world as it was, but for the buffer,
    which holds [data], and the vertex array, which describes it. *)
Definition recalculated (vbo vao : N) (data : buffer_data)
    (va : VertexArray) (w : World) : World :=
  set_glstate
    (set_vertex_arrays (<[vao := va]> (vertex_arrays (glstate w)))
       (set_array_buffer_binding vbo
          (set_vertex_array_binding vao (uploaded vbo data (glstate w))))) w.

(** The call a renderer's [draw] hands to the library. *)
Definition issued (mode : draw_mode) (count : Z) (w : World) : DrawCall :=
  mkDrawCall mode 0 count
    (default 0%N (_shader_handle (self w)))
    (_texture_id (self w))
    (vertex_arrays (glstate w) !! default 0%N (_vao_handle (self w)))
    (buffers (glstate w)).

(** The state [recalculate] establishes for the tilemap [tm]. *)
Definition in_sync (w0 : World) (vbo vao : N) (w : World) (tm : Tilemap)
  : Prop :=
  ready w ∧ self w = self w0 ∧ tilemap w = tm
  ∧ buffers (glstate w) !! vbo = Some (FloatData (layout tm))
  ∧ ∃ va, vertex_arrays (glstate w) !! vao = Some va
          ∧ va_pointers va !! 0%N
            = Some (mkAttribPointer vbo 2 GL_FLOAT false 16 0)
          ∧ va_pointers va !! 1%N
            = Some (mkAttribPointer vbo 2 GL_FLOAT false 16 8).

(** The loop over the stages has got as far as [seen], whose shaders are
    [hs]; nothing but the program and its shaders has been touched. *)
Definition compiling (w0 : World) (p : N) (v : World) (hs : list N)
    (seen : list (string * shader_type)) : Prop :=
  (∀ e, fails (glstate v) e = false)
  ∧ driver_compile (glstate v) = driver_compile (glstate w0)
  ∧ driver_link (glstate v) = driver_link (glstate w0)
  ∧ tilemap v = tilemap w0
  ∧ _shader_handle (self v) = Some p
  ∧ _vbo_handle (self v) = None ∧ _vao_handle (self v) = None
  ∧ buffers (glstate v) = buffers (glstate w0)
  ∧ vertex_arrays (glstate v) = vertex_arrays (glstate w0)
  ∧ (∃ pr, programs (glstate v) !! p = Some pr
           ∧ pr_linked pr = false ∧ pr_attached pr = hs)
  ∧ Forall2 (λ h stage, shaders (glstate v) !! h
                        = Some (mkShader (snd stage) (fst stage) true ""))
            hs seen
  ∧ Forall (λ h, (h < fresh (glstate v))%N) hs.

(** Construction has stopped short: no buffer, no vertex array, and the
    program the renderer holds is not linked. *)
Definition aborted (w0 v : World) : Prop :=
  tilemap v = tilemap w0
  ∧ _vbo_handle (self v) = None ∧ _vao_handle (self v) = None
  ∧ buffers (glstate v) = buffers (glstate w0)
  ∧ vertex_arrays (glstate v) = vertex_arrays (glstate w0)
  ∧ ∃ p pr, _shader_handle (self v) = Some p
            ∧ programs (glstate v) !! p = Some pr
            ∧ pr_linked pr = false.

End Notions.

(** ** A small configuration to run the code on

    A 4x4 atlas with a padding of 1/64 and a 3x3 tilemap whose last tile
    index, 99, names no cell of the atlas. *)
Module demo.

Definition constants : Constants := {|
  TEXTURE_N_TILES_PER_ROW := 4;
  TEXTURE_TILE_SIZE_NORMALIZED := Q2Qc (1 # 4);
  TEXTURE_TILE_PADDING := Q2Qc (1 # 64);
  TILEMAP_N_ROWS := 3;
  TILEMAP_N_COLS := 3;
  geom_source_with_constants := λ source, source
|}.

Definition tiles : Tilemap := {| map := [0; 1; 2; 3; 4; 5; 6; 7; 99]; texture_id := 7 |}.

Definition edited : Tilemap := {| map := [8; 7; 6; 5; 4; 3; 2; 1; 0]; texture_id := 7 |}.

(** A context in which every call works and the driver accepts
    everything, holding a linked program 1, a buffer 2 and a vertex
    array 3. *)
Definition context : gl.State := {|
  gl.fails := λ _, false;
  gl.driver_compile := λ _ _, None;
  gl.driver_link := λ _, None;
  gl.next_name := 4;
  gl.shaders := ∅;
  gl.programs := {[ 1%N := gl.mkProgram [] true "" ∅ ]};
  gl.buffers := {[ 2%N := gl.NoData ]};
  gl.vertex_arrays := {[ 3%N := gl.mkVertexArray [] ∅ ]};
  gl.array_buffer_binding := 0;
  gl.vertex_array_binding := 0;
  gl.texture_binding := 0;
  gl.current_program := 0;
  gl.draws := []
|}.

Definition files (name : string) : option string := Some "void main() {}".

(** A constructed renderer on that context. *)
Definition world : World := {|
  tilemap := tiles;
  self := mkRendererObject 7 (Some 1%N) (Some 2%N) (Some 3%N);
  glstate := context;
  shader_files := files
|}.

(** A fresh context whose driver rejects every fragment shader. *)
Definition rejecting_context : gl.State := {|
  gl.fails := λ _, false;
  gl.driver_compile := λ shader_type _,
    match shader_type with
    | gl.GL_FRAGMENT_SHADER => Some "0:1(1): error: syntax error"
    | _ => None
    end;
  gl.driver_link := λ _, None;
  gl.next_name := 1;
  gl.shaders := ∅;
  gl.programs := ∅;
  gl.buffers := ∅;
  gl.vertex_arrays := ∅;
  gl.array_buffer_binding := 0;
  gl.vertex_array_binding := 0;
  gl.texture_binding := 0;
  gl.current_program := 0;
  gl.draws := []
|}.

(** A fresh context whose driver accepts everything. *)
Definition accepting_context : gl.State := {|
  gl.fails := λ _, false;
  gl.driver_compile := λ _ _, None;
  gl.driver_link := λ _, None;
  gl.next_name := 1;
  gl.shaders := ∅;
  gl.programs := ∅;
  gl.buffers := ∅;
  gl.vertex_arrays := ∅;
  gl.array_buffer_binding := 0;
  gl.vertex_array_binding := 0;
  gl.texture_binding := 0;
  gl.current_program := 0;
  gl.draws := []
|}.

(** The world before a renderer is constructed on it, with the one driver
    and with the other. *)
Definition unconstructed_accepting : World := {|
  tilemap := tiles;
  self := mkRendererObject 0 None None None;
  glstate := accepting_context;
  shader_files := files
|}.

Definition unconstructed : World := {|
  tilemap := tiles;
  self := mkRendererObject 0 None None None;
  glstate := rejecting_context;
  shader_files := files
|}.

End demo.

(** ** How a draw reads a buffer through a vertex array

    The library reads, for vertex [k] and an attribute pointer, [ap_size]
    components starting [ap_offset + k * ap_stride] bytes into the buffer
    the pointer refers to; a component of either kind used here takes
    four bytes. *)
Definition fetch_attribute {A : Type} (ap : gl.AttribPointer) (data : list A)
    (k : nat) : list A :=
  let first := (gl.ap_offset ap + Z.of_nat k * gl.ap_stride ap) `div` 4 in
  take (Z.to_nat (gl.ap_size ap)) (drop (Z.to_nat first) data).

(** ** Configurations at the edges

    The small configuration with one thing changed at a time. *)
Module edge.

(** An atlas said to have no tiles in a row. *)
Definition no_atlas : Constants := {|
  TEXTURE_N_TILES_PER_ROW := 0;
  TEXTURE_TILE_SIZE_NORMALIZED := Q2Qc (1 # 4);
  TEXTURE_TILE_PADDING := Q2Qc (1 # 64);
  TILEMAP_N_ROWS := 3;
  TILEMAP_N_COLS := 3;
  geom_source_with_constants := λ source, source
|}.

(** A grid with no columns. *)
Definition empty_grid : Constants := {|
  TEXTURE_N_TILES_PER_ROW := 4;
  TEXTURE_TILE_SIZE_NORMALIZED := Q2Qc (1 # 4);
  TEXTURE_TILE_PADDING := Q2Qc (1 # 64);
  TILEMAP_N_ROWS := 3;
  TILEMAP_N_COLS := 0;
  geom_source_with_constants := λ source, source
|}.

(** Tilemaps with one tile more and one tile less than the 3x3 grid. *)
Definition surplus : Tilemap :=
  {| map := [0; 1; 2; 3; 4; 5; 6; 7; 8; 9]; texture_id := 7 |}.

Definition short : Tilemap :=
  {| map := [0; 1; 2; 3; 4; 5; 6; 7]; texture_id := 7 |}.


(** The world before construction, with an empty shader folder. *)
Definition no_files : World := {|
  tilemap := demo.tiles;
  self := mkRendererObject 0 None None None;
  glstate := demo.accepting_context;
  shader_files := λ _, None
|}.

End edge.

(** * Results *)

(** ** Lists written block by block *)
Section Blocks.
Context {A : Type}.
Implicit Types (l pre junk rest : list A).

(** A loop whose body overwrites the next [n] entries with [f a] writes
    the concatenation of the blocks. *)
Lemma for_each_blocks {B : Type} (P : B → Prop) (f : B → list A) (n : nat)
    (body : B → nat * list A → res (nat * list A)) :
  (∀ b, P b → length (f b) = n) →
  (∀ b pre junk rest, P b → length junk = n →
     body b (length pre, pre ++ junk ++ rest)
     = inr ((length pre + n)%nat, pre ++ f b ++ rest)) →
  ∀ bs pre junk rest, Forall P bs → length junk = (n * length bs)%nat →
     for_each bs body (length pre, pre ++ junk ++ rest)
     = inr ((length pre + n * length bs)%nat, pre ++ (bs ≫= f) ++ rest).
Proof.
  intros Hlen Hbody bs. induction bs as [|b bs IH]; intros pre junk rest HP Hj.
  - simpl in *. destruct junk; [|simpl in Hj; lia].
    simpl. do 2 f_equal. lia.
  - apply Forall_cons in HP as [Hb HP]. simpl.
    rewrite <-(take_drop n junk), <-(assoc_L (++) (take n junk)).
    rewrite Hbody; [|done|]; last first.
    { rewrite length_take. simpl in Hj. lia. }
    simpl. rewrite (assoc_L (++) pre (f b)).
    replace (length pre + n)%nat with (length (pre ++ f b))
      by (rewrite length_app, Hlen by done; lia).
    rewrite IH; [|done|]; last first.
    { rewrite length_drop. simpl in Hj. lia. }
    rewrite length_app, Hlen by done.
    rewrite <-!(assoc_L (++)). do 2 f_equal. lia.
Qed.

Lemma length_bind_const {B : Type} (f : B → list A) (n : nat) (bs : list B) :
  (∀ b, b ∈ bs → length (f b) = n) → length (bs ≫= f) = (n * length bs)%nat.
Proof.
  induction bs as [|b bs IH]; intros Hf; [simpl; lia|].
  rewrite bind_cons, length_app, Hf, IH; [simpl; lia| |left].
  intros b' Hb'. apply Hf. by right.
Qed.

(** The [k]-th block of a concatenation of blocks of [n]. *)
Lemma bind_block {B : Type} (f : B → list A) (n : nat) (bs : list B) k b :
  (∀ b, b ∈ bs → length (f b) = n) →
  bs !! k = Some b →
  take n (drop (n * k) (bs ≫= f)) = f b.
Proof.
  revert k. induction bs as [|b0 bs IH]; intros k Hf Hk; [done|].
  rewrite bind_cons. destruct k as [|k]; simpl in Hk.
  - injection Hk as ->. rewrite Nat.mul_0_r, drop_0.
    rewrite take_app_length'; [done|]. symmetry. apply Hf. left.
  - replace (n * S k)%nat with (length (f b0) + n * k)%nat
      by (rewrite Hf by left; lia).
    rewrite drop_app_add. apply IH; [|done].
    intros b' Hb'. apply Hf. by right.
Qed.

Lemma block_in_block l (n m k : nat) :
  (k + n ≤ m)%nat → take n (drop k l) = take n (drop k (take m l)).
Proof.
  intros Hk. rewrite !take_drop_commute, take_take. do 2 f_equal. lia.
Qed.

Lemma chunks_fuel_join (n : nat) (ls : list (list A)) fuel :
  (0 < n)%nat →
  Forall (λ l, length l = n) ls →
  (length ls ≤ fuel)%nat →
  chunks_fuel fuel n (mjoin ls) = ls.
Proof.
  intros Hn Hls. revert fuel.
  induction Hls as [|l ls Hl Hls IH]; intros fuel Hfuel.
  - by destruct fuel.
  - destruct fuel as [|fuel]; [simpl in Hfuel; lia|].
    simpl. destruct (l ++ mjoin ls) as [|a l'] eqn:E.
    { apply (f_equal length) in E. rewrite length_app in E. simpl in E. lia. }
    rewrite <-E. rewrite take_app_length', drop_app_length' by done.
    f_equal. apply IH. simpl in Hfuel; lia.
Qed.

Lemma length_join_const (n : nat) (ls : list (list A)) :
  Forall (λ l, length l = n) ls → length (mjoin ls) = (n * length ls)%nat.
Proof.
  induction 1 as [|l ls Hl _ IH]; simpl; [lia|].
  rewrite length_app, Hl, IH. lia.
Qed.

Lemma chunks_join (n : nat) (ls : list (list A)) :
  (0 < n)%nat →
  Forall (λ l, length l = n) ls →
  chunks n (mjoin ls) = ls.
Proof.
  intros Hn Hls. unfold chunks. apply chunks_fuel_join; [done..|].
  rewrite (length_join_const n) by done. nia.
Qed.

Lemma length_chunks_fuel (n k : nat) l fuel :
  (0 < n)%nat → length l = (n * k)%nat → (k ≤ fuel)%nat →
  length (chunks_fuel fuel n l) = k.
Proof.
  intros Hn. revert k l. induction fuel as [|fuel IH]; intros k l Hl Hk.
  - simpl. lia.
  - destruct k as [|k].
    { destruct l; [done|]. simpl in Hl. lia. }
    simpl. destruct l as [|a l]; [simpl in Hl; lia|].
    cbn [length]. f_equal. apply IH; [|lia].
    rewrite length_drop, Hl. lia.
Qed.

Lemma length_chunks (n k : nat) l :
  (0 < n)%nat → length l = (n * k)%nat → length (chunks n l) = k.
Proof.
  intros Hn Hl. unfold chunks. apply length_chunks_fuel; [done..|].
  rewrite Hl. nia.
Qed.

(** Flattening a doubly indexed family of blocks. *)
Lemma join_bind_singleton {B : Type} (q : B → list A) (bs : list B) :
  mjoin (bs ≫= λ b, [q b]) = bs ≫= q.
Proof.
  induction bs as [|b bs IH]; [done|].
  rewrite !bind_cons, join_app, IH. f_equal. simpl. apply app_nil_r.
Qed.

Lemma join_bind_bind_singleton {B C : Type} (q : B → C → list A)
    (bs : list B) (cs : list C) :
  mjoin (bs ≫= λ b, cs ≫= λ c, [q b c]) = bs ≫= λ b, cs ≫= λ c, q b c.
Proof.
  induction bs as [|b bs IH]; [done|].
  rewrite !bind_cons, join_app, IH. f_equal. apply join_bind_singleton.
Qed.

End Blocks.

(** ** The vertex data of [VertexBufferedRenderer] *)
Section VertexLayout.
Context `{Constants}.

Lemma elem_of_range n x : x ∈ range n ↔ 0 ≤ x < n.
Proof. unfold range. rewrite elem_of_seqZ. lia. Qed.

Lemma length_range n : length (range n) = Z.to_nat n.
Proof. unfold range. apply length_seqZ. Qed.

Lemma lookup_range n x : 0 ≤ x < n → range n !! Z.to_nat x = Some x.
Proof.
  intros Hx. unfold range. rewrite lookup_seqZ_lt by lia. f_equal. lia.
Qed.

Lemma getitem_ok tm x y :
  tilemap_wf tm → 0 ≤ x < TILEMAP_N_COLS → 0 ≤ y < TILEMAP_N_ROWS →
  tilemap_getitem TILEMAP_N_COLS tm y x = inr (tile_at TILEMAP_N_COLS tm y x).
Proof.
  intros (HR & HC & Hlen) Hx Hy. unfold tilemap_getitem, tile_at.
  rewrite decide_True by nia.
  rewrite list_lookup_lookup_total_lt; [done|].
  rewrite Hlen. nia.
Qed.

Lemma tx0_of_ok tile :
  TEXTURE_N_TILES_PER_ROW ≠ 0 →
  VertexBufferedRenderer.tx0_of tile = inr (atlas_tx0 tile).
Proof.
  intros HN. unfold VertexBufferedRenderer.tx0_of, py_mod.
  by rewrite decide_False.
Qed.

Lemma ty0_of_ok tile :
  TEXTURE_N_TILES_PER_ROW ≠ 0 →
  VertexBufferedRenderer.ty0_of tile = inr (atlas_ty0 tile).
Proof.
  intros HN. unfold VertexBufferedRenderer.ty0_of, py_floordiv.
  by rewrite decide_False.
Qed.

Lemma tSize_of_ok : VertexBufferedRenderer.tSize_of = atlas_size.
Proof.
  unfold VertexBufferedRenderer.tSize_of, atlas_size.
  by rewrite (Qcmult_comm TEXTURE_TILE_PADDING).
Qed.

Lemma store_vertex_app (a b c d w0 w1 w2 w3 : Qc) pre rest i :
  i = length pre →
  VertexBufferedRenderer.store_vertex a b c d
    (i, pre ++ w0 :: w1 :: w2 :: w3 :: rest)
  = inr ((i + 4)%nat, (pre ++ [a; b; c; d]) ++ rest).
Proof.
  intros ->. unfold VertexBufferedRenderer.store_vertex, setitem.
  repeat (rewrite decide_True
            by (rewrite ?length_insert, length_app; simpl; lia);
          cbn [res_bind]).
  rewrite !insert_app_r. simpl. by rewrite <-(assoc_L (++)).
Qed.

Lemma tile_body_app tm x y pre junk rest :
  tilemap_wf tm → TEXTURE_N_TILES_PER_ROW ≠ 0 →
  0 ≤ x < TILEMAP_N_COLS → 0 ≤ y < TILEMAP_N_ROWS →
  length junk = 24%nat →
  VertexBufferedRenderer.tile_body tm x y (length pre, pre ++ junk ++ rest)
  = inr ((length pre + 24)%nat,
         pre ++ quad x y (tile_at TILEMAP_N_COLS tm y x) ++ rest).
Proof.
  intros Hwf HN Hx Hy Hj.
  do 25 (destruct junk as [|? junk]; try discriminate Hj). clear Hj.
  unfold VertexBufferedRenderer.tile_body.
  rewrite getitem_ok by done. cbn [res_bind].
  rewrite tx0_of_ok by done. cbn [res_bind].
  rewrite ty0_of_ok by done. cbn [res_bind].
  rewrite tSize_of_ok. cbn [app].
  rewrite store_vertex_app by done. cbn [res_bind].
  do 5 (rewrite store_vertex_app by (rewrite !length_app; simpl; lia);
        cbn [res_bind]).
  f_equal. f_equal; [lia|].
  by rewrite <-!(assoc_L (++)).
Qed.

(** The nested loops write the tilemap's quads one after the other. *)
Lemma layout_nested tm :
  layout tm
  = range TILEMAP_N_COLS ≫= λ x,
      range TILEMAP_N_ROWS ≫= λ y, quad x y (tile_at TILEMAP_N_COLS tm y x).
Proof. unfold layout, quads. apply join_bind_bind_singleton. Qed.

Lemma length_column tm x :
  length (range TILEMAP_N_ROWS ≫= λ y,
            quad x y (tile_at TILEMAP_N_COLS tm y x))
  = (24 * Z.to_nat TILEMAP_N_ROWS)%nat.
Proof.
  rewrite (length_bind_const _ 24) by done. by rewrite length_range.
Qed.

Lemma length_layout tm :
  length (layout tm)
  = (24 * (Z.to_nat TILEMAP_N_ROWS * Z.to_nat TILEMAP_N_COLS))%nat.
Proof.
  rewrite layout_nested.
  rewrite (length_bind_const _ (24 * Z.to_nat TILEMAP_N_ROWS)).
  - rewrite length_range. lia.
  - intros x _. apply length_column.
Qed.

Lemma build_vertex_data_layout tm :
  tilemap_wf tm → TEXTURE_N_TILES_PER_ROW ≠ 0 →
  VertexBufferedRenderer.build_vertex_data tm = inr (layout tm).
Proof.
  intros Hwf HN. unfold VertexBufferedRenderer.build_vertex_data.
  pose proof Hwf as (HR & HC & Hlen).
  set (junk := replicate _ _).
  change (0%nat, junk) with (length (@nil Qc), [] ++ junk).
  rewrite <-(app_nil_r junk).
  rewrite (for_each_blocks (λ x, 0 ≤ x < TILEMAP_N_COLS)
             (λ x, range TILEMAP_N_ROWS ≫= λ y,
                     quad x y (tile_at TILEMAP_N_COLS tm y x))
             (24 * Z.to_nat TILEMAP_N_ROWS)).
  - simpl. by rewrite app_nil_r, layout_nested.
  - intros x _. apply length_column.
  - intros x pre junk' rest Hx Hj.
    rewrite (for_each_blocks (λ y, 0 ≤ y < TILEMAP_N_ROWS)
               (λ y, quad x y (tile_at TILEMAP_N_COLS tm y x)) 24).
    + by rewrite length_range.
    + done.
    + intros y pre' junk'' rest' Hy Hj'. by apply tile_body_app.
    + apply Forall_forall. intros y. apply elem_of_range.
    + by rewrite length_range.
  - apply Forall_forall. intros x. apply elem_of_range.
  - unfold junk. rewrite length_replicate, length_range.
    unfold tilemap_len. rewrite Hlen, Z2Nat.inj_mul by done. lia.
Qed.

(** Where the quad of a cell sits in the vertex data. *)
Lemma layout_block tm x y :
  0 ≤ x < TILEMAP_N_COLS → 0 ≤ y < TILEMAP_N_ROWS →
  take 24 (drop (Z.to_nat (24 * (x * TILEMAP_N_ROWS + y))) (layout tm))
  = quad x y (tile_at TILEMAP_N_COLS tm y x).
Proof.
  intros Hx Hy. rewrite layout_nested.
  replace (Z.to_nat (24 * (x * TILEMAP_N_ROWS + y)))
    with (24 * Z.to_nat TILEMAP_N_ROWS * Z.to_nat x + 24 * Z.to_nat y)%nat
    by nia.
  rewrite <-drop_drop.
  rewrite (block_in_block _ 24 (24 * Z.to_nat TILEMAP_N_ROWS))
    by (assert (Z.to_nat y < Z.to_nat TILEMAP_N_ROWS)%nat by lia; lia).
  rewrite (bind_block _ (24 * Z.to_nat TILEMAP_N_ROWS) _ _ x).
  - by rewrite (bind_block _ 24 _ _ y) by (done || by apply lookup_range).
  - intros x' _. apply length_column.
  - by apply lookup_range.
Qed.

End VertexLayout.

(** ** Running the stateful code *)
Section Running.

Lemma bind_Return {A B : Type} (m : M A) (k : A → M B) w a w' :
  m w = Return a w' → bind m k w = k a w'.
Proof. unfold bind. by intros ->. Qed.

Lemma bind_Raise {A B : Type} (m : M A) (k : A → M B) w e w' :
  m w = Raise e w' → bind m k w = Raise e w'.
Proof. unfold bind. by intros ->. Qed.

Lemma call_ok {A : Type} e (f : gl.State → res (A * gl.State)) w a g :
  gl.fails (glstate w) e = false →
  f (glstate w) = inr (a, g) →
  call e f w = Return a (set_glstate g w).
Proof. unfold call. by intros -> ->. Qed.

Lemma call_fails {A : Type} e (f : gl.State → res (A * gl.State)) w :
  gl.fails (glstate w) e = true →
  call e f w = Raise GLException w.
Proof. unfold call. by intros ->. Qed.

Lemma handle_arg_Some field w h :
  field (self w) = Some h → handle_arg field w = Return h w.
Proof. unfold handle_arg, bind, get_self. by intros ->. Qed.

Lemma handle_arg_None field w :
  field (self w) = None → handle_arg field w = Raise TypeError w.
Proof. unfold handle_arg, bind, get_self. by intros ->. Qed.

(** A bare [except] lets nothing through. *)
Lemma try_except_pass (m : M unit) w :
  ∃ w', try_except m (ret tt) w = Return tt w'.
Proof.
  unfold try_except, ret. destruct (m w) as [[] w'|e w']; eauto.
Qed.

End Running.

(** One step of a stateful sequence: [tac] shows what its first command
    returns, and the sequence goes on from there. *)
Ltac step_with tac :=
  lazymatch goal with
  | |- bind ?m ?k ?w = _ =>
      let Hs := fresh "Hs" in
      eassert (m w = Return _ _) as Hs by tac;
      rewrite (bind_Return m k w _ _ Hs); clear Hs; cbv beta
  end.

Ltac step_handle :=
  step_with ltac:(apply handle_arg_Some; simpl; eassumption).

Ltac step_call Hf tac :=
  step_with ltac:(apply call_ok; [simpl; apply Hf | simpl; tac; reflexivity]).

Ltac last_call Hf tac :=
  erewrite call_ok; [| simpl; apply Hf | simpl; tac; reflexivity].


(** ** The uploads *)
Section Uploads.
Context `{Constants}.

Lemma upload_ok w vbo (data : gl.buffer_data) :
  (∀ e, gl.fails (glstate w) e = false) →
  _vbo_handle (self w) = Some vbo →
  is_Some (gl.buffers (glstate w) !! vbo) →
  (vbo <- handle_arg _vbo_handle ;;
   call gl.BindBuffer (gl.glBindBuffer vbo) ;;
   call gl.BufferData (gl.glBufferData data))%M w
  = Return tt (set_glstate (uploaded vbo data (glstate w)) w).
Proof.
  intros Hf Hvbo [old Hold].
  cbv [bind handle_arg get_self get_tilemap lift ret call]. simpl.
  rewrite Hvbo, !Hf. unfold gl.glBindBuffer.
  rewrite decide_True by (right; by eexists). simpl.
  rewrite Hf. unfold gl.glBufferData. simpl. by rewrite Hold.
Qed.

Lemma vertex_update_vbo_spec w vbo :
  (∀ e, gl.fails (glstate w) e = false) →
  _vbo_handle (self w) = Some vbo →
  is_Some (gl.buffers (glstate w) !! vbo) →
  tilemap_wf (tilemap w) → TEXTURE_N_TILES_PER_ROW ≠ 0 →
  VertexBufferedRenderer._update_vbo w
  = Return tt (set_glstate
                 (uploaded vbo (gl.FloatData (layout (tilemap w))) (glstate w))
                 w).
Proof.
  intros Hf Hvbo Hold Hwf HN.
  rewrite <-(upload_ok w vbo) by done. destruct Hold as [old Hold].
  unfold VertexBufferedRenderer._update_vbo.
  cbv [bind handle_arg get_self get_tilemap lift ret call]. simpl.
  rewrite Hvbo, !Hf. unfold gl.glBindBuffer.
  rewrite decide_True by (right; by eexists). simpl.
  by rewrite build_vertex_data_layout.
Qed.

Lemma geom_update_vbo_spec w vbo :
  (∀ e, gl.fails (glstate w) e = false) →
  _vbo_handle (self w) = Some vbo →
  is_Some (gl.buffers (glstate w) !! vbo) →
  GeomBufferedRenderer._update_vbo w
  = Return tt (set_glstate
                 (uploaded vbo (gl.UIntData (c_uint32 <$> map (tilemap w)))
                           (glstate w))
                 w).
Proof.
  intros Hf Hvbo Hold.
  rewrite <-(upload_ok w vbo) by done. destruct Hold as [old Hold].
  unfold GeomBufferedRenderer._update_vbo.
  cbv [bind handle_arg get_self get_tilemap lift ret call]. simpl.
  rewrite Hvbo, !Hf. unfold gl.glBindBuffer.
  by rewrite decide_True by (right; by eexists).
Qed.

End Uploads.

(** ** The projection *)
Section Projection.
Context `{Constants}.
Import pyglet_math.

Lemma Qc_of_Z_nonzero z : z ≠ 0 → Qc_of_Z z ≠ Q2Qc 0.
Proof. intros Hz E. apply Hz, Z2Qc_inj. by rewrite E, Z2Qc_inj_0. Qed.

Lemma py_truediv_ok a b :
  b ≠ Q2Qc 0 → py_truediv a b = inr (a / b)%Qc.
Proof. intros Hb. unfold py_truediv. by rewrite decide_False. Qed.

Lemma get_projection_matrix_ok :
  TILEMAP_N_COLS ≠ 0 → TILEMAP_N_ROWS ≠ 0 →
  _AbstractRenderer._get_projection_matrix = inr composed_matrix.
Proof.
  intros HC HR. unfold _AbstractRenderer._get_projection_matrix.
  rewrite !py_truediv_ok by (by apply Qc_of_Z_nonzero).
  done.
Qed.

End Projection.

Section ProjectionClaims.
Context `{Constants}.
Import pyglet_math.


End ProjectionClaims.

Section LayoutClaims.
Context `{Constants}.

(** C1: for every non-negative tile index [t], the atlas computation of
    the vertex builder returns
    tx0 = (t % TEXTURE_N_TILES_PER_ROW) * TEXTURE_TILE_SIZE_NORMALIZED
          + TEXTURE_TILE_PADDING,
    ty0 = (t // TEXTURE_N_TILES_PER_ROW) * TEXTURE_TILE_SIZE_NORMALIZED
          + TEXTURE_TILE_PADDING and
    tSize = TEXTURE_TILE_SIZE_NORMALIZED - 2 * TEXTURE_TILE_PADDING; at
    the boundary indices 0, tiles_per_row - 1 and tiles_per_row this is
    the first cell of the first row, the last cell of the first row and
    the first cell of the second row. *)
Theorem atlas_rectangle_formula (t : Z) :
  0 < TEXTURE_N_TILES_PER_ROW → 0 ≤ t →
  let n := TEXTURE_N_TILES_PER_ROW in
  let size := TEXTURE_TILE_SIZE_NORMALIZED in
  let padding := TEXTURE_TILE_PADDING in
  VertexBufferedRenderer.tx0_of t
    = inr (Qc_of_Z (t `mod` n) * size + padding)%Qc
  ∧ VertexBufferedRenderer.ty0_of t
    = inr (Qc_of_Z (t `div` n) * size + padding)%Qc
  ∧ VertexBufferedRenderer.tSize_of = (size - Qc_of_Z 2 * padding)%Qc
  ∧ VertexBufferedRenderer.tx0_of 0 = inr padding
  ∧ VertexBufferedRenderer.ty0_of 0 = inr padding
  ∧ VertexBufferedRenderer.tx0_of (n - 1)
    = inr (Qc_of_Z (n - 1) * size + padding)%Qc
  ∧ VertexBufferedRenderer.ty0_of (n - 1) = inr padding
  ∧ VertexBufferedRenderer.tx0_of n = inr padding
  ∧ VertexBufferedRenderer.ty0_of n = inr (size + padding)%Qc.
Proof.
  intros Hn Ht n size padding.
  assert (n ≠ 0) as Hn0 by (unfold n; lia).
  rewrite !tx0_of_ok, !ty0_of_ok, tSize_of_ok by done.
  unfold atlas_tx0, atlas_ty0, atlas_size. fold n size padding.
  rewrite Z.mod_0_l, Z.div_0_l by done.
  rewrite (Z.mod_small (n - 1)), (Z.div_small (n - 1)) by lia.
  rewrite Z_mod_same_full, Z_div_same_full by done.
  rewrite Z2Qc_inj_0, Z2Qc_inj_1.
  repeat split; try (f_equal; ring).
Qed.

(** C3: in per-vertex mode the builder writes, for the tile at grid
    coordinate (x, y), exactly six vertices in the order top-left (x, y),
    top-right (x+1, y), bottom-left (x, y+1), top-right (x+1, y),
    bottom-left (x, y+1), bottom-right (x+1, y+1), each as its position
    in tile-grid units followed by the matching corner of the tile's
    atlas rectangle; the 24 numbers sit at offset 24 * (x * rows + y). *)
Theorem per_tile_six_vertices tm (x y : Z) :
  tilemap_wf tm → TEXTURE_N_TILES_PER_ROW ≠ 0 →
  0 ≤ x < TILEMAP_N_COLS → 0 ≤ y < TILEMAP_N_ROWS →
  ∃ vertex_data tile,
    VertexBufferedRenderer.build_vertex_data tm = inr vertex_data
    ∧ tilemap_getitem TILEMAP_N_COLS tm y x = inr tile
    ∧ let tx0 := (Qc_of_Z (tile `mod` TEXTURE_N_TILES_PER_ROW)
                  * TEXTURE_TILE_SIZE_NORMALIZED + TEXTURE_TILE_PADDING)%Qc in
      let ty0 := (Qc_of_Z (tile `div` TEXTURE_N_TILES_PER_ROW)
                  * TEXTURE_TILE_SIZE_NORMALIZED + TEXTURE_TILE_PADDING)%Qc in
      let tSize := (TEXTURE_TILE_SIZE_NORMALIZED
                    - Qc_of_Z 2 * TEXTURE_TILE_PADDING)%Qc in
      take 24 (drop (Z.to_nat (24 * (x * TILEMAP_N_ROWS + y))) vertex_data)
      = [ Qc_of_Z x; Qc_of_Z y; tx0; ty0;
          Qc_of_Z (x + 1); Qc_of_Z y; (tx0 + tSize)%Qc; ty0;
          Qc_of_Z x; Qc_of_Z (y + 1); tx0; (ty0 + tSize)%Qc;
          Qc_of_Z (x + 1); Qc_of_Z y; (tx0 + tSize)%Qc; ty0;
          Qc_of_Z x; Qc_of_Z (y + 1); tx0; (ty0 + tSize)%Qc;
          Qc_of_Z (x + 1); Qc_of_Z (y + 1);
          (tx0 + tSize)%Qc; (ty0 + tSize)%Qc ].
Proof.
  intros Hwf HN Hx Hy.
  exists (layout tm), (tile_at TILEMAP_N_COLS tm y x).
  split; [by apply build_vertex_data_layout|].
  split; [by apply getitem_ok|].
  cbv zeta. by rewrite layout_block.
Qed.

End LayoutClaims.

(** ** The two arrays of [Pyglet_VertexBufferedRenderer] *)
Section TwoArrays.
Context {A : Type}.
Implicit Types (l pre junk rest : list A).

(** As [for_each_blocks], for a body that fills two lists in step. *)
Lemma for_each_blocks2 {B : Type} (P : B → Prop) (f g : B → list A) (n : nat)
    (body : B → nat * (list A * list A) → res (nat * (list A * list A))) :
  (∀ b, P b → length (f b) = n ∧ length (g b) = n) →
  (∀ b pre1 junk1 rest1 pre2 junk2 rest2, P b →
     length pre2 = length pre1 → length junk1 = n → length junk2 = n →
     body b (length pre1, (pre1 ++ junk1 ++ rest1, pre2 ++ junk2 ++ rest2))
     = inr ((length pre1 + n)%nat,
            (pre1 ++ f b ++ rest1, pre2 ++ g b ++ rest2))) →
  ∀ bs pre1 junk1 rest1 pre2 junk2 rest2, Forall P bs →
     length pre2 = length pre1 →
     length junk1 = (n * length bs)%nat →
     length junk2 = (n * length bs)%nat →
     for_each bs body
       (length pre1, (pre1 ++ junk1 ++ rest1, pre2 ++ junk2 ++ rest2))
     = inr ((length pre1 + n * length bs)%nat,
            (pre1 ++ (bs ≫= f) ++ rest1, pre2 ++ (bs ≫= g) ++ rest2)).
Proof.
  intros Hlen Hbody bs. induction bs as [|b bs IH];
    intros pre1 junk1 rest1 pre2 junk2 rest2 HP Hpre Hj1 Hj2.
  - simpl in *. destruct junk1; [|simpl in Hj1; lia].
    destruct junk2; [|simpl in Hj2; lia].
    simpl. do 2 f_equal. lia.
  - apply Forall_cons in HP as [Hb HP]. destruct (Hlen b Hb) as [Hf Hg].
    simpl in Hj1, Hj2. cbn [for_each].
    rewrite <-(take_drop n junk1), <-(assoc_L (++) (take n junk1)).
    rewrite <-(take_drop n junk2), <-(assoc_L (++) (take n junk2)).
    rewrite Hbody; [|done|done|rewrite length_take; lia..].
    cbn [res_bind].
    rewrite (assoc_L (++) pre1 (f b)), (assoc_L (++) pre2 (g b)).
    replace (length pre1 + n)%nat with (length (pre1 ++ f b))
      by (rewrite length_app, Hf; lia).
    rewrite IH; [|done|rewrite !length_app; lia|rewrite length_drop; lia..].
    rewrite length_app, Hf, !bind_cons.
    rewrite <-!(assoc_L (++)). do 2 f_equal. cbn [length]. lia.
Qed.

End TwoArrays.

Section PygletLayout.
Context `{Constants}.
Import Pyglet_VertexBufferedRenderer.

Lemma pyglet_store_vertex_app (a b c d p0 p1 t0 t1 : Qc) pre1 rest1 pre2 rest2 i :
  i = length pre1 → length pre2 = length pre1 →
  store_vertex a b c d (i, (pre1 ++ p0 :: p1 :: rest1, pre2 ++ t0 :: t1 :: rest2))
  = inr ((i + 2)%nat, ((pre1 ++ [a; b]) ++ rest1, (pre2 ++ [c; d]) ++ rest2)).
Proof.
  intros -> Hpre. unfold store_vertex, setitem.
  repeat (rewrite decide_True
            by (rewrite ?length_insert, length_app; simpl; lia);
          cbn [res_bind]).
  rewrite !insert_app_r, <-Hpre, !insert_app_r. simpl.
  by rewrite <-!(assoc_L (++)).
Qed.

Lemma pyglet_tile_body_app tm x y pre1 junk1 rest1 pre2 junk2 rest2 :
  tilemap_wf tm → TEXTURE_N_TILES_PER_ROW ≠ 0 →
  0 ≤ x < TILEMAP_N_COLS → 0 ≤ y < TILEMAP_N_ROWS →
  length pre2 = length pre1 →
  length junk1 = 12%nat → length junk2 = 12%nat →
  tile_body tm x y (length pre1, (pre1 ++ junk1 ++ rest1, pre2 ++ junk2 ++ rest2))
  = inr ((length pre1 + 12)%nat,
         (pre1 ++ quad_positions x y ++ rest1,
          pre2 ++ quad_texcoords (tile_at TILEMAP_N_COLS tm y x) ++ rest2)).
Proof.
  intros Hwf HN Hx Hy Hpre Hj1 Hj2.
  do 13 (destruct junk1 as [|? junk1]; try discriminate Hj1). clear Hj1.
  do 13 (destruct junk2 as [|? junk2]; try discriminate Hj2). clear Hj2.
  unfold tile_body.
  rewrite getitem_ok by done. cbn [res_bind].
  change (tx0_of ?t) with (VertexBufferedRenderer.tx0_of t).
  change (ty0_of ?t) with (VertexBufferedRenderer.ty0_of t).
  change tSize_of with VertexBufferedRenderer.tSize_of.
  rewrite tx0_of_ok by done. cbn [res_bind].
  rewrite ty0_of_ok by done. cbn [res_bind].
  rewrite tSize_of_ok. cbn [app].
  rewrite pyglet_store_vertex_app by done. cbn [res_bind].
  do 5 (rewrite pyglet_store_vertex_app by (rewrite !length_app; simpl; lia);
        cbn [res_bind]).
  f_equal. f_equal; [lia|].
  by rewrite <-!(assoc_L (++)).
Qed.

Lemma length_positions_column x :
  length (range TILEMAP_N_ROWS ≫= λ y, quad_positions x y)
  = (12 * Z.to_nat TILEMAP_N_ROWS)%nat.
Proof. rewrite (length_bind_const _ 12) by done. by rewrite length_range. Qed.

Lemma length_texcoords_column tm x :
  length (range TILEMAP_N_ROWS ≫= λ y,
            quad_texcoords (tile_at TILEMAP_N_COLS tm y x))
  = (12 * Z.to_nat TILEMAP_N_ROWS)%nat.
Proof. rewrite (length_bind_const _ 12) by done. by rewrite length_range. Qed.

Lemma length_positions_of :
  length positions_of
  = (12 * (Z.to_nat TILEMAP_N_ROWS * Z.to_nat TILEMAP_N_COLS))%nat.
Proof.
  unfold positions_of.
  rewrite (length_bind_const _ (12 * Z.to_nat TILEMAP_N_ROWS)).
  - rewrite length_range. lia.
  - intros x _. apply length_positions_column.
Qed.

Lemma length_texcoords_of tm :
  length (texcoords_of tm)
  = (12 * (Z.to_nat TILEMAP_N_ROWS * Z.to_nat TILEMAP_N_COLS))%nat.
Proof.
  unfold texcoords_of.
  rewrite (length_bind_const _ (12 * Z.to_nat TILEMAP_N_ROWS)).
  - rewrite length_range. lia.
  - intros x _. apply length_texcoords_column.
Qed.

Lemma pyglet_update_vbo_arrays tm :
  tilemap_wf tm → TEXTURE_N_TILES_PER_ROW ≠ 0 →
  _update_vbo tm (_allocate_vbo_vao tm)
  = inr (mkVertexList positions_of (texcoords_of tm)).
Proof.
  intros Hwf HN. pose proof Hwf as (HR & HC & Hlen).
  unfold _update_vbo, _allocate_vbo_vao, vertex_list. cbn [aPosition aTexCoord].
  rewrite !length_replicate.
  set (junk := replicate _ (Qc_of_Z 0)).
  assert (length junk
          = (12 * Z.to_nat TILEMAP_N_ROWS * length (range TILEMAP_N_COLS))%nat)
    as Hjunk.
  { unfold junk. rewrite length_replicate, length_range.
    unfold tilemap_len, n_coords_vertex_position.
    rewrite Hlen, Z2Nat.inj_mul by done. lia. }
  change (0%nat, (junk, junk))
    with (length (@nil Qc), ([] ++ junk, [] ++ junk)).
  rewrite <-(app_nil_r junk).
  rewrite (for_each_blocks2 (λ x, 0 ≤ x < TILEMAP_N_COLS)
             (λ x, range TILEMAP_N_ROWS ≫= λ y, quad_positions x y)
             (λ x, range TILEMAP_N_ROWS ≫= λ y,
                     quad_texcoords (tile_at TILEMAP_N_COLS tm y x))
             (12 * Z.to_nat TILEMAP_N_ROWS)).
  - cbn [res_bind app]. rewrite !app_nil_r.
    fold positions_of. fold (texcoords_of tm).
    unfold assign_slice.
    rewrite !decide_True; [done|..].
    + rewrite length_texcoords_of, Hjunk, length_range. lia.
    + rewrite length_positions_of, Hjunk, length_range. lia.
  - intros x _. split; [apply length_positions_column|].
    apply length_texcoords_column.
  - intros x pre1 junk1 rest1 pre2 junk2 rest2 Hx Hpre Hj1 Hj2.
    rewrite (for_each_blocks2 (λ y, 0 ≤ y < TILEMAP_N_ROWS)
               (λ y, quad_positions x y)
               (λ y, quad_texcoords (tile_at TILEMAP_N_COLS tm y x)) 12).
    + by rewrite length_range.
    + done.
    + intros y p1 j1 r1 p2 j2 r2 Hy Hp Hj1' Hj2'.
      by apply pyglet_tile_body_app.
    + apply Forall_forall. intros y. apply elem_of_range.
    + done.
    + by rewrite length_range.
    + by rewrite length_range.
  - apply Forall_forall. intros x. apply elem_of_range.
  - done.
  - done.
  - done.
Qed.

Lemma interleave_quad x y t ps ts :
  interleave (quad_positions x y ++ ps) (quad_texcoords t ++ ts)
  = quad x y t ++ interleave ps ts.
Proof. done. Qed.

Lemma interleave_column (q : Z → Z) x ys ps ts :
  interleave ((ys ≫= λ y, quad_positions x y) ++ ps)
             ((ys ≫= λ y, quad_texcoords (q y)) ++ ts)
  = (ys ≫= λ y, quad x y (q y)) ++ interleave ps ts.
Proof.
  induction ys as [|y ys IH]; [done|].
  rewrite !bind_cons, <-!(assoc_L (++)), interleave_quad. by rewrite IH.
Qed.

Lemma interleave_columns tm xs ps ts :
  interleave
    ((xs ≫= λ x, range TILEMAP_N_ROWS ≫= λ y, quad_positions x y) ++ ps)
    ((xs ≫= λ x, range TILEMAP_N_ROWS ≫= λ y,
                   quad_texcoords (tile_at TILEMAP_N_COLS tm y x)) ++ ts)
  = (xs ≫= λ x, range TILEMAP_N_ROWS ≫= λ y,
                  quad x y (tile_at TILEMAP_N_COLS tm y x))
    ++ interleave ps ts.
Proof.
  induction xs as [|x xs IH]; [done|].
  rewrite !bind_cons, <-!(assoc_L (++)).
  rewrite (interleave_column (λ y, tile_at TILEMAP_N_COLS tm y x)).
  by rewrite IH.
Qed.

Lemma interleave_layout tm :
  interleave positions_of (texcoords_of tm) = layout tm.
Proof.
  rewrite layout_nested. unfold positions_of, texcoords_of.
  pose proof (interleave_columns tm (range TILEMAP_N_COLS) [] []) as E.
  rewrite !app_nil_r in E. exact E.
Qed.

(** C10: the renderer that works through the library's vertex list has
    the same [recalculate] entry point and, for every tilemap, leaves a
    position array and a texture-coordinate array whose interleaving,
    vertex by vertex, is the vertex buffer that [VertexBufferedRenderer]
    builds for the same tilemap. *)
Theorem pyglet_arrays_interleave_to_vertex_buffer tm :
  tilemap_wf tm → TEXTURE_N_TILES_PER_ROW ≠ 0 →
  ∃ vertex_list vertex_data,
    recalculate tm (_allocate_vbo_vao tm) = inr vertex_list
    ∧ VertexBufferedRenderer.build_vertex_data tm = inr vertex_data
    ∧ interleave (aPosition vertex_list) (aTexCoord vertex_list) = vertex_data.
Proof.
  intros Hwf HN.
  exists (mkVertexList positions_of (texcoords_of tm)), (layout tm).
  split; [by apply pyglet_update_vbo_arrays|].
  split; [by apply build_vertex_data_layout|].
  apply interleave_layout.
Qed.

End PygletLayout.

(** ** The two expansion modes *)
Section Modes.
Context `{Constants}.

Lemma c_uint32_id t : 0 ≤ t < 2 ^ 32 → c_uint32 t = t.
Proof. intros Ht. unfold c_uint32. by apply Z.mod_small. Qed.

Lemma uint32_buffer tm : tiles_uint32 tm → c_uint32 <$> map tm = map tm.
Proof.
  unfold tiles_uint32. induction 1 as [|t ts Ht _ IH]; [done|].
  rewrite fmap_cons, IH. by rewrite c_uint32_id.
Qed.

Lemma quads_length tm : Forall (λ q, length q = 24%nat) (quads tm).
Proof.
  unfold quads. apply Forall_bind, Forall_forall. intros x _.
  apply Forall_bind, Forall_forall. intros y _. by constructor.
Qed.

Lemma quads_of_layout tm : quads_of_buffer (layout tm) = quads tm.
Proof.
  unfold quads_of_buffer, layout. apply chunks_join; [lia|].
  apply quads_length.
Qed.

Lemma elem_of_column_major_points k :
  k ∈ column_major_points
  ↔ ∃ x y, 0 ≤ x < TILEMAP_N_COLS ∧ 0 ≤ y < TILEMAP_N_ROWS ∧ k = point_of x y.
Proof.
  unfold column_major_points. rewrite list_elem_of_bind. split.
  - intros (x & Hk & Hx). apply list_elem_of_bind in Hk as (y & Hk & Hy).
    apply list_elem_of_singleton in Hk.
    exists x, y. by rewrite <-!elem_of_range.
  - intros (x & y & Hx & Hy & ->). exists x. rewrite elem_of_range.
    split; [|done]. apply list_elem_of_bind. exists y.
    rewrite elem_of_range, list_elem_of_singleton. done.
Qed.

Lemma point_of_inj x1 y1 x2 y2 :
  0 ≤ x1 < TILEMAP_N_COLS → 0 ≤ x2 < TILEMAP_N_COLS → 0 ≤ y1 → 0 ≤ y2 →
  point_of x1 y1 = point_of x2 y2 → x1 = x2 ∧ y1 = y2.
Proof.
  unfold point_of. intros Hx1 Hx2 Hy1 Hy2 E.
  apply Z2Nat.inj in E; [|nia..].
  assert (y1 = y2) by nia. lia.
Qed.

Lemma NoDup_column_major_points : NoDup column_major_points.
Proof.
  unfold column_major_points. apply NoDup_bind; [| |apply NoDup_seqZ].
  - intros x1 x2 k Hx1%elem_of_range Hx2%elem_of_range Hk1 Hk2.
    apply list_elem_of_bind in Hk1 as (y1 & ->%list_elem_of_singleton & Hy1).
    apply list_elem_of_bind in Hk2 as (y2 & E%list_elem_of_singleton & Hy2).
    apply elem_of_range in Hy1, Hy2.
    by apply point_of_inj in E as [-> _]; [|lia..].
  - intros x Hx%elem_of_range. apply NoDup_bind; [| |apply NoDup_seqZ].
    + intros y1 y2 k Hy1%elem_of_range Hy2%elem_of_range
        ->%list_elem_of_singleton E%list_elem_of_singleton.
      by apply point_of_inj in E as [_ ->]; [|lia..].
    + intros y _. apply NoDup_singleton.
Qed.

Lemma column_major_points_perm :
  0 ≤ TILEMAP_N_ROWS → 0 ≤ TILEMAP_N_COLS →
  column_major_points
  ≡ₚ seq 0 (Z.to_nat (TILEMAP_N_ROWS * TILEMAP_N_COLS)).
Proof.
  intros HR HC.
  apply NoDup_Permutation; [apply NoDup_column_major_points|apply NoDup_seq|].
  intros k. rewrite elem_of_column_major_points, elem_of_seq. split.
  - intros (x & y & Hx & Hy & ->). unfold point_of. nia.
  - intros [_ Hk].
    assert (0 < TILEMAP_N_COLS) as HC' by nia.
    exists (Z.of_nat k `mod` TILEMAP_N_COLS), (Z.of_nat k `div` TILEMAP_N_COLS).
    split; [by apply Z.mod_pos_bound|]. split.
    + split; [apply Z.div_pos; lia|].
      apply Z.div_lt_upper_bound; [done|]. nia.
    + unfold point_of.
      rewrite (Z.mul_comm _ TILEMAP_N_COLS), <-Z.div_mod by lia. lia.
Qed.

Lemma expand_all_seq tm :
  GeometryStage.expand_all TILEMAP_N_COLS (map tm)
  = stage_quad tm <$> seq 0 (length (map tm)).
Proof.
  unfold GeometryStage.expand_all. rewrite <-imap_seq_0.
  apply imap_ext. intros k t Hk. unfold stage_quad.
  by rewrite (list_lookup_total_correct _ _ _ Hk).
Qed.

Lemma stage_quad_point tm x y :
  0 ≤ x < TILEMAP_N_COLS → 0 ≤ y →
  stage_quad tm (point_of x y) = quad x y (tile_at TILEMAP_N_COLS tm y x).
Proof.
  intros Hx Hy. unfold stage_quad, GeometryStage.expand, point_of, tile_at.
  rewrite Z2Nat.id by nia.
  assert ((y * TILEMAP_N_COLS + x) `mod` TILEMAP_N_COLS = x) as ->.
  { rewrite Z.add_comm, Z.mod_add by lia. by apply Z.mod_small. }
  assert ((y * TILEMAP_N_COLS + x) `div` TILEMAP_N_COLS = y) as ->.
  { rewrite Z.add_comm, Z.div_add by lia. rewrite Z.div_small by lia. lia. }
  done.
Qed.

Lemma fmap_list_bind {A B C : Type} (g : B → C) (f : A → list B) (l : list A) :
  g <$> (l ≫= f) = l ≫= λ a, g <$> f a.
Proof.
  induction l as [|a l IH]; [done|]. by rewrite !bind_cons, fmap_app, IH.
Qed.

Lemma quads_as_points tm : quads tm = stage_quad tm <$> column_major_points.
Proof.
  unfold quads, column_major_points. rewrite fmap_list_bind.
  apply Forall_bind_ext, Forall_forall. intros x Hx%elem_of_range.
  rewrite fmap_list_bind.
  apply Forall_bind_ext, Forall_forall. intros y Hy%elem_of_range.
  rewrite list_fmap_singleton, stage_quad_point; [done|lia..].
Qed.

(** C4: for the same tilemap and atlas constants, expanding each tile
    index uploaded by the point mode with the geometry rule gives the
    quads that the per-vertex mode writes into its buffer: the same
    6-vertex quads, each as often, in the order of the draw instead of
    the order of the loops. *)
Theorem modes_produce_same_quads w vbo :
  (∀ e, gl.fails (glstate w) e = false) →
  _vbo_handle (self w) = Some vbo →
  is_Some (gl.buffers (glstate w) !! vbo) →
  tilemap_wf (tilemap w) → tiles_uint32 (tilemap w) →
  TEXTURE_N_TILES_PER_ROW ≠ 0 →
  ∃ w1 w2 vertex_data points,
    VertexBufferedRenderer._update_vbo w = Return tt w1
    ∧ gl.buffers (glstate w1) !! vbo = Some (gl.FloatData vertex_data)
    ∧ GeomBufferedRenderer._update_vbo w = Return tt w2
    ∧ gl.buffers (glstate w2) !! vbo = Some (gl.UIntData points)
    ∧ GeometryStage.expand_all TILEMAP_N_COLS points
      ≡ₚ quads_of_buffer vertex_data.
Proof.
  intros Hf Hvbo Hbuf Hwf Hu32 HN.
  eexists _, _, (layout (tilemap w)), (map (tilemap w)).
  split; [by apply vertex_update_vbo_spec|].
  split; [simpl; by rewrite lookup_insert_eq|].
  split; [by apply geom_update_vbo_spec|].
  split; [simpl; by rewrite lookup_insert_eq, uint32_buffer|].
  rewrite quads_of_layout, quads_as_points, expand_all_seq.
  destruct Hwf as (HR & HC & ->).
  by rewrite column_major_points_perm.
Qed.

End Modes.

(** ** Vertex arrays, [recalculate] and [draw] *)
Section Recalculate.
Context `{Constants}.
Import gl.

Lemma glBindVertexArray_ok g vao :
  is_Some (vertex_arrays g !! vao) →
  glBindVertexArray vao g = inr (tt, set_vertex_array_binding vao g).
Proof.
  intros Hva. unfold glBindVertexArray. rewrite decide_True; [done|by right].
Qed.

Lemma glBindBuffer_ok g vbo :
  is_Some (buffers g !! vbo) →
  glBindBuffer vbo g = inr (tt, set_array_buffer_binding vbo g).
Proof.
  intros Hb. unfold glBindBuffer. rewrite decide_True; [done|by right].
Qed.

Lemma vertex_update_vao_spec w vbo vao :
  (∀ e, fails (glstate w) e = false) →
  _vbo_handle (self w) = Some vbo →
  _vao_handle (self w) = Some vao →
  is_Some (buffers (glstate w) !! vbo) →
  is_Some (vertex_arrays (glstate w) !! vao) →
  ∃ va,
    VertexBufferedRenderer._update_vao w
    = Return tt
        (set_glstate
           (set_vertex_arrays (<[vao := va]> (vertex_arrays (glstate w)))
              (set_array_buffer_binding vbo
                 (set_vertex_array_binding vao (glstate w)))) w)
    ∧ va_pointers va !! 0%N = Some (mkAttribPointer vbo 2 GL_FLOAT false 16 0)
    ∧ va_pointers va !! 1%N = Some (mkAttribPointer vbo 2 GL_FLOAT false 16 8).
Proof.
  intros Hf Hvbo Hvao Hb [va0 Hva].
  eexists. split.
  - unfold VertexBufferedRenderer._update_vao.
    step_handle.
    step_call Hf ltac:(rewrite glBindVertexArray_ok by eauto).
    step_handle.
    step_call Hf ltac:(rewrite glBindBuffer_ok by eauto).
    unfold glEnableVertexAttribArray, glVertexAttribPointer, attrib_pointer.
    step_call Hf ltac:(rewrite Hva).
    step_call Hf ltac:(rewrite lookup_insert_eq).
    step_call Hf ltac:(rewrite lookup_insert_eq).
    last_call Hf ltac:(rewrite lookup_insert_eq).
    simpl. rewrite !insert_insert_eq. reflexivity.
  - simpl. by rewrite lookup_insert_ne, !lookup_insert_eq.
Qed.

Lemma geom_update_vao_spec w vbo vao :
  (∀ e, fails (glstate w) e = false) →
  _vbo_handle (self w) = Some vbo →
  _vao_handle (self w) = Some vao →
  is_Some (buffers (glstate w) !! vbo) →
  is_Some (vertex_arrays (glstate w) !! vao) →
  ∃ va,
    GeomBufferedRenderer._update_vao w
    = Return tt
        (set_glstate
           (set_vertex_arrays (<[vao := va]> (vertex_arrays (glstate w)))
              (set_array_buffer_binding vbo
                 (set_vertex_array_binding vao (glstate w)))) w)
    ∧ va_pointers va !! 0%N
      = Some (mkAttribPointer vbo 1 GL_UNSIGNED_INT true 4 0).
Proof.
  intros Hf Hvbo Hvao Hb [va0 Hva].
  eexists. split.
  - unfold GeomBufferedRenderer._update_vao.
    step_handle.
    step_call Hf ltac:(rewrite glBindVertexArray_ok by eauto).
    step_handle.
    step_call Hf ltac:(rewrite glBindBuffer_ok by eauto).
    unfold glEnableVertexAttribArray, glVertexAttribIPointer, attrib_pointer.
    step_call Hf ltac:(rewrite Hva).
    last_call Hf ltac:(rewrite lookup_insert_eq).
    simpl. rewrite !insert_insert_eq. reflexivity.
  - simpl. by rewrite lookup_insert_eq.
Qed.

Lemma recalculated_ready vbo vao data va w :
  ready w →
  _vbo_handle (self w) = Some vbo → _vao_handle (self w) = Some vao →
  ready (recalculated vbo vao data va w).
Proof.
  intros (Hf & p & vbo' & vao' & pr & Hp & Hvbo' & Hvao' & Hpr & Hl & Hb & Hva)
         Hvbo Hvao.
  assert (vbo' = vbo) as -> by congruence.
  assert (vao' = vao) as -> by congruence.
  split; [done|]. exists p, vbo, vao, pr. simpl.
  rewrite !lookup_insert_eq. eauto 10.
Qed.

Lemma vertex_recalculate_spec w vbo vao :
  ready w →
  _vbo_handle (self w) = Some vbo → _vao_handle (self w) = Some vao →
  tilemap_wf (tilemap w) → TEXTURE_N_TILES_PER_ROW ≠ 0 →
  ∃ va,
    _OpenGLRenderer.recalculate VertexBufferedRenderer.cls w
    = Return tt (recalculated vbo vao (FloatData (layout (tilemap w))) va w)
    ∧ va_pointers va !! 0%N = Some (mkAttribPointer vbo 2 GL_FLOAT false 16 0)
    ∧ va_pointers va !! 1%N = Some (mkAttribPointer vbo 2 GL_FLOAT false 16 8).
Proof.
  intros (Hf & p & vbo' & vao' & pr & Hp & Hvbo' & Hvao' & Hpr & Hl & Hb & Hva)
         Hvbo Hvao Hwf HN.
  assert (vbo' = vbo) as -> by congruence.
  assert (vao' = vao) as -> by congruence.
  unfold _OpenGLRenderer.recalculate. simpl.
  erewrite bind_Return by (by apply vertex_update_vbo_spec).
  edestruct (vertex_update_vao_spec
               (set_glstate (uploaded vbo (FloatData (layout (tilemap w)))
                                      (glstate w)) w) vbo vao)
    as (va & Hrun & Hp0 & Hp1); [done..| |done|].
  { simpl. by rewrite lookup_insert_eq. }
  exists va. by rewrite Hrun.
Qed.

Lemma geom_recalculate_spec w vbo vao :
  ready w →
  _vbo_handle (self w) = Some vbo → _vao_handle (self w) = Some vao →
  ∃ va,
    _OpenGLRenderer.recalculate GeomBufferedRenderer.cls w
    = Return tt (recalculated vbo vao
                   (UIntData (c_uint32 <$> map (tilemap w))) va w)
    ∧ va_pointers va !! 0%N
      = Some (mkAttribPointer vbo 1 GL_UNSIGNED_INT true 4 0).
Proof.
  intros (Hf & p & vbo' & vao' & pr & Hp & Hvbo' & Hvao' & Hpr & Hl & Hb & Hva)
         Hvbo Hvao.
  assert (vbo' = vbo) as -> by congruence.
  assert (vao' = vao) as -> by congruence.
  unfold _OpenGLRenderer.recalculate. simpl.
  erewrite bind_Return by (by apply geom_update_vbo_spec).
  edestruct (geom_update_vao_spec
               (set_glstate (uploaded vbo
                               (UIntData (c_uint32 <$> map (tilemap w)))
                               (glstate w)) w) vbo vao)
    as (va & Hrun & Hp0); [done..| |done|].
  { simpl. by rewrite lookup_insert_eq. }
  exists va. by rewrite Hrun.
Qed.

End Recalculate.

Section Draw.
Context `{Constants}.
Import gl.

Lemma prepare_params_matrix w p name m :
  (∀ e, fails (glstate w) e = false) →
  _shader_handle (self w) = Some p →
  is_Some (programs (glstate w) !! p) →
  _OpenGLRenderer._prepare_params_to_set_uniform name (_OpenGLRenderer.ArgMat4 m) w
  = Return (name, UFloats (pyglet_math.entries m)) w.
Proof.
  intros Hf Hp [pr Hpr]. unfold _OpenGLRenderer._prepare_params_to_set_uniform.
  step_handle.
  step_call Hf ltac:(unfold glGetUniformLocation; rewrite Hpr).
  by destruct w as [? ? [] ?].
Qed.

Lemma prepare_params_int w p name z :
  (∀ e, fails (glstate w) e = false) →
  _shader_handle (self w) = Some p →
  is_Some (programs (glstate w) !! p) →
  _OpenGLRenderer._prepare_params_to_set_uniform name (_OpenGLRenderer.ArgInt z) w
  = Return (name, UInt z) w.
Proof.
  intros Hf Hp [pr Hpr]. unfold _OpenGLRenderer._prepare_params_to_set_uniform.
  step_handle.
  step_call Hf ltac:(unfold glGetUniformLocation; rewrite Hpr).
  by destruct w as [? ? [] ?].
Qed.

Lemma vertex_draw_spec w :
  ready w → TILEMAP_N_COLS ≠ 0 → TILEMAP_N_ROWS ≠ 0 →
  ∃ w',
    VertexBufferedRenderer.draw w = Return tt w'
    ∧ tilemap w' = tilemap w ∧ self w' = self w
    ∧ buffers (glstate w') = buffers (glstate w)
    ∧ vertex_arrays (glstate w') = vertex_arrays (glstate w)
    ∧ draws (glstate w')
      = draws (glstate w)
        ++ [issued GL_TRIANGLES (Z.of_nat (tilemap_len (tilemap w)) * 6) w].
Proof.
  intros (Hf & p & vbo & vao & pr & Hp & Hvbo & Hvao & Hpr & Hl & Hb & Hva)
         HC HR.
  eexists. split.
  - unfold VertexBufferedRenderer.draw.
    step_with ltac:(reflexivity).
    step_call Hf ltac:(unfold glBindTexture).
    step_handle.
    step_call Hf ltac:(rewrite glBindVertexArray_ok by eauto).
    step_with ltac:(unfold lift; rewrite get_projection_matrix_ok by done;
                    reflexivity).
    step_with ltac:(apply (prepare_params_matrix _ p);
                    [done|done|simpl; by eexists]).
    cbv beta iota.
    step_handle.
    step_call Hf ltac:(unfold glProgramUniformMatrix4fv, program_uniform;
                       simpl; rewrite Hpr).
    step_handle.
    step_call Hf ltac:(unfold glUseProgram; simpl; rewrite lookup_insert_eq;
                       simpl; rewrite Hl).
    step_with ltac:(reflexivity).
    last_call Hf ltac:(unfold glDrawArrays).
    reflexivity.
  - simpl. unfold issued. rewrite Hp, Hvao. simpl. done.
Qed.

Lemma geom_draw_spec w :
  ready w → TILEMAP_N_COLS ≠ 0 → TILEMAP_N_ROWS ≠ 0 →
  ∃ w',
    GeomBufferedRenderer.draw w = Return tt w'
    ∧ tilemap w' = tilemap w ∧ self w' = self w
    ∧ buffers (glstate w') = buffers (glstate w)
    ∧ vertex_arrays (glstate w') = vertex_arrays (glstate w)
    ∧ draws (glstate w')
      = draws (glstate w)
        ++ [issued GL_POINTS (Z.of_nat (tilemap_len (tilemap w))) w].
Proof.
  intros (Hf & p & vbo & vao & pr & Hp & Hvbo & Hvao & Hpr & Hl & Hb & Hva)
         HC HR.
  eexists. split.
  - unfold GeomBufferedRenderer.draw.
    step_with ltac:(reflexivity).
    step_call Hf ltac:(unfold glBindTexture).
    step_handle.
    step_call Hf ltac:(rewrite glBindVertexArray_ok by eauto).
    step_with ltac:(unfold lift; rewrite get_projection_matrix_ok by done;
                    reflexivity).
    step_with ltac:(apply (prepare_params_matrix _ p);
                    [done|done|simpl; by eexists]).
    cbv beta iota.
    step_handle.
    step_call Hf ltac:(unfold glProgramUniformMatrix4fv, program_uniform;
                       simpl; rewrite Hpr).
    step_with ltac:(apply (prepare_params_int _ p);
                    [done|done|simpl; rewrite lookup_insert_eq; by eexists]).
    cbv beta iota.
    step_handle.
    step_call Hf ltac:(unfold glProgramUniform1i, program_uniform;
                       simpl; rewrite lookup_insert_eq).
    step_handle.
    step_call Hf ltac:(unfold glUseProgram; simpl; rewrite lookup_insert_eq;
                       simpl; rewrite Hl).
    step_with ltac:(reflexivity).
    last_call Hf ltac:(unfold glDrawArrays).
    reflexivity.
  - simpl. unfold issued. rewrite Hp, Hvao. simpl. done.
Qed.

End Draw.

Section RendererClaims.
Context `{Constants}.
Import gl.

Lemma ready_handles w :
  ready w →
  ∃ vbo vao,
    _vbo_handle (self w) = Some vbo ∧ _vao_handle (self w) = Some vao
    ∧ is_Some (buffers (glstate w) !! vbo).
Proof.
  intros (_ & p & vbo & vao & pr & _ & Hvbo & Hvao & _ & _ & Hb & _).
  by exists vbo, vao.
Qed.

Lemma length_layout_tiles tm :
  tilemap_wf tm → length (layout tm) = (tilemap_len tm * 6 * 2 * 2)%nat.
Proof.
  intros (HR & HC & Hlen). rewrite length_layout. unfold tilemap_len.
  rewrite Hlen, Z2Nat.inj_mul by done. lia.
Qed.

(** C5: for a tilemap of [n_tiles] tiles, the point-mode renderer uploads
    exactly [n_tiles] entries, the tilemap's linear backing buffer, and
    its draw issues one point-list draw of [n_tiles] points; the
    per-vertex renderer uploads exactly [n_tiles * 6] vertex entries,
    [n_tiles * 6 * 2 * 2] floats.  For a 3x3 tilemap that is 9 and 54. *)
Theorem buffer_entry_counts w :
  ready w → tilemap_wf (tilemap w) → tiles_uint32 (tilemap w) →
  TEXTURE_N_TILES_PER_ROW ≠ 0 →
  0 < TILEMAP_N_COLS → 0 < TILEMAP_N_ROWS →
  let n_tiles := tilemap_len (tilemap w) in
  ∃ vbo w1 points w2 w3 vertex_data,
    _vbo_handle (self w) = Some vbo
    ∧ GeomBufferedRenderer._update_vbo w = Return tt w1
    ∧ buffers (glstate w1) !! vbo = Some (UIntData points)
    ∧ points = map (tilemap w)
    ∧ length points = n_tiles
    ∧ GeomBufferedRenderer.draw w1 = Return tt w2
    ∧ (∃ call, draws (glstate w2) = draws (glstate w1) ++ [call]
               ∧ dc_mode call = GL_POINTS
               ∧ dc_first call = 0
               ∧ dc_count call = Z.of_nat n_tiles)
    ∧ VertexBufferedRenderer._update_vbo w = Return tt w3
    ∧ buffers (glstate w3) !! vbo = Some (FloatData vertex_data)
    ∧ length vertex_data = (n_tiles * 6 * 2 * 2)%nat
    ∧ length (vertices_of_buffer vertex_data) = (n_tiles * 6)%nat
    ∧ (TILEMAP_N_ROWS = 3 → TILEMAP_N_COLS = 3 →
       length points = 9%nat
       ∧ length (vertices_of_buffer vertex_data) = 54%nat).
Proof.
  intros Hready Hwf Hu32 HN HC HR n_tiles.
  destruct (ready_handles w Hready) as (vbo & vao & Hvbo & Hvao & Hb).
  pose proof Hready as [Hf _].
  set (w1 := set_glstate
               (uploaded vbo (UIntData (c_uint32 <$> map (tilemap w)))
                         (glstate w)) w).
  assert (ready w1) as Hready1.
  { destruct Hready as (_ & p & vbo' & vao' & pr & Hp & Hvbo' & Hvao' & Hpr
                        & Hl & Hb' & Hva).
    split; [done|]. exists p, vbo', vao', pr. simpl.
    assert (vbo' = vbo) as -> by congruence.
    rewrite lookup_insert_eq. eauto 10. }
  destruct (geom_draw_spec w1 Hready1) as (w2 & Hdraw & _ & _ & _ & _ & Hcalls);
    [lia..|].
  assert (length (vertices_of_buffer (layout (tilemap w)))
          = (n_tiles * 6)%nat) as Hentries.
  { apply length_chunks; [simpl; lia|].
    rewrite length_layout_tiles by done. simpl. unfold n_tiles. lia. }
  exists vbo, w1, (map (tilemap w)), w2,
    (set_glstate (uploaded vbo (FloatData (layout (tilemap w))) (glstate w)) w),
    (layout (tilemap w)).
  split; [done|].
  split; [by apply geom_update_vbo_spec|].
  split; [simpl; by rewrite lookup_insert_eq, uint32_buffer|].
  split; [done|]. split; [done|]. split; [done|].
  split; [eexists; split; [exact Hcalls|done]|].
  split; [by apply vertex_update_vbo_spec|].
  split; [simpl; by rewrite lookup_insert_eq|].
  split; [by apply length_layout_tiles|].
  split; [done|].
  intros HR3 HC3. rewrite Hentries. unfold n_tiles, tilemap_len.
  destruct Hwf as (_ & _ & ->). rewrite HR3, HC3. done.
Qed.


Lemma recalculate_in_sync w0 vbo vao w :
  ready w → self w = self w0 →
  _vbo_handle (self w0) = Some vbo → _vao_handle (self w0) = Some vao →
  tilemap_wf (tilemap w) → TEXTURE_N_TILES_PER_ROW ≠ 0 →
  ∃ w', _OpenGLRenderer.recalculate VertexBufferedRenderer.cls w = Return tt w'
        ∧ in_sync w0 vbo vao w' (tilemap w).
Proof.
  intros Hready Hself Hvbo Hvao Hwf HN. rewrite <-Hself in Hvbo, Hvao.
  destruct (vertex_recalculate_spec w vbo vao) as (va & Hrun & Hp0 & Hp1);
    [done..|].
  eexists. split; [exact Hrun|].
  split; [by apply recalculated_ready|].
  split; [done|]. split; [done|].
  split; [simpl; by rewrite lookup_insert_eq|].
  exists va. simpl. by rewrite lookup_insert_eq.
Qed.

Lemma edits_in_sync w0 vbo vao edits :
  _vbo_handle (self w0) = Some vbo → _vao_handle (self w0) = Some vao →
  TEXTURE_N_TILES_PER_ROW ≠ 0 →
  Forall tilemap_wf edits →
  ∀ w tm, in_sync w0 vbo vao w tm →
  ∃ w', for_M edits
          (λ tm (_ : unit),
             edit_tilemap tm ;;
             _OpenGLRenderer.recalculate VertexBufferedRenderer.cls)%M tt w
        = Return tt w'
        ∧ in_sync w0 vbo vao w' (default tm (last edits)).
Proof.
  intros Hvbo Hvao HN. induction 1 as [|tm' edits Hwf _ IH]; intros w tm Hsync.
  - by exists w.
  - destruct Hsync as (Hready & Hself & _).
    destruct (recalculate_in_sync w0 vbo vao (set_tilemap tm' w))
      as (w1 & Hrun & Hsync1); [done..|].
    destruct (IH w1 tm' Hsync1) as (w' & Hrest & Hsync').
    exists w'. split.
    + cbn [for_M]. erewrite bind_Return; [exact Hrest|].
      unfold edit_tilemap. by erewrite bind_Return.
    + rewrite last_cons. by destruct (last edits).
Qed.

(** C8: [recalculate] can be called again and again on the same renderer
    object.  After the call of the constructor and one more call after
    every edit of the tilemap, the tilemap is what its owner made it, the
    renderer object is the one it was, the buffer on the GPU holds the
    layout of the tilemap's current contents, and the next [draw] draws
    from exactly that buffer through the vertex array set up for it. *)
Theorem recalculate_follows_tilemap w (edits : list Tilemap) :
  ready w → tilemap_wf (tilemap w) → Forall tilemap_wf edits →
  TEXTURE_N_TILES_PER_ROW ≠ 0 →
  TILEMAP_N_COLS ≠ 0 → TILEMAP_N_ROWS ≠ 0 →
  let current := default (tilemap w) (last edits) in
  ∃ vbo vao w1 w2 call va,
    _vbo_handle (self w) = Some vbo ∧ _vao_handle (self w) = Some vao
    ∧ recalculate_after_edits VertexBufferedRenderer.cls edits w = Return tt w1
    ∧ tilemap w1 = current
    ∧ self w1 = self w
    ∧ buffers (glstate w1) !! vbo = Some (FloatData (layout current))
    ∧ VertexBufferedRenderer.draw w1 = Return tt w2
    ∧ draws (glstate w2) = draws (glstate w1) ++ [call]
    ∧ dc_mode call = GL_TRIANGLES
    ∧ dc_count call = Z.of_nat (tilemap_len current) * 6
    ∧ dc_buffers call !! vbo = Some (FloatData (layout current))
    ∧ dc_vertex_array call = Some va
    ∧ va_pointers va !! 0%N = Some (mkAttribPointer vbo 2 GL_FLOAT false 16 0)
    ∧ va_pointers va !! 1%N = Some (mkAttribPointer vbo 2 GL_FLOAT false 16 8).
Proof.
  intros Hready Hwf Hedits HN HC HR current.
  destruct (ready_handles w Hready) as (vbo & vao & Hvbo & Hvao & Hb).
  destruct (recalculate_in_sync w vbo vao w) as (w0 & Hrun0 & Hsync0);
    [done..|].
  destruct (edits_in_sync w vbo vao edits Hvbo Hvao HN Hedits w0 _ Hsync0)
    as (w1 & Hrun1 & Hready1 & Hself1 & Htm1 & Hbuf1 & va & Hva & Hp0 & Hp1).
  fold current in Htm1, Hbuf1.
  destruct (vertex_draw_spec w1 Hready1 HC HR)
    as (w2 & Hdraw & _ & _ & _ & _ & Hcalls).
  exists vbo, vao, w1, w2,
    (issued GL_TRIANGLES (Z.of_nat (tilemap_len (tilemap w1)) * 6) w1), va.
  split; [done|]. split; [done|].
  split.
  { unfold recalculate_after_edits. by erewrite bind_Return. }
  split; [done|]. split; [done|]. split; [done|]. split; [done|].
  split; [exact Hcalls|].
  unfold issued. simpl. rewrite Htm1, Hself1, Hvao. simpl.
  by rewrite Hva.
Qed.

End RendererClaims.

Section Teardown.
Import gl.

(** C7: releasing the resources never lets an exception out, whatever
    state the renderer and the context are in and whichever of the delete
    calls fail; once the context is gone and every call fails, the
    destructor changes nothing. *)
Theorem destructor_never_raises w :
  ∃ w', _OpenGLRenderer.__del__ w = Return tt w'
        ∧ ((∀ e, fails (glstate w) e = true) → w' = w).
Proof.
  unfold _OpenGLRenderer.__del__.
  destruct (try_except_pass
              (vao <- handle_arg _vao_handle ;;
               call DeleteVertexArrays (glDeleteVertexArrays vao) ;;
               vbo <- handle_arg _vbo_handle ;;
               call DeleteBuffers (glDeleteBuffers vbo) ;;
               program <- handle_arg _shader_handle ;;
               call DeleteProgram (glDeleteProgram program))%M w)
    as [w' Hrun].
  exists w'. split; [done|]. intros Hgone.
  unfold try_except in Hrun.
  destruct (_vao_handle (self w)) as [vao|] eqn:Hvao.
  - erewrite bind_Return in Hrun by (by apply handle_arg_Some).
    erewrite bind_Raise in Hrun by (by apply call_fails).
    by injection Hrun.
  - erewrite bind_Raise in Hrun by (by apply handle_arg_None).
    by injection Hrun.
Qed.

End Teardown.

(** ** Compiling and linking *)
Section Compile.
Context `{Constants}.
Import gl.

Lemma substring_all s : String.substring 0 (String.length s) s = s.
Proof. induction s as [|c s IH]; [done|]. simpl. by rewrite IH. Qed.

(** The two-step retrieval of a log gives the log. *)
Lemma read_info_log_all log : read_info_log (info_log_length log) log = log.
Proof.
  destruct log as [|c log]; [done|].
  unfold read_info_log, info_log_length.
  replace (Z.to_nat (Z.of_nat (String.length (String c log)) + 1 - 1))
    with (String.length (String c log)) by lia.
  apply substring_all.
Qed.

Lemma compile_stage_error w0 p v hs seen source shader_type log :
  compiling w0 p v hs seen →
  driver_compile (glstate w0) shader_type source = Some log →
  ∃ v', _OpenGLRenderer.compile_stage (source, shader_type) hs v
        = Raise (RuntimeError log) v'
        ∧ aborted w0 v'.
Proof.
  intros (Hf & Hdc & Hdl & Htm & Hp & Hvbo & Hvao & Hb & Hva & (pr & Hpr & Hl & Ha)
          & Hsh & Hlt) Hlog.
  eexists. split.
  - unfold _OpenGLRenderer.compile_stage.
    step_call Hf ltac:(unfold glCreateShader).
    step_call Hf ltac:(unfold glShaderSource; simpl; rewrite lookup_insert_eq).
    step_call Hf ltac:(unfold glCompileShader; simpl;
                       rewrite lookup_insert_eq; simpl; rewrite Hdc, Hlog).
    step_call Hf ltac:(unfold glGetShaderiv; simpl; rewrite lookup_insert_eq).
    rewrite decide_True by done.
    step_call Hf ltac:(unfold glGetShaderiv; simpl; rewrite lookup_insert_eq).
    step_call Hf ltac:(unfold glGetShaderInfoLog; simpl;
                       rewrite lookup_insert_eq).
    simpl. rewrite read_info_log_all. reflexivity.
  - repeat split; simpl; try done. eauto.
Qed.

Lemma compile_stage_ok w0 p v hs seen source shader_type :
  compiling w0 p v hs seen →
  driver_compile (glstate w0) shader_type source = None →
  ∃ v' h, _OpenGLRenderer.compile_stage (source, shader_type) hs v
          = Return (hs ++ [h]) v'
          ∧ compiling w0 p v' (hs ++ [h]) (seen ++ [(source, shader_type)]).
Proof.
  intros (Hf & Hdc & Hdl & Htm & Hp & Hvbo & Hvao & Hb & Hva & (pr & Hpr & Hl & Ha)
          & Hsh & Hlt) Hok.
  eexists _, (fresh (glstate v)). split.
  - unfold _OpenGLRenderer.compile_stage.
    step_call Hf ltac:(unfold glCreateShader).
    step_call Hf ltac:(unfold glShaderSource; simpl; rewrite lookup_insert_eq).
    step_call Hf ltac:(unfold glCompileShader; simpl;
                       rewrite lookup_insert_eq; simpl; rewrite Hdc, Hok).
    step_call Hf ltac:(unfold glGetShaderiv; simpl; rewrite lookup_insert_eq).
    rewrite decide_False by done.
    step_handle.
    step_call Hf ltac:(unfold glAttachShader; simpl;
                       rewrite Hpr, lookup_insert_eq).
    reflexivity.
  - set (h := fresh (glstate v)).
    assert (∀ h', h' ∈ hs → h' ≠ h) as Hne.
    { intros h' Hh' ->. rewrite Forall_forall in Hlt.
      specialize (Hlt _ Hh'). unfold h in Hlt. lia. }
    unfold compiling. simpl. split_and!; try done.
    + eexists. rewrite lookup_insert_eq. split; [done|]. simpl.
      by rewrite Ha.
    + rewrite !insert_insert_eq. apply Forall2_app.
      * apply Forall2_same_length_lookup. split.
        { by eapply Forall2_length. }
        intros i h' stage Hh' Hst.
        rewrite lookup_insert_ne
          by (intros <-; eapply Hne; [|done]; by eapply list_elem_of_lookup_2).
        by eapply (Forall2_lookup_lr _ _ _ _ _ _ Hsh).
      * constructor; [|constructor]. by rewrite lookup_insert_eq.
    + apply Forall_app. split.
      * eapply Forall_impl; [exact Hlt|]. intros h' Hh'. simpl in Hh'.
        unfold fresh in *. simpl. lia.
      * constructor; [|constructor]. unfold fresh, h. simpl. lia.
Qed.

Lemma compile_loop_error w0 p log stages :
  ∀ v hs seen,
    compiling w0 p v hs seen →
    first_compile_error (glstate w0) stages = Some log →
    ∃ v', for_M stages _OpenGLRenderer.compile_stage hs v
          = Raise (RuntimeError log) v'
          ∧ aborted w0 v'.
Proof.
  induction stages as [|[source shader_type] stages IH];
    intros v hs seen Hc Herr; [done|].
  simpl in Herr.
  destruct (driver_compile (glstate w0) shader_type source) as [log'|] eqn:Hd.
  - injection Herr as ->.
    destruct (compile_stage_error _ _ _ _ _ _ _ _ Hc Hd) as (v' & Hrun & Hab).
    exists v'. split; [|done]. cbn [for_M]. by erewrite bind_Raise.
  - destruct (compile_stage_ok _ _ _ _ _ _ _ Hc Hd) as (v1 & h & Hrun & Hc1).
    destruct (IH _ _ _ Hc1 Herr) as (v' & Hrest & Hab).
    exists v'. split; [|done]. cbn [for_M]. by erewrite bind_Return.
Qed.

Lemma compile_loop_ok w0 p stages :
  ∀ v hs seen,
    compiling w0 p v hs seen →
    first_compile_error (glstate w0) stages = None →
    ∃ v' hs', for_M stages _OpenGLRenderer.compile_stage hs v = Return hs' v'
              ∧ compiling w0 p v' hs' (seen ++ stages).
Proof.
  induction stages as [|[source shader_type] stages IH];
    intros v hs seen Hc Herr.
  - exists v, hs. by rewrite app_nil_r.
  - simpl in Herr.
    destruct (driver_compile (glstate w0) shader_type source) eqn:Hd; [done|].
    destruct (compile_stage_ok _ _ _ _ _ _ _ Hc Hd) as (v1 & h & Hrun & Hc1).
    destruct (IH _ _ _ Hc1 Herr) as (v' & hs' & Hrest & Hc').
    exists v', hs'. split.
    + cbn [for_M]. by erewrite bind_Return.
    + rewrite <-(assoc_L (++)) in Hc'. exact Hc'.
Qed.

Lemma attached_stages_compiled g pr stages :
  Forall2 (λ h stage, shaders g !! h
                      = Some (mkShader (snd stage) (fst stage) true ""))
          (pr_attached pr) stages →
  attached_stages g pr = link_input stages.
Proof.
  unfold attached_stages, link_input.
  induction 1 as [|h stage hs stages Hh _ IH]; [done|].
  cbn [omap list_omap]. rewrite Hh. simpl. by rewrite IH.
Qed.

(** What follows the loop when the linker refuses the program. *)
Lemma link_error w0 p v hs stages log (k : M unit) :
  compiling w0 p v hs stages →
  driver_link (glstate w0) (link_input stages) = Some log →
  ∃ v',
    (program <- handle_arg _shader_handle ;;
     call LinkProgram (glLinkProgram program) ;;
     program <- handle_arg _shader_handle ;;
     temp <- call GetProgramiv (glGetProgramiv program GL_LINK_STATUS) ;;
     if decide (temp = 0) then
       program <- handle_arg _shader_handle ;;
       temp <- call GetProgramiv (glGetProgramiv program GL_INFO_LOG_LENGTH) ;;
       program <- handle_arg _shader_handle ;;
       buffer <- call GetProgramInfoLog (glGetProgramInfoLog program temp) ;;
       raise (RuntimeError buffer)
     else k)%M v
    = Raise (RuntimeError log) v'
    ∧ aborted w0 v'.
Proof.
  intros (Hf & Hdc & Hdl & Htm & Hp & Hvbo & Hvao & Hb & Hva & (pr & Hpr & Hl & Ha)
          & Hsh & Hlt) Hlog.
  rewrite <-Ha in Hsh. apply attached_stages_compiled in Hsh.
  eexists. split.
  - step_handle.
    step_call Hf ltac:(unfold glLinkProgram; simpl;
                       rewrite Hpr, Hsh, Hdl, Hlog).
    step_handle.
    step_call Hf ltac:(unfold glGetProgramiv; simpl; rewrite lookup_insert_eq).
    rewrite decide_True by done.
    step_handle.
    step_call Hf ltac:(unfold glGetProgramiv; simpl; rewrite lookup_insert_eq).
    step_handle.
    step_call Hf ltac:(unfold glGetProgramInfoLog; simpl;
                       rewrite lookup_insert_eq).
    simpl. rewrite read_info_log_all. reflexivity.
  - unfold aborted. simpl. split_and!; try done.
    eexists p, _. rewrite lookup_insert_eq. by split_and!.
Qed.

(** With their source files readable, the two renderers hand their stages
    to [_compile_shader_program]. *)
Lemma vertex_create_shader_stages w vert_source frag_source :
  shader_files w "VertexBufferedRenderer.vert" = Some vert_source →
  shader_files w "VertexBufferedRenderer.frag" = Some frag_source →
  VertexBufferedRenderer._create_shader w
  = _OpenGLRenderer._compile_shader_program
      [(vert_source, GL_VERTEX_SHADER); (frag_source, GL_FRAGMENT_SHADER)] w.
Proof.
  intros Hvert Hfrag. unfold VertexBufferedRenderer._create_shader.
  unfold read_shader_file at 1. unfold bind at 1. rewrite Hvert.
  unfold read_shader_file at 1. unfold bind at 1. by rewrite Hfrag.
Qed.

Lemma geom_create_shader_stages w vert_source frag_source geom_source :
  shader_files w "GeometryShaderRenderer.vert" = Some vert_source →
  shader_files w "GeometryShaderRenderer.frag" = Some frag_source →
  shader_files w "GeometryShaderRenderer.geom" = Some geom_source →
  GeomBufferedRenderer._create_shader w
  = _OpenGLRenderer._compile_shader_program
      [(vert_source, GL_VERTEX_SHADER); (frag_source, GL_FRAGMENT_SHADER);
       (geom_source_with_constants geom_source, GL_GEOMETRY_SHADER)] w.
Proof.
  intros Hvert Hfrag Hgeom. unfold GeomBufferedRenderer._create_shader.
  unfold read_shader_file at 1. unfold bind at 1. rewrite Hvert.
  unfold read_shader_file at 1. unfold bind at 1. rewrite Hfrag.
  unfold read_shader_file at 1. unfold bind at 1. by rewrite Hgeom.
Qed.

(** C6: while a renderer is constructed, a stage that fails to compile
    makes [_compile_shader_program] raise with the compiler's log as the
    message, and a program that fails to link makes it raise with the
    linker's log; either way the constructor raises the same error
    there: no buffer and no vertex array is allocated, no vertex data is
    built, and the program the renderer is left holding is not linked. *)
Theorem shader_failure_aborts_construction
    (cls : _OpenGLRenderer.Class) (stages : list (string * shader_type))
    (w : World) (log : string) :
  (∀ e, fails (glstate w) e = false) →
  let w0 := set_self (mkRendererObject (texture_id (tilemap w))
                                      None None None) w in
  _OpenGLRenderer._create_shader cls w0
  = _OpenGLRenderer._compile_shader_program stages w0 →
  first_compile_error (glstate w) stages = Some log
  ∨ (first_compile_error (glstate w) stages = None
     ∧ driver_link (glstate w) (link_input stages) = Some log) →
  ∃ w',
    _OpenGLRenderer._compile_shader_program stages w0
    = Raise (RuntimeError log) w'
    ∧ _OpenGLRenderer.__init__ cls w = Raise (RuntimeError log) w'
    ∧ _vbo_handle (self w') = None
    ∧ _vao_handle (self w') = None
    ∧ buffers (glstate w') = buffers (glstate w)
    ∧ vertex_arrays (glstate w') = vertex_arrays (glstate w)
    ∧ ∃ p pr, _shader_handle (self w') = Some p
              ∧ programs (glstate w') !! p = Some pr
              ∧ pr_linked pr = false.
Proof.
  intros Hf w0 Hcls Hfail.
  set (p := fresh (glstate w0)).
  set (v0 := set_self (mkRendererObject (texture_id (tilemap w)) (Some p)
                                        None None)
               (set_glstate
                  (set_next_name (p + 1)%N
                     (set_programs
                        (<[p := mkProgram [] false "" ∅]>
                           (programs (glstate w0))) (glstate w0))) w0)).
  assert (compiling w0 p v0 [] []) as Hc.
  { unfold compiling, v0. simpl. split_and!; try done.
    eexists. by rewrite lookup_insert_eq. }
  assert (∃ w', _OpenGLRenderer._compile_shader_program stages w0
                = Raise (RuntimeError log) w' ∧ aborted w0 w')
    as (w' & Hrun & Hab).
  { destruct Hfail as [Herr|[Hok Hlink]].
    - destruct (compile_loop_error w0 p log stages v0 [] [] Hc Herr)
        as (w' & Hrun & Hab).
      exists w'. split; [|done].
      unfold _OpenGLRenderer._compile_shader_program.
      step_call Hf ltac:(unfold glCreateProgram).
      step_with ltac:(reflexivity).
      change (set_self _ _) with v0.
      by erewrite bind_Raise.
    - destruct (compile_loop_ok w0 p stages v0 [] [] Hc Hok)
        as (v1 & hs & Hloop & Hc1).
      edestruct (link_error w0 p v1 hs stages log) as (w' & Hrun & Hab);
        [done..|].
      exists w'. split; [|done].
      unfold _OpenGLRenderer._compile_shader_program.
      step_call Hf ltac:(unfold glCreateProgram).
      step_with ltac:(reflexivity).
      change (set_self _ _) with v0.
      erewrite bind_Return by done. exact Hrun. }
  exists w'. split; [done|]. split.
  - unfold _OpenGLRenderer.__init__.
    step_with ltac:(reflexivity).
    step_with ltac:(reflexivity).
    change (set_self _ w) with w0.
    apply bind_Raise. by rewrite Hcls.
  - destruct Hab as (_ & ? & ? & ? & ? & ?). done.
Qed.

End Compile.

(** * The results on the small configuration *)
Section Demo.
Local Existing Instance demo.constants.

Lemma demo_tilemap_wf : tilemap_wf demo.tiles.
Proof. repeat split; done. Defined.

Lemma demo_ready : ready demo.world.
Proof.
  split; [done|].
  exists 1%N, 2%N, 3%N, (gl.mkProgram [] true "" ∅).
  repeat split; by eexists.
Defined.

Lemma atlas_rectangle_formula_witness :
  0 < 4 ∧ 0 ≤ 99
  ∧ VertexBufferedRenderer.tx0_of 99
    = inr (Qc_of_Z (99 `mod` 4) * Q2Qc (1 # 4) + Q2Qc (1 # 64))%Qc.
Proof.
  split; [lia|]. split; [lia|].
  apply (atlas_rectangle_formula (H := demo.constants) 99); simpl; lia.
Defined.

(** The constructors, run: each leaves a renderer that is [ready], with
    the tilemap's data in its buffer. *)
Example vertex_renderer_constructed :
  ∃ w, _OpenGLRenderer.__init__ VertexBufferedRenderer.cls
         demo.unconstructed_accepting = Return tt w
       ∧ ready w
       ∧ gl.buffers (glstate w) !! 4%N
         = Some (gl.FloatData (layout demo.tiles)).
Proof.
  eexists. split; [vm_compute; reflexivity|]. split.
  - split; [done|]. exists 1%N, 4%N, 5%N. eexists.
    split; [reflexivity|]. split; [reflexivity|]. split; [reflexivity|].
    split; [vm_compute; reflexivity|]. split; [reflexivity|].
    split; eexists; vm_compute; reflexivity.
  - vm_compute. reflexivity.
Qed.

Example geom_renderer_constructed :
  ∃ w, _OpenGLRenderer.__init__ GeomBufferedRenderer.cls
         demo.unconstructed_accepting = Return tt w
       ∧ ready w
       ∧ gl.buffers (glstate w) !! 5%N
         = Some (gl.UIntData (map demo.tiles)).
Proof.
  eexists. split; [vm_compute; reflexivity|]. split.
  - split; [done|]. exists 1%N, 5%N, 6%N. eexists.
    split; [reflexivity|]. split; [reflexivity|]. split; [reflexivity|].
    split; [vm_compute; reflexivity|]. split; [reflexivity|].
    split; eexists; vm_compute; reflexivity.
  - vm_compute. reflexivity.
Qed.

Lemma demo_tiles_uint32 : tiles_uint32 demo.tiles.
Proof. repeat constructor; simpl; lia. Defined.

Lemma demo_buffer : is_Some (gl.buffers (glstate demo.world) !! 2%N).
Proof. by eexists. Defined.

Lemma demo_works e : gl.fails (glstate demo.world) e = false.
Proof. done. Defined.


Lemma per_tile_six_vertices_witness :
  tilemap_wf demo.tiles ∧ 4 ≠ 0 ∧ 0 ≤ 2 < 3
  ∧ ∃ vertex_data tile,
      VertexBufferedRenderer.build_vertex_data demo.tiles = inr vertex_data
      ∧ tilemap_getitem 3 demo.tiles 2 2 = inr tile
      ∧ take 24 (drop 192 vertex_data) = quad 2 2 tile.
Proof.
  split; [exact demo_tilemap_wf|]. split; [lia|]. split; [lia|].
  destruct (per_tile_six_vertices (H := demo.constants) demo.tiles 2 2)
    as (vertex_data & tile & Hbuild & Htile & Hslice);
    [exact demo_tilemap_wf|simpl; lia..|].
  exists vertex_data, tile. split; [exact Hbuild|]. split; [exact Htile|].
  exact Hslice.
Defined.

Lemma modes_produce_same_quads_witness :
  tilemap_wf demo.tiles ∧ tiles_uint32 demo.tiles
  ∧ ∃ w1 w2 vertex_data points,
      VertexBufferedRenderer._update_vbo demo.world = Return tt w1
      ∧ gl.buffers (glstate w1) !! 2%N = Some (gl.FloatData vertex_data)
      ∧ GeomBufferedRenderer._update_vbo demo.world = Return tt w2
      ∧ gl.buffers (glstate w2) !! 2%N = Some (gl.UIntData points)
      ∧ GeometryStage.expand_all 3 points ≡ₚ quads_of_buffer vertex_data.
Proof.
  split; [exact demo_tilemap_wf|]. split; [exact demo_tiles_uint32|].
  apply (modes_produce_same_quads (H := demo.constants) demo.world 2%N);
    [exact demo_works|reflexivity|exact demo_buffer|exact demo_tilemap_wf
    |exact demo_tiles_uint32|simpl; lia].
Defined.

Lemma buffer_entry_counts_witness :
  ready demo.world ∧ tilemap_wf demo.tiles ∧ tiles_uint32 demo.tiles
  ∧ ∃ vbo w1 points w3 vertex_data,
      GeomBufferedRenderer._update_vbo demo.world = Return tt w1
      ∧ gl.buffers (glstate w1) !! vbo = Some (gl.UIntData points)
      ∧ length points = 9%nat
      ∧ VertexBufferedRenderer._update_vbo demo.world = Return tt w3
      ∧ gl.buffers (glstate w3) !! vbo = Some (gl.FloatData vertex_data)
      ∧ length (vertices_of_buffer vertex_data) = 54%nat.
Proof.
  split; [exact demo_ready|]. split; [exact demo_tilemap_wf|].
  split; [exact demo_tiles_uint32|].
  destruct (buffer_entry_counts (H := demo.constants) demo.world)
    as (vbo & w1 & points & w2 & w3 & vertex_data & _ & Hg & Hgb & _ & _
        & _ & _ & Hv & Hvb & _ & _ & Hnine);
    [exact demo_ready|exact demo_tilemap_wf|exact demo_tiles_uint32
    |simpl; lia..|].
  destruct Hnine as [Hp Hvs]; [reflexivity..|].
  exists vbo, w1, points, w3, vertex_data.
  split; [exact Hg|]. split; [exact Hgb|]. split; [exact Hp|].
  split; [exact Hv|]. split; [exact Hvb|exact Hvs].
Defined.

Lemma shader_failure_aborts_construction_witness :
  (∀ e, gl.fails (glstate demo.unconstructed) e = false)
  ∧ ∃ w',
      _OpenGLRenderer.__init__ VertexBufferedRenderer.cls demo.unconstructed
      = Raise (RuntimeError "0:1(1): error: syntax error") w'
      ∧ _vbo_handle (self w') = None
      ∧ _vao_handle (self w') = None.
Proof.
  split; [reflexivity|].
  destruct (shader_failure_aborts_construction
              VertexBufferedRenderer.cls
              [("void main() {}"%string, gl.GL_VERTEX_SHADER);
               ("void main() {}"%string, gl.GL_FRAGMENT_SHADER)]
              demo.unconstructed "0:1(1): error: syntax error")
    as (w' & _ & Hinit & Hvbo & Hvao & _);
    [reflexivity|reflexivity|left; reflexivity|].
  exists w'. split; [exact Hinit|]. split; [exact Hvbo|exact Hvao].
Defined.

Lemma recalculate_follows_tilemap_witness :
  ready demo.world ∧ tilemap_wf demo.tiles ∧ Forall tilemap_wf [demo.edited]
  ∧ ∃ vbo w1,
      recalculate_after_edits VertexBufferedRenderer.cls [demo.edited]
        demo.world = Return tt w1
      ∧ tilemap w1 = demo.edited
      ∧ gl.buffers (glstate w1) !! vbo
        = Some (gl.FloatData (layout demo.edited)).
Proof.
  assert (Forall tilemap_wf [demo.edited]) as Hedits.
  { constructor; [|constructor]. repeat split; done. }
  split; [exact demo_ready|]. split; [exact demo_tilemap_wf|].
  split; [exact Hedits|].
  destruct (recalculate_follows_tilemap (H := demo.constants) demo.world
              [demo.edited])
    as (vbo & vao & w1 & w2 & call & va & _ & _ & Hrun & Htm & _ & Hbuf & _);
    [exact demo_ready|exact demo_tilemap_wf|exact Hedits|simpl; lia..|].
  exists vbo, w1. split; [exact Hrun|]. split; [exact Htm|exact Hbuf].
Defined.


Lemma pyglet_arrays_interleave_to_vertex_buffer_witness :
  tilemap_wf demo.tiles ∧ 4 ≠ 0
  ∧ ∃ vertex_list vertex_data,
      Pyglet_VertexBufferedRenderer.recalculate demo.tiles
        (Pyglet_VertexBufferedRenderer._allocate_vbo_vao demo.tiles)
      = inr vertex_list
      ∧ VertexBufferedRenderer.build_vertex_data demo.tiles = inr vertex_data
      ∧ Pyglet_VertexBufferedRenderer.interleave
          (Pyglet_VertexBufferedRenderer.aPosition vertex_list)
          (Pyglet_VertexBufferedRenderer.aTexCoord vertex_list)
        = vertex_data.
Proof.
  split; [exact demo_tilemap_wf|]. split; [lia|].
  apply (pyglet_arrays_interleave_to_vertex_buffer (H := demo.constants));
    [exact demo_tilemap_wf|simpl; lia].
Defined.

End Demo.

(** * Further results *)

(** ** The projection, beyond the corners *)
Section ProjectionMore.
Context `{Constants}.
Import pyglet_math.


Lemma composed_matrix_transform (x y z : Qc) :
  TILEMAP_N_COLS ≠ 0 → TILEMAP_N_ROWS ≠ 0 →
  transform composed_matrix (mkVec4 x y z (Qc_of_Z 1))
  = mkVec4 (Qc_of_Z 2 * x / Qc_of_Z TILEMAP_N_COLS - Qc_of_Z 1)
           (Qc_of_Z 2 * y / Qc_of_Z TILEMAP_N_ROWS - Qc_of_Z 1)
           (Qc_of_Z 0) (Qc_of_Z 1).
Proof.
  intros HC HR. apply Qc_of_Z_nonzero in HC, HR.
  unfold composed_matrix.
  rewrite !Z2Qc_inj_opp, Z2Qc_inj_0, Z2Qc_inj_1, Z2Qc_inj_2.
  set (c := Qc_of_Z TILEMAP_N_COLS) in *.
  set (r := Qc_of_Z TILEMAP_N_ROWS) in *.
  cbn [transform matmul from_scale from_translation identity
       v3x v3y v3z m_a m_b m_c m_d m_e m_f m_g m_h m_i m_j m_k m_l
       m_m m_n m_o m_p].
  f_equal; field; done.
Qed.


Lemma clip_coordinate_bounds (x c : Qc) :
  (0 < c)%Qc → (0 ≤ x)%Qc → (x ≤ c)%Qc →
  (- (1) ≤ 2 * x / c - 1)%Qc ∧ (2 * x / c - 1 ≤ 1)%Qc.
Proof.
  intros Hc Hx0 Hxc.
  assert (c ≠ 0%Qc) as Hc0 by (intros ->; by apply (Qclt_not_eq 0 0)).
  split; apply (Qcmult_le_mono_pos_r _ _ c Hc).
  - replace ((2 * x / c - 1) * c)%Qc with (-(1) * c + 2 * x)%Qc by (by field).
    rewrite <-(Qcplus_0_r (-(1) * c)) at 1.
    apply Qcplus_le_mono_l. by apply Qcmult_nonneg_nonneg.
  - replace ((2 * x / c - 1) * c)%Qc with (x + x - c)%Qc by (by field).
    replace (1 * c)%Qc with (c + c - c)%Qc by ring.
    apply Qcplus_le_mono_r. by apply Qcplus_le_compat.
Qed.

(** Every point of the tilemap's extent, from (0, 0) to (cols, rows),
    lands in the clip-space square from -1 to +1 in each coordinate. *)
Theorem projection_fits_clip_space (x y : Qc) :
  0 < TILEMAP_N_COLS → 0 < TILEMAP_N_ROWS →
  (0 ≤ x)%Qc → (x ≤ Qc_of_Z TILEMAP_N_COLS)%Qc →
  (0 ≤ y)%Qc → (y ≤ Qc_of_Z TILEMAP_N_ROWS)%Qc →
  ∃ m,
    _AbstractRenderer._get_projection_matrix = inr m
    ∧ let clip := transform m (mkVec4 x y (Qc_of_Z 0) (Qc_of_Z 1)) in
      (Qc_of_Z (-1) ≤ v4x clip)%Qc ∧ (v4x clip ≤ Qc_of_Z 1)%Qc
      ∧ (Qc_of_Z (-1) ≤ v4y clip)%Qc ∧ (v4y clip ≤ Qc_of_Z 1)%Qc.
Proof.
  intros HC HR Hx0 Hxc Hy0 Hyr.
  exists composed_matrix.
  split; [apply get_projection_matrix_ok; lia|].
  cbv zeta. rewrite composed_matrix_transform by lia. cbn [v4x v4y].
  change (Qc_of_Z (-1)) with (Qc_of_Z (Z.opp 1)).
  rewrite (Z2Qc_inj_opp 1), Z2Qc_inj_1, Z2Qc_inj_2.
  assert (0 < Qc_of_Z TILEMAP_N_COLS)%Qc
    by (rewrite <-Z2Qc_inj_0; by apply (proj1 (Z2Qc_inj_lt 0 _))).
  assert (0 < Qc_of_Z TILEMAP_N_ROWS)%Qc
    by (rewrite <-Z2Qc_inj_0; by apply (proj1 (Z2Qc_inj_lt 0 _))).
  destruct (clip_coordinate_bounds x (Qc_of_Z TILEMAP_N_COLS)); [done..|].
  destruct (clip_coordinate_bounds y (Qc_of_Z TILEMAP_N_ROWS)); [done..|].
  done.
Qed.

End ProjectionMore.

(** ** The atlas rectangles, side by side *)
Section AtlasMore.
Context `{Constants}.



End AtlasMore.

(** ** The vertex builder off the well-formed path *)
Section BuilderEdges.
Context `{Constants}.

Lemma tile_body_surplus tm x y pre junk rest :
  0 ≤ TILEMAP_N_ROWS → 0 ≤ TILEMAP_N_COLS →
  (Z.to_nat (TILEMAP_N_ROWS * TILEMAP_N_COLS) ≤ length (map tm))%nat →
  TEXTURE_N_TILES_PER_ROW ≠ 0 →
  0 ≤ x < TILEMAP_N_COLS → 0 ≤ y < TILEMAP_N_ROWS →
  length junk = 24%nat →
  VertexBufferedRenderer.tile_body tm x y (length pre, pre ++ junk ++ rest)
  = inr ((length pre + 24)%nat,
         pre ++ quad x y (tile_at TILEMAP_N_COLS tm y x) ++ rest).
Proof.
  intros HR HC Hlen HN Hx Hy Hj.
  set (tm' := {| map := take (Z.to_nat (TILEMAP_N_ROWS * TILEMAP_N_COLS))
                             (map tm);
                 texture_id := texture_id tm |}).
  assert (tilemap_wf tm') as Hwf.
  { split_and!; [done..|]. simpl. rewrite length_take. lia. }
  assert (Z.to_nat (y * TILEMAP_N_COLS + x)
          < Z.to_nat (TILEMAP_N_ROWS * TILEMAP_N_COLS))%nat as Hk by nia.
  assert (tilemap_getitem TILEMAP_N_COLS tm y x
          = tilemap_getitem TILEMAP_N_COLS tm' y x) as Hget.
  { unfold tilemap_getitem. simpl. by rewrite lookup_take_lt. }
  assert (tile_at TILEMAP_N_COLS tm' y x = tile_at TILEMAP_N_COLS tm y x)
    as Hat.
  { unfold tile_at. simpl. by rewrite lookup_total_take_lt. }
  rewrite <-Hat, <-(tile_body_app tm' x y pre junk rest) by done.
  unfold VertexBufferedRenderer.tile_body. by rewrite Hget.
Qed.

(** [float_count] comes from the tilemap, the loops from the constants: a
    tilemap with more tiles than the grid gets the grid's quads followed
    by zeros for the tiles the loops never reach. *)
Theorem surplus_tiles_leave_zeros tm :
  0 ≤ TILEMAP_N_ROWS → 0 ≤ TILEMAP_N_COLS →
  (Z.to_nat (TILEMAP_N_ROWS * TILEMAP_N_COLS) ≤ length (map tm))%nat →
  TEXTURE_N_TILES_PER_ROW ≠ 0 →
  VertexBufferedRenderer.build_vertex_data tm
  = inr (layout tm
         ++ replicate (24 * (length (map tm)
                             - Z.to_nat (TILEMAP_N_ROWS * TILEMAP_N_COLS)))
                      (Qc_of_Z 0)).
Proof.
  intros HR HC Hlen HN. unfold VertexBufferedRenderer.build_vertex_data.
  set (n := Z.to_nat (TILEMAP_N_ROWS * TILEMAP_N_COLS)) in *.
  replace (tilemap_len tm * 6 * 2 * 2)%nat
    with (24 * n + 24 * (length (map tm) - n))%nat
    by (unfold tilemap_len; lia).
  rewrite replicate_add.
  set (junk := replicate (24 * n) (Qc_of_Z 0)).
  set (rest := replicate _ (Qc_of_Z 0)).
  change (0%nat, junk ++ rest) with (length (@nil Qc), [] ++ junk ++ rest).
  rewrite (for_each_blocks (λ x, 0 ≤ x < TILEMAP_N_COLS)
             (λ x, range TILEMAP_N_ROWS ≫= λ y,
                     quad x y (tile_at TILEMAP_N_COLS tm y x))
             (24 * Z.to_nat TILEMAP_N_ROWS)).
  - simpl. by rewrite layout_nested.
  - intros x _. apply length_column.
  - intros x pre junk' rest' Hx Hj.
    rewrite (for_each_blocks (λ y, 0 ≤ y < TILEMAP_N_ROWS)
               (λ y, quad x y (tile_at TILEMAP_N_COLS tm y x)) 24).
    + by rewrite length_range.
    + done.
    + intros y pre' junk'' rest'' Hy Hj'. by apply tile_body_surplus.
    + apply Forall_forall. intros y. apply elem_of_range.
    + by rewrite length_range.
  - apply Forall_forall. intros x. apply elem_of_range.
  - unfold junk. rewrite length_replicate, length_range.
    unfold n. rewrite Z2Nat.inj_mul by done. lia.
Qed.

Lemma setitem_cases {A : Type} (l : list A) i v :
  setitem l i v = inl IndexError
  ∨ ∃ l', setitem l i v = inr l' ∧ length l' = length l ∧ (i < length l)%nat.
Proof.
  unfold setitem. case_decide; [right|by left].
  eexists. split; [done|]. by rewrite length_insert.
Qed.

Lemma store_vertex_cases a b c d i vd :
  VertexBufferedRenderer.store_vertex a b c d (i, vd) = inl IndexError
  ∨ ∃ vd', VertexBufferedRenderer.store_vertex a b c d (i, vd)
           = inr ((i + 4)%nat, vd')
           ∧ length vd' = length vd ∧ (i + 4 ≤ length vd)%nat.
Proof.
  unfold VertexBufferedRenderer.store_vertex.
  destruct (setitem_cases vd (i + 0) a) as [->|(v1 & -> & H1 & _)]; [by left|].
  cbn [res_bind].
  destruct (setitem_cases v1 (i + 1) b) as [->|(v2 & -> & H2 & _)]; [by left|].
  cbn [res_bind].
  destruct (setitem_cases v2 (i + 2) c) as [->|(v3 & -> & H3 & _)]; [by left|].
  cbn [res_bind].
  destruct (setitem_cases v3 (i + 3) d) as [->|(v4 & -> & H4 & Hi)]; [by left|].
  right. exists v4. cbn [res_bind]. split; [done|]. lia.
Qed.

Lemma tile_body_cases tm x y i vd :
  TEXTURE_N_TILES_PER_ROW ≠ 0 →
  VertexBufferedRenderer.tile_body tm x y (i, vd) = inl IndexError
  ∨ ∃ vd', VertexBufferedRenderer.tile_body tm x y (i, vd)
           = inr ((i + 24)%nat, vd')
           ∧ length vd' = length vd ∧ (i + 24 ≤ length vd)%nat.
Proof.
  intros HN. unfold VertexBufferedRenderer.tile_body.
  assert (tilemap_getitem TILEMAP_N_COLS tm y x = inl IndexError
          ∨ ∃ t, tilemap_getitem TILEMAP_N_COLS tm y x = inr t) as [->|[t ->]].
  { unfold tilemap_getitem. case_decide; [|by left].
    destruct (map tm !! _); eauto. }
  { by left. }
  cbn [res_bind].
  rewrite tx0_of_ok by done. cbn [res_bind].
  rewrite ty0_of_ok by done. cbn [res_bind].
  repeat
    lazymatch goal with
    | |- context [VertexBufferedRenderer.store_vertex ?a ?b ?c ?d (?j, ?v)] =>
        let v' := fresh "v" in
        destruct (store_vertex_cases a b c d j v) as [->|(v' & -> & ? & ?)];
        [by left|]; cbn [res_bind]
    end.
  right. eexists. split; [do 2 f_equal; lia|]. lia.
Qed.

(** A loop whose body either raises [IndexError] or moves on by [n]
    places within the list does the same over the whole range. *)
Lemma for_each_cases {B : Type} (n : nat)
    (body : B → nat * list Qc → res (nat * list Qc)) :
  (∀ b i vd,
     body b (i, vd) = inl IndexError
     ∨ ∃ vd', body b (i, vd) = inr ((i + n)%nat, vd')
              ∧ length vd' = length vd
              ∧ (n = 0 ∨ i + n ≤ length vd)%nat) →
  ∀ bs i vd,
    for_each bs body (i, vd) = inl IndexError
    ∨ ∃ vd', for_each bs body (i, vd) = inr ((i + n * length bs)%nat, vd')
             ∧ length vd' = length vd
             ∧ (n * length bs = 0 ∨ i + n * length bs ≤ length vd)%nat.
Proof.
  intros Hbody bs. induction bs as [|b bs IH]; intros i vd.
  - right. exists vd. simpl. split; [do 2 f_equal; lia|]. split; [done|lia].
  - cbn [for_each].
    destruct (Hbody b i vd) as [->|(v1 & -> & Hl1 & Hi1)]; [by left|].
    cbn [res_bind].
    destruct (IH (i + n)%nat v1) as [->|(v2 & -> & Hl2 & Hi2)]; [by left|].
    right. exists v2. cbn [length].
    split; [do 2 f_equal; lia|]. split; [congruence|].
    rewrite Hl1 in Hi2. nia.
Qed.

(** A tilemap with fewer tiles than the grid cannot be laid out: the
    loops run past the end of the tilemap or of the list, and the build
    stops with [IndexError]. *)
Theorem too_few_tiles_raise_IndexError tm :
  TEXTURE_N_TILES_PER_ROW ≠ 0 →
  0 ≤ TILEMAP_N_ROWS → 0 ≤ TILEMAP_N_COLS →
  (length (map tm) < Z.to_nat (TILEMAP_N_ROWS * TILEMAP_N_COLS))%nat →
  VertexBufferedRenderer.build_vertex_data tm = inl IndexError.
Proof.
  intros HN HR HC Hlen. unfold VertexBufferedRenderer.build_vertex_data.
  destruct (for_each_cases (24 * Z.to_nat TILEMAP_N_ROWS)
              (λ x, for_each (range TILEMAP_N_ROWS)
                      (λ y, VertexBufferedRenderer.tile_body tm x y))
              ltac:(intros x i vd;
                    destruct (for_each_cases 24
                                (λ y, VertexBufferedRenderer.tile_body tm x y)
                                ltac:(intros y j v;
                                      destruct (tile_body_cases tm x y j v HN)
                                        as [?|(v' & ? & ? & ?)];
                                      [by left|right; eauto 10])
                                (range TILEMAP_N_ROWS) i vd)
                      as [?|(v' & Hrun & ? & ?)];
                    [by left|right; rewrite length_range in *; eauto 10])
              (range TILEMAP_N_COLS) 0%nat
              (replicate (tilemap_len tm * 6 * 2 * 2) (Qc_of_Z 0)))
    as [->|(vd' & _ & _ & Hbound)]; [done|].
  exfalso. rewrite length_range, length_replicate in Hbound.
  unfold tilemap_len in Hbound. rewrite Z2Nat.inj_mul in Hlen by done. nia.
Qed.

End BuilderEdges.

Section UploadEdges.
Context `{Constants}.
Import gl.

(** With zero tiles per atlas row the first tile's [%] raises
    [ZeroDivisionError]: the buffer is bound by then, but nothing is
    uploaded and the buffers keep what they held. *)
Theorem zero_tiles_per_row_raises w vbo :
  (∀ e, fails (glstate w) e = false) →
  _vbo_handle (self w) = Some vbo →
  is_Some (buffers (glstate w) !! vbo) →
  TEXTURE_N_TILES_PER_ROW = 0 →
  0 < TILEMAP_N_COLS → 0 < TILEMAP_N_ROWS →
  map (tilemap w) ≠ [] →
  VertexBufferedRenderer._update_vbo w
  = Raise ZeroDivisionError
      (set_glstate (set_array_buffer_binding vbo (glstate w)) w).
Proof.
  intros Hf Hvbo Hb HN HC HR Hmap.
  unfold VertexBufferedRenderer._update_vbo.
  step_handle.
  step_call Hf ltac:(rewrite glBindBuffer_ok by eauto).
  step_with ltac:(reflexivity).
  apply bind_Raise. unfold lift. cbn [tilemap set_glstate].
  replace (VertexBufferedRenderer.build_vertex_data (tilemap w))
    with (@inl exn (list Qc) ZeroDivisionError); [done|].
  unfold VertexBufferedRenderer.build_vertex_data, range.
  rewrite (seqZ_cons 0 TILEMAP_N_COLS), (seqZ_cons 0 TILEMAP_N_ROWS) by done.
  cbn [for_each]. unfold VertexBufferedRenderer.tile_body at 1.
  unfold tilemap_getitem. rewrite Z.mul_0_l, Z.add_0_l.
  rewrite decide_True by done.
  destruct (map (tilemap w)) as [|t ts]; [done|]. simpl.
  unfold VertexBufferedRenderer.tx0_of, py_mod.
  by rewrite decide_True.
Qed.

(** What the point-mode renderer uploads is the backing buffer entry by
    entry modulo 2^32: as many entries, each within the unsigned 32-bit
    range, and the very same list exactly when the tile indices already
    are within it. *)
Theorem point_upload_wraps_to_uint32 w vbo :
  (∀ e, fails (glstate w) e = false) →
  _vbo_handle (self w) = Some vbo →
  is_Some (buffers (glstate w) !! vbo) →
  ∃ w' points,
    GeomBufferedRenderer._update_vbo w = Return tt w'
    ∧ buffers (glstate w') !! vbo = Some (UIntData points)
    ∧ length points = length (map (tilemap w))
    ∧ Forall (λ p, 0 ≤ p < 2 ^ 32) points
    ∧ (∀ k t, map (tilemap w) !! k = Some t →
              points !! k = Some (t `mod` 2 ^ 32))
    ∧ (points = map (tilemap w) ↔ tiles_uint32 (tilemap w)).
Proof.
  intros Hf Hvbo Hb.
  eexists _, (c_uint32 <$> map (tilemap w)).
  split; [by apply geom_update_vbo_spec|].
  split; [simpl; by rewrite lookup_insert_eq|].
  split; [by rewrite length_fmap|].
  split.
  { apply Forall_fmap, Forall_forall. intros t _. simpl.
    unfold c_uint32. apply Z.mod_pos_bound. lia. }
  split.
  { intros k t Hk. by rewrite list_lookup_fmap, Hk. }
  split; [|apply uint32_buffer].
  intros Heq. unfold tiles_uint32. rewrite <-Heq.
  apply Forall_fmap, Forall_forall. intros t _. simpl.
  unfold c_uint32. apply Z.mod_pos_bound. lia.
Qed.

End UploadEdges.

(** ** Buffer and vertex array together *)
Section Fetch.
Context `{Constants}.
Import gl.

Lemma fetch_interleaved {A : Type} (data : list A) vbo (k : nat) :
  fetch_attribute (mkAttribPointer vbo 2 GL_FLOAT false 16 0) data k
  ++ fetch_attribute (mkAttribPointer vbo 2 GL_FLOAT false 16 8) data k
  = take 4 (drop (4 * k) data).
Proof.
  unfold fetch_attribute. cbn [ap_offset ap_stride ap_size].
  replace (Z.to_nat ((0 + Z.of_nat k * 16) `div` 4)) with (4 * k)%nat.
  2:{ replace (0 + Z.of_nat k * 16) with (Z.of_nat k * 4 * 4) by lia.
      rewrite Z.div_mul by done. lia. }
  replace (Z.to_nat ((8 + Z.of_nat k * 16) `div` 4)) with (4 * k + 2)%nat.
  2:{ replace (8 + Z.of_nat k * 16) with ((Z.of_nat k * 4 + 2) * 4) by lia.
      rewrite Z.div_mul by done. lia. }
  rewrite <-drop_drop. apply (take_take_drop _ 2 2).
Qed.

(** The vertex array [recalculate] sets up reads the buffer it uploads
    the way the builder wrote it: the two attributes fetched for vertex
    [j] of the cell (x, y) are the position and the texture coordinates
    of the [j]-th vertex of that cell's quad. *)
Theorem vertex_array_reads_the_layout w (x y : Z) (j : nat) :
  ready w → tilemap_wf (tilemap w) → TEXTURE_N_TILES_PER_ROW ≠ 0 →
  0 ≤ x < TILEMAP_N_COLS → 0 ≤ y < TILEMAP_N_ROWS → (j < 6)%nat →
  ∃ w' vao va position texcoord data,
    _OpenGLRenderer.recalculate VertexBufferedRenderer.cls w = Return tt w'
    ∧ _vao_handle (self w') = Some vao
    ∧ vertex_arrays (glstate w') !! vao = Some va
    ∧ va_pointers va !! 0%N = Some position
    ∧ va_pointers va !! 1%N = Some texcoord
    ∧ buffers (glstate w') !! ap_buffer position = Some (FloatData data)
    ∧ buffers (glstate w') !! ap_buffer texcoord = Some (FloatData data)
    ∧ let k := (6 * Z.to_nat (x * TILEMAP_N_ROWS + y) + j)%nat in
      fetch_attribute position data k ++ fetch_attribute texcoord data k
      = take 4 (drop (4 * j)
                  (quad x y (tile_at TILEMAP_N_COLS (tilemap w) y x))).
Proof.
  intros Hready Hwf HN Hx Hy Hj.
  destruct (ready_handles w Hready) as (vbo & vao & Hvbo & Hvao & Hb).
  destruct (vertex_recalculate_spec w vbo vao) as (va & Hrun & Hp0 & Hp1);
    [done..|].
  eexists _, vao, va, _, _, (layout (tilemap w)).
  split; [exact Hrun|]. split; [done|].
  split; [simpl; by rewrite lookup_insert_eq|].
  split; [exact Hp0|]. split; [exact Hp1|].
  split; [simpl; by rewrite lookup_insert_eq|].
  split; [simpl; by rewrite lookup_insert_eq|].
  cbv zeta. rewrite fetch_interleaved.
  rewrite <-layout_block by done.
  replace (4 * (6 * Z.to_nat (x * TILEMAP_N_ROWS + y) + j))%nat
    with (Z.to_nat (24 * (x * TILEMAP_N_ROWS + y)) + 4 * j)%nat by nia.
  rewrite <-drop_drop.
  apply block_in_block. lia.
Qed.

(** The point-mode vertex array hands the geometry stage, for point [k],
    the [k]-th entry of the uploaded backing buffer. *)
Theorem point_array_reads_the_tile_index w (k : nat) (t : Z) :
  ready w → map (tilemap w) !! k = Some t →
  ∃ w' vao va index points,
    _OpenGLRenderer.recalculate GeomBufferedRenderer.cls w = Return tt w'
    ∧ _vao_handle (self w') = Some vao
    ∧ vertex_arrays (glstate w') !! vao = Some va
    ∧ va_pointers va !! 0%N = Some index
    ∧ buffers (glstate w') !! ap_buffer index = Some (UIntData points)
    ∧ fetch_attribute index points k = [t `mod` 2 ^ 32].
Proof.
  intros Hready Hk.
  destruct (ready_handles w Hready) as (vbo & vao & Hvbo & Hvao & Hb).
  destruct (geom_recalculate_spec w vbo vao) as (va & Hrun & Hp0); [done..|].
  eexists _, vao, va, _, (c_uint32 <$> map (tilemap w)).
  split; [exact Hrun|]. split; [done|].
  split; [simpl; by rewrite lookup_insert_eq|].
  split; [exact Hp0|].
  split; [simpl; by rewrite lookup_insert_eq|].
  unfold fetch_attribute. cbn [ap_offset ap_stride ap_size].
  replace (Z.to_nat ((0 + Z.of_nat k * 4) `div` 4)) with k
    by (rewrite Z.add_0_l, Z.div_mul by done; lia).
  erewrite drop_S by (rewrite list_lookup_fmap, Hk; reflexivity).
  done.
Qed.

End Fetch.

(** ** What [recalculate] and [draw] leave alone *)
Section Frames.
Context `{Constants}.
Import gl.

(** [recalculate] writes one buffer and one vertex array, its own: every
    other buffer and vertex array of the context, the programs, the
    shaders, the draws issued so far, the tilemap and the renderer's
    attributes are as before. *)
Theorem recalculate_touches_only_its_objects w :
  ready w → tilemap_wf (tilemap w) → TEXTURE_N_TILES_PER_ROW ≠ 0 →
  ∃ w' vbo vao,
    _OpenGLRenderer.recalculate VertexBufferedRenderer.cls w = Return tt w'
    ∧ _vbo_handle (self w) = Some vbo ∧ _vao_handle (self w) = Some vao
    ∧ (∀ b, b ≠ vbo → buffers (glstate w') !! b = buffers (glstate w) !! b)
    ∧ (∀ a, a ≠ vao →
         vertex_arrays (glstate w') !! a = vertex_arrays (glstate w) !! a)
    ∧ programs (glstate w') = programs (glstate w)
    ∧ shaders (glstate w') = shaders (glstate w)
    ∧ draws (glstate w') = draws (glstate w)
    ∧ texture_binding (glstate w') = texture_binding (glstate w)
    ∧ current_program (glstate w') = current_program (glstate w)
    ∧ tilemap w' = tilemap w ∧ self w' = self w.
Proof.
  intros Hready Hwf HN.
  destruct (ready_handles w Hready) as (vbo & vao & Hvbo & Hvao & Hb).
  destruct (vertex_recalculate_spec w vbo vao) as (va & Hrun & _); [done..|].
  eexists _, vbo, vao. split; [exact Hrun|].
  split; [done|]. split; [done|]. simpl.
  split; [intros b Hne; by rewrite lookup_insert_ne|].
  split; [intros a Hne; by rewrite lookup_insert_ne|].
  done.
Qed.

(** A second [recalculate] with no edit in between changes nothing a
    draw reads: the buffers, the two attribute pointers and the bindings
    are what the first one left. *)
Theorem recalculate_twice_is_recalculate_once w :
  ready w → tilemap_wf (tilemap w) → TEXTURE_N_TILES_PER_ROW ≠ 0 →
  ∃ w1 w2 vao va1 va2,
    _OpenGLRenderer.recalculate VertexBufferedRenderer.cls w = Return tt w1
    ∧ _OpenGLRenderer.recalculate VertexBufferedRenderer.cls w1 = Return tt w2
    ∧ buffers (glstate w2) = buffers (glstate w1)
    ∧ _vao_handle (self w) = Some vao
    ∧ vertex_arrays (glstate w1) !! vao = Some va1
    ∧ vertex_arrays (glstate w2) !! vao = Some va2
    ∧ va_pointers va2 !! 0%N = va_pointers va1 !! 0%N
    ∧ va_pointers va2 !! 1%N = va_pointers va1 !! 1%N
    ∧ array_buffer_binding (glstate w2) = array_buffer_binding (glstate w1)
    ∧ vertex_array_binding (glstate w2) = vertex_array_binding (glstate w1)
    ∧ tilemap w2 = tilemap w1 ∧ self w2 = self w1.
Proof.
  intros Hready Hwf HN.
  destruct (ready_handles w Hready) as (vbo & vao & Hvbo & Hvao & Hb).
  destruct (vertex_recalculate_spec w vbo vao) as (va1 & Hrun1 & Hp0 & Hp1);
    [done..|].
  set (w1 := recalculated vbo vao (FloatData (layout (tilemap w))) va1 w) in *.
  destruct (vertex_recalculate_spec w1 vbo vao) as (va2 & Hrun2 & Hq0 & Hq1);
    [by apply recalculated_ready|done..|].
  eexists w1, _, vao, va1, va2.
  split; [exact Hrun1|]. split; [exact Hrun2|]. simpl.
  split; [by rewrite insert_insert_eq|].
  split; [done|]. rewrite !lookup_insert_eq.
  split; [done|]. split; [done|].
  split; [by rewrite Hp0, Hq0|]. split; [by rewrite Hp1, Hq1|]. done.
Qed.

End Frames.

(** ** More on [draw] *)
Section DrawMore.
Context `{Constants}.
Import gl.

Lemma get_projection_matrix_empty_grid :
  TILEMAP_N_COLS = 0 ∨ TILEMAP_N_ROWS = 0 →
  _AbstractRenderer._get_projection_matrix = inl ZeroDivisionError.
Proof.
  unfold _AbstractRenderer._get_projection_matrix.
  rewrite !(py_truediv_ok _ (Qc_of_Z 2)) by (by apply Qc_of_Z_nonzero).
  cbn [res_bind]. unfold py_truediv. intros [-> | ->].
  - by rewrite decide_True by apply Z2Qc_inj_0.
  - destruct (decide (Qc_of_Z TILEMAP_N_COLS = _)); [done|].
    cbn [res_bind]. by rewrite decide_True by apply Z2Qc_inj_0.
Qed.

(** On a grid with no columns or no rows a renderer can be constructed
    and recalculated, but [draw] raises [ZeroDivisionError] from the
    projection: texture and vertex array are bound by then, no uniform is
    set and no draw call is issued.  Both GPU renderers behave so. *)
Theorem draw_on_empty_grid_raises w :
  ready w → TILEMAP_N_COLS = 0 ∨ TILEMAP_N_ROWS = 0 →
  ∃ vao w',
    _vao_handle (self w) = Some vao
    ∧ w' = set_glstate
             (set_vertex_array_binding vao
                (set_texture_binding (_texture_id (self w)) (glstate w))) w
    ∧ VertexBufferedRenderer.draw w = Raise ZeroDivisionError w'
    ∧ GeomBufferedRenderer.draw w = Raise ZeroDivisionError w'
    ∧ draws (glstate w') = draws (glstate w)
    ∧ programs (glstate w') = programs (glstate w).
Proof.
  intros (Hf & p & vbo & vao & pr & Hp & Hvbo & Hvao & Hpr & Hl & Hb & Hva)
         Hempty.
  eexists vao, _. split; [done|]. split; [reflexivity|].
  split; [|split; [|done]].
  - unfold VertexBufferedRenderer.draw.
    step_with ltac:(reflexivity).
    step_call Hf ltac:(unfold glBindTexture).
    step_handle.
    step_call Hf ltac:(rewrite glBindVertexArray_ok by eauto).
    apply bind_Raise. unfold lift.
    by rewrite get_projection_matrix_empty_grid.
  - unfold GeomBufferedRenderer.draw.
    step_with ltac:(reflexivity).
    step_call Hf ltac:(unfold glBindTexture).
    step_handle.
    step_call Hf ltac:(rewrite glBindVertexArray_ok by eauto).
    apply bind_Raise. unfold lift.
    by rewrite get_projection_matrix_empty_grid.
Qed.

(** What a [draw] of the point-mode renderer leaves in the context. *)
Lemma geom_draw_state w p vao pr :
  (∀ e, fails (glstate w) e = false) →
  _shader_handle (self w) = Some p → _vao_handle (self w) = Some vao →
  programs (glstate w) !! p = Some pr → pr_linked pr = true →
  is_Some (vertex_arrays (glstate w) !! vao) →
  TILEMAP_N_COLS ≠ 0 → TILEMAP_N_ROWS ≠ 0 →
  GeomBufferedRenderer.draw w
  = Return tt
      (set_glstate
         (set_draws
            (draws (glstate w)
             ++ [issued GL_POINTS (Z.of_nat (tilemap_len (tilemap w))) w])
            (set_current_program p
               (set_programs
                  (<[p := mkProgram (pr_attached pr) (pr_linked pr) (pr_log pr)
                            (<["n_cols"%string := UInt TILEMAP_N_COLS]>
                               (<["projection"%string :=
                                    UFloats (pyglet_math.entries
                                               composed_matrix)]>
                                  (pr_uniforms pr)))]> (programs (glstate w)))
                  (set_vertex_array_binding vao
                     (set_texture_binding (_texture_id (self w))
                        (glstate w)))))) w).
Proof.
  intros Hf Hp Hvao Hpr Hl Hva HC HR.
  unfold GeomBufferedRenderer.draw.
  step_with ltac:(reflexivity).
  step_call Hf ltac:(unfold glBindTexture).
  step_handle.
  step_call Hf ltac:(rewrite glBindVertexArray_ok by eauto).
  step_with ltac:(unfold lift; rewrite get_projection_matrix_ok by done;
                  reflexivity).
  step_with ltac:(apply (prepare_params_matrix _ p);
                  [done|done|simpl; by eexists]).
  cbv beta iota.
  step_handle.
  step_call Hf ltac:(unfold glProgramUniformMatrix4fv, program_uniform;
                     simpl; rewrite Hpr).
  step_with ltac:(apply (prepare_params_int _ p);
                  [done|done|simpl; rewrite lookup_insert_eq; by eexists]).
  cbv beta iota.
  step_handle.
  step_call Hf ltac:(unfold glProgramUniform1i, program_uniform;
                     simpl; rewrite lookup_insert_eq).
  step_handle.
  step_call Hf ltac:(unfold glUseProgram; simpl; rewrite lookup_insert_eq;
                     simpl; rewrite Hl).
  step_with ltac:(reflexivity).
  last_call Hf ltac:(unfold glDrawArrays).
  unfold issued. rewrite Hp, Hvao. simpl.
  rewrite ?Hl, !insert_insert_eq. reflexivity.
Qed.


(** [draw] can be called frame after frame: it leaves the renderer
    [ready], changes no buffer, no vertex array and not the tilemap, and
    a second call issues the same draw call as the first. *)
Theorem draw_is_repeatable w :
  ready w → TILEMAP_N_COLS ≠ 0 → TILEMAP_N_ROWS ≠ 0 →
  ∃ w1 w2 call,
    GeomBufferedRenderer.draw w = Return tt w1
    ∧ ready w1
    ∧ GeomBufferedRenderer.draw w1 = Return tt w2
    ∧ draws (glstate w2) = draws (glstate w) ++ [call; call]
    ∧ dc_mode call = GL_POINTS
    ∧ dc_count call = Z.of_nat (tilemap_len (tilemap w))
    ∧ buffers (glstate w2) = buffers (glstate w)
    ∧ vertex_arrays (glstate w2) = vertex_arrays (glstate w)
    ∧ tilemap w2 = tilemap w ∧ self w2 = self w.
Proof.
  intros (Hf & p & vbo & vao & pr & Hp & Hvbo & Hvao & Hpr & Hl & Hb & Hva)
         HC HR.
  eexists _, _, _.
  split; [by eapply geom_draw_state|].
  split.
  { split; [done|]. eexists p, vbo, vao, _. simpl.
    rewrite lookup_insert_eq. split_and!; done. }
  split.
  { eapply geom_draw_state;
      [done|done|done|simpl; apply lookup_insert_eq|done..]. }
  simpl. rewrite <-(assoc_L (++)). simpl.
  split; [reflexivity|]. done.
Qed.

End DrawMore.

(** ** Compiling and linking, when the driver accepts *)
Section CompileMore.
Context `{Constants}.
Import gl.

(** A stage that compiles: its shader gets the next free name, and no
    other shader is touched. *)
Lemma compile_stage_ok_fresh w0 p v hs seen source shader_type :
  compiling w0 p v hs seen →
  driver_compile (glstate w0) shader_type source = None →
  ∃ v', _OpenGLRenderer.compile_stage (source, shader_type) hs v
        = Return (hs ++ [fresh (glstate v)]) v'
        ∧ compiling w0 p v' (hs ++ [fresh (glstate v)])
                    (seen ++ [(source, shader_type)])
        ∧ (fresh (glstate v) ∉ hs)
        ∧ (∀ h, h ≠ fresh (glstate v) →
                shaders (glstate v') !! h = shaders (glstate v) !! h)
        ∧ ∃ n S P, v' = set_glstate
                          (set_next_name n
                             (set_shaders S (set_programs P (glstate v)))) v.
Proof.
  intros Hc Hok.
  destruct (compile_stage_ok _ _ _ _ _ _ _ Hc Hok) as (v' & h & Hrun & Hc').
  destruct Hc as (Hf & Hdc & Hdl & Htm & Hp & Hvbo & Hvao & Hb & Hva
                  & (pr & Hpr & Hl & Ha) & Hsh & Hlt).
  assert (∃ v'', _OpenGLRenderer.compile_stage (source, shader_type) hs v
                 = Return (hs ++ [fresh (glstate v)]) v''
                 ∧ (∀ h, h ≠ fresh (glstate v) →
                         shaders (glstate v'') !! h = shaders (glstate v) !! h)
                 ∧ ∃ n S P, v'' = set_glstate
                                    (set_next_name n
                                       (set_shaders S
                                          (set_programs P (glstate v)))) v)
    as (v'' & Hrun' & Hframe & Hshape).
  { eexists. split; [|split].
    - unfold _OpenGLRenderer.compile_stage.
      step_call Hf ltac:(unfold glCreateShader).
      step_call Hf ltac:(unfold glShaderSource; simpl;
                         rewrite lookup_insert_eq).
      step_call Hf ltac:(unfold glCompileShader; simpl;
                         rewrite lookup_insert_eq; simpl; rewrite Hdc, Hok).
      step_call Hf ltac:(unfold glGetShaderiv; simpl;
                         rewrite lookup_insert_eq).
      rewrite decide_False by done.
      step_handle.
      step_call Hf ltac:(unfold glAttachShader; simpl;
                         rewrite Hpr, lookup_insert_eq).
      reflexivity.
    - intros h' Hne. simpl. by rewrite !lookup_insert_ne.
    - eexists _, _, _. simpl. reflexivity. }
  rewrite Hrun' in Hrun. injection Hrun as Hh <-.
  apply app_inv_head in Hh. injection Hh as <-.
  exists v''. split; [done|]. split; [done|]. split; [|done].
  intros Hin. rewrite Forall_forall in Hlt. specialize (Hlt _ Hin). lia.
Qed.

Lemma compile_loop_ok_fresh w0 p stages :
  ∀ v hs seen,
    compiling w0 p v hs seen → NoDup hs →
    first_compile_error (glstate w0) stages = None →
    ∃ v' more,
      for_M stages _OpenGLRenderer.compile_stage hs v = Return (hs ++ more) v'
      ∧ compiling w0 p v' (hs ++ more) (seen ++ stages)
      ∧ NoDup (hs ++ more)
      ∧ (∀ h, h ∉ hs ++ more →
              shaders (glstate v') !! h = shaders (glstate v) !! h)
      ∧ ∃ n S P, v' = set_glstate
                        (set_next_name n
                           (set_shaders S (set_programs P (glstate v)))) v.
Proof.
  induction stages as [|[source shader_type] stages IH];
    intros v hs seen Hc Hnd Herr.
  - exists v, []. rewrite !app_nil_r. split_and!; try done.
    exists (next_name (glstate v)), (shaders (glstate v)),
      (programs (glstate v)).
    by destruct v as [? ? [] ?].
  - simpl in Herr.
    destruct (driver_compile (glstate w0) shader_type source) eqn:Hd; [done|].
    destruct (compile_stage_ok_fresh _ _ _ _ _ _ _ Hc Hd)
      as (v1 & Hrun & Hc1 & Hnew & Hframe1 & (n1 & S1 & P1 & Hshape1)).
    destruct (IH v1 _ _ Hc1)
      as (v' & more & Hrest & Hc' & Hnd' & Hframe' & (n' & S' & P' & Hshape'));
      [|done|].
    { apply NoDup_app. split_and!; [done| |apply NoDup_singleton].
      intros h Hin ->%list_elem_of_singleton. done. }
    rewrite <-!(assoc_L (++)) in Hrest, Hnd', Hframe'.
    rewrite <-(assoc_L (++) hs), <-(assoc_L (++) seen) in Hc'.
    exists v', ([fresh (glstate v)] ++ more).
    split; [|split; [exact Hc'|split; [exact Hnd'|split]]].
    + cbn [for_M]. by erewrite bind_Return.
    + intros h Hh. rewrite Hframe' by done. apply Hframe1.
      intros ->. apply Hh. rewrite !elem_of_app, list_elem_of_singleton. auto.
    + exists n', S', P'. rewrite Hshape', Hshape1. reflexivity.
Qed.

(** The closing loop detaches and deletes every shader of the program. *)
Lemma release_loop p hs :
  ∀ v pr,
    (∀ e, fails (glstate v) e = false) →
    _shader_handle (self v) = Some p →
    NoDup hs →
    programs (glstate v) !! p = Some pr → pr_attached pr = hs →
    ∃ shaders' programs',
      for_M hs _OpenGLRenderer.release_stage tt v
      = Return tt (set_glstate
                     (set_shaders shaders'
                        (set_programs programs' (glstate v))) v)
      ∧ programs' !! p = Some (mkProgram [] (pr_linked pr) (pr_log pr)
                                         (pr_uniforms pr))
      ∧ (∀ q, q ≠ p → programs' !! q = programs (glstate v) !! q)
      ∧ (∀ h, h ∈ hs → shaders' !! h = None)
      ∧ (∀ h, h ∉ hs → shaders' !! h = shaders (glstate v) !! h).
Proof.
  induction hs as [|h hs IH]; intros v pr Hf Hp Hnd Hpr Ha.
  - exists (shaders (glstate v)), (programs (glstate v)).
    split; [by destruct v as [? ? [] ?]|].
    split; [rewrite Hpr; by destruct pr; simpl in *; subst|].
    split; [done|]. split; [by intros ? ?%elem_of_nil|done].
  - apply NoDup_cons in Hnd as [Hnotin Hnd].
    assert (filter (λ h', h' ≠ h) (h :: hs) = hs) as Hfilter.
    { rewrite filter_cons_False by (intros ?; done).
      clear -Hnotin. induction hs as [|h' hs IH]; [done|].
      apply not_elem_of_cons in Hnotin as [Hne Hnotin].
      rewrite filter_cons_True by done. by rewrite IH. }
    set (pr1 := mkProgram hs (pr_linked pr) (pr_log pr) (pr_uniforms pr)).
    set (v1 := set_glstate
                 (set_shaders (delete h (shaders (glstate v)))
                    (set_programs (<[p := pr1]> (programs (glstate v)))
                       (glstate v))) v).
    assert (_OpenGLRenderer.release_stage h tt v = Return tt v1) as Hstep.
    { unfold _OpenGLRenderer.release_stage.
      step_handle.
      step_call Hf ltac:(unfold glDetachShader; simpl; rewrite Hpr, Ha;
                         rewrite decide_True by left; rewrite Hfilter).
      last_call Hf ltac:(unfold glDeleteShader).
      reflexivity. }
    destruct (IH v1 pr1) as (S & P & Hrun & HP & HPq & HSin & HSout);
      [done|done|done|simpl; apply lookup_insert_eq|done|].
    exists S, P. split; [|split; [exact HP|split; [|split]]].
    + cbn [for_M]. erewrite bind_Return by exact Hstep. exact Hrun.
    + intros q Hq. rewrite HPq by done. simpl. by rewrite lookup_insert_ne.
    + intros h' [->|Hin]%elem_of_cons; [|by apply HSin].
      rewrite HSout by done. simpl. apply lookup_delete_eq.
    + intros h' [Hne Hout]%not_elem_of_cons. rewrite HSout by done.
      simpl. by rewrite lookup_delete_ne.
Qed.

(** With every stage compiling and the program linking,
    [_compile_shader_program] returns: the renderer holds a linked
    program with no shader attached, the shaders it created are deleted
    and no other shader, buffer or vertex array is touched. *)
Lemma compile_program_ok w0 stages :
  (∀ e, fails (glstate w0) e = false) →
  _vbo_handle (self w0) = None → _vao_handle (self w0) = None →
  first_compile_error (glstate w0) stages = None →
  driver_link (glstate w0) (link_input stages) = None →
  ∃ w' p pr,
    _OpenGLRenderer._compile_shader_program stages w0 = Return tt w'
    ∧ (∀ e, fails (glstate w') e = false)
    ∧ tilemap w' = tilemap w0
    ∧ shader_files w' = shader_files w0
    ∧ _texture_id (self w') = _texture_id (self w0)
    ∧ _shader_handle (self w') = Some p
    ∧ _vbo_handle (self w') = None ∧ _vao_handle (self w') = None
    ∧ programs (glstate w') !! p = Some pr
    ∧ pr_linked pr = true ∧ pr_attached pr = []
    ∧ (∀ h s, shaders (glstate w') !! h = Some s →
              shaders (glstate w0) !! h = Some s)
    ∧ buffers (glstate w') = buffers (glstate w0)
    ∧ vertex_arrays (glstate w') = vertex_arrays (glstate w0)
    ∧ draws (glstate w') = draws (glstate w0).
Proof.
  intros Hf Hvbo Hvao Hcompile Hlink.
  set (p := fresh (glstate w0)).
  set (v0 := set_self (mkRendererObject (_texture_id (self w0)) (Some p)
                                        (_vbo_handle (self w0))
                                        (_vao_handle (self w0)))
               (set_glstate
                  (set_next_name (p + 1)%N
                     (set_programs
                        (<[p := mkProgram [] false "" ∅]>
                           (programs (glstate w0))) (glstate w0))) w0)).
  assert (compiling w0 p v0 [] []) as Hc.
  { unfold compiling, v0. simpl. split_and!; try done.
    eexists. by rewrite lookup_insert_eq. }
  destruct (compile_loop_ok_fresh w0 p stages v0 [] [] Hc) as
    (v1 & hs & Hloop & Hc1 & Hnd & Hframe & (n1 & S1 & P1 & Hshape));
    [constructor|done|].
  rewrite !app_nil_l in *.
  pose proof Hc1 as (Hf1 & Hdc1 & Hdl1 & Htm1 & Hp1 & Hvbo1 & Hvao1 & Hb1
                     & Hva1 & (pr1 & Hpr1 & Hl1 & Ha1) & Hsh1 & Hlt1).
  pose proof Hsh1 as Hstages. rewrite <-Ha1 in Hstages.
  apply attached_stages_compiled in Hstages.
  set (pr2 := mkProgram (pr_attached pr1) true "" (pr_uniforms pr1)).
  set (v2 := set_glstate
               (set_programs (<[p := pr2]> (programs (glstate v1)))
                  (glstate v1)) v1).
  destruct (release_loop p hs v2 pr2) as (S & P & Hrel & HP & _ & HSin & HSout);
    [done|done|done|simpl; apply lookup_insert_eq|done|].
  eexists _, p, _. split.
  { unfold _OpenGLRenderer._compile_shader_program.
    step_call Hf ltac:(unfold glCreateProgram).
    step_with ltac:(reflexivity).
    change (set_self _ _) with v0.
    erewrite bind_Return by exact Hloop.
    step_handle.
    step_call Hf1 ltac:(unfold glLinkProgram; simpl;
                        rewrite Hpr1, Hstages, Hdl1, Hlink).
    step_handle.
    step_call Hf1 ltac:(unfold glGetProgramiv; simpl;
                        rewrite lookup_insert_eq).
    rewrite decide_False by done.
    exact Hrel. }
  simpl. split_and!; try done.
  - by rewrite Hshape.
  - by rewrite Hshape.
  - intros h s Hs.
    destruct (decide (h ∈ hs)) as [Hin|Hout]; [by rewrite HSin in Hs|].
    rewrite HSout in Hs by done. simpl in Hs.
    rewrite Hframe in Hs by done. unfold v0 in Hs. by simpl in Hs.
  - by rewrite Hshape.
Qed.

End CompileMore.

(** ** Construction, when it goes through *)
Section Construction.
Context `{Constants}.
Import gl.

(** A compile that succeeds leaves a usable program and no shader behind:
    the program the renderer holds is linked with nothing attached, every
    shader that exists afterwards existed before, and buffers, vertex
    arrays and issued draw calls are as they were. *)
Theorem successful_compile_releases_its_shaders w0 stages :
  (∀ e, fails (glstate w0) e = false) →
  _vbo_handle (self w0) = None → _vao_handle (self w0) = None →
  first_compile_error (glstate w0) stages = None →
  driver_link (glstate w0) (link_input stages) = None →
  ∃ w' p pr,
    _OpenGLRenderer._compile_shader_program stages w0 = Return tt w'
    ∧ _shader_handle (self w') = Some p
    ∧ programs (glstate w') !! p = Some pr
    ∧ pr_linked pr = true ∧ pr_attached pr = []
    ∧ (∀ h s, shaders (glstate w') !! h = Some s →
              shaders (glstate w0) !! h = Some s)
    ∧ buffers (glstate w') = buffers (glstate w0)
    ∧ vertex_arrays (glstate w') = vertex_arrays (glstate w0)
    ∧ draws (glstate w') = draws (glstate w0).
Proof.
  intros Hf Hvbo Hvao Hcompile Hlink.
  destruct (compile_program_ok w0 stages) as (w' & p & pr & Hrun & Hrest);
    [done..|].
  exists w', p, pr. split; [done|].
  destruct Hrest as (_ & _ & _ & _ & ? & _ & _ & ? & ? & ? & ? & ? & ? & ?).
  done.
Qed.

(** [__init__] up to its call of [recalculate]: the shader program is
    compiled, buffer and vertex array are allocated, and the renderer is
    [ready]. *)
Lemma construction_reaches_recalculate
    (cls : _OpenGLRenderer.Class) (stages : list (string * shader_type)) w :
  (∀ e, fails (glstate w) e = false) →
  _OpenGLRenderer._create_shader cls
    (set_self (mkRendererObject (texture_id (tilemap w)) None None None) w)
  = _OpenGLRenderer._compile_shader_program stages
      (set_self (mkRendererObject (texture_id (tilemap w)) None None None) w) →
  first_compile_error (glstate w) stages = None →
  driver_link (glstate w) (link_input stages) = None →
  ∃ w2 vbo vao,
    _OpenGLRenderer.__init__ cls w = _OpenGLRenderer.recalculate cls w2
    ∧ ready w2
    ∧ _vbo_handle (self w2) = Some vbo ∧ _vao_handle (self w2) = Some vao
    ∧ vbo ≠ 0%N ∧ vao ≠ 0%N
    ∧ tilemap w2 = tilemap w
    ∧ _texture_id (self w2) = texture_id (tilemap w)
    ∧ draws (glstate w2) = draws (glstate w)
    ∧ (∀ h s, shaders (glstate w2) !! h = Some s →
              shaders (glstate w) !! h = Some s).
Proof.
  intros Hf Hcls Hcompile Hlink.
  set (w0 := set_self (mkRendererObject (texture_id (tilemap w))
                                        None None None) w) in *.
  destruct (compile_program_ok w0 stages)
    as (w1 & p & pr & Hrun & Hf1 & Htm & Hfiles & Htex & Hp & Hvbo & Hvao
        & Hpr & Hl & Ha & Hsh & Hb & Hva & Hd); [done..|].
  set (vbo := fresh (glstate w1)).
  eassert (_OpenGLRenderer._allocate_vbo_vao w1 = Return tt _) as Halloc.
  { unfold _OpenGLRenderer._allocate_vbo_vao.
    step_call Hf1 ltac:(unfold glGenBuffers).
    step_with ltac:(reflexivity).
    step_call Hf1 ltac:(unfold glGenVertexArrays).
    reflexivity. }
  eexists _, vbo, _. split.
  { unfold _OpenGLRenderer.__init__.
    step_with ltac:(reflexivity).
    step_with ltac:(reflexivity).
    change (set_self _ w) with w0.
    erewrite bind_Return by (rewrite Hcls; exact Hrun).
    erewrite bind_Return by exact Halloc.
    reflexivity. }
  simpl. split.
  { split; [done|]. eexists p, vbo, _, pr. simpl.
    rewrite !lookup_insert_eq. split_and!; by eauto. }
  split_and!; try done.
  - unfold vbo, fresh. lia.
  - unfold fresh. simpl. lia.
Qed.

(** Constructing a [VertexBufferedRenderer] on a working context, with
    its two shader files readable and accepted by the driver: the
    constructor returns a renderer that is [ready], whose buffer holds the
    layout of the tilemap and whose vertex array describes it; its
    texture is the tilemap's, nothing has been drawn, and no shader is
    left behind. *)
Theorem vertex_construction_succeeds w vert_source frag_source :
  (∀ e, fails (glstate w) e = false) →
  shader_files w "VertexBufferedRenderer.vert" = Some vert_source →
  shader_files w "VertexBufferedRenderer.frag" = Some frag_source →
  driver_compile (glstate w) GL_VERTEX_SHADER vert_source = None →
  driver_compile (glstate w) GL_FRAGMENT_SHADER frag_source = None →
  driver_link (glstate w)
    [(GL_VERTEX_SHADER, vert_source); (GL_FRAGMENT_SHADER, frag_source)]
  = None →
  tilemap_wf (tilemap w) → TEXTURE_N_TILES_PER_ROW ≠ 0 →
  ∃ w' vbo vao va,
    _OpenGLRenderer.__init__ VertexBufferedRenderer.cls w = Return tt w'
    ∧ ready w'
    ∧ tilemap w' = tilemap w
    ∧ _texture_id (self w') = texture_id (tilemap w)
    ∧ _vbo_handle (self w') = Some vbo ∧ _vao_handle (self w') = Some vao
    ∧ buffers (glstate w') !! vbo = Some (FloatData (layout (tilemap w)))
    ∧ vertex_arrays (glstate w') !! vao = Some va
    ∧ va_pointers va !! 0%N = Some (mkAttribPointer vbo 2 GL_FLOAT false 16 0)
    ∧ va_pointers va !! 1%N = Some (mkAttribPointer vbo 2 GL_FLOAT false 16 8)
    ∧ draws (glstate w') = draws (glstate w)
    ∧ (∀ h s, shaders (glstate w') !! h = Some s →
              shaders (glstate w) !! h = Some s).
Proof.
  intros Hf Hvert Hfrag Hcv Hcf Hlink Hwf HN.
  destruct (construction_reaches_recalculate VertexBufferedRenderer.cls
              [(vert_source, GL_VERTEX_SHADER);
               (frag_source, GL_FRAGMENT_SHADER)] w)
    as (w2 & vbo & vao & Hinit & Hready & Hvbo & Hvao & _ & _ & Htm & Htex
        & Hd & Hsh); [done| | |done|].
  { by apply vertex_create_shader_stages. }
  { simpl. by rewrite Hcv, Hcf. }
  destruct (vertex_recalculate_spec w2 vbo vao) as (va & Hrun & Hp0 & Hp1);
    [done|done|done|by rewrite Htm|done|].
  exists (recalculated vbo vao (FloatData (layout (tilemap w2))) va w2),
    vbo, vao, va.
  split; [by rewrite Hinit|].
  split; [by apply recalculated_ready|].
  simpl. rewrite !lookup_insert_eq, Htm. split_and!; done.
Qed.

(** The same for a [GeomBufferedRenderer] and its three files, the
    geometry source with the constants filled in: its buffer holds the
    tile indices as unsigned 32-bit numbers, one per tile. *)
Theorem point_construction_succeeds w vert_source frag_source geom_source :
  (∀ e, fails (glstate w) e = false) →
  shader_files w "GeometryShaderRenderer.vert" = Some vert_source →
  shader_files w "GeometryShaderRenderer.frag" = Some frag_source →
  shader_files w "GeometryShaderRenderer.geom" = Some geom_source →
  first_compile_error (glstate w)
    [(vert_source, GL_VERTEX_SHADER); (frag_source, GL_FRAGMENT_SHADER);
     (geom_source_with_constants geom_source, GL_GEOMETRY_SHADER)] = None →
  driver_link (glstate w)
    [(GL_VERTEX_SHADER, vert_source); (GL_FRAGMENT_SHADER, frag_source);
     (GL_GEOMETRY_SHADER, geom_source_with_constants geom_source)] = None →
  ∃ w' vbo vao va,
    _OpenGLRenderer.__init__ GeomBufferedRenderer.cls w = Return tt w'
    ∧ ready w'
    ∧ tilemap w' = tilemap w
    ∧ _texture_id (self w') = texture_id (tilemap w)
    ∧ _vbo_handle (self w') = Some vbo ∧ _vao_handle (self w') = Some vao
    ∧ buffers (glstate w') !! vbo
      = Some (UIntData (c_uint32 <$> map (tilemap w)))
    ∧ vertex_arrays (glstate w') !! vao = Some va
    ∧ va_pointers va !! 0%N
      = Some (mkAttribPointer vbo 1 GL_UNSIGNED_INT true 4 0)
    ∧ draws (glstate w') = draws (glstate w)
    ∧ (∀ h s, shaders (glstate w') !! h = Some s →
              shaders (glstate w) !! h = Some s).
Proof.
  intros Hf Hvert Hfrag Hgeom Hcompile Hlink.
  destruct (construction_reaches_recalculate GeomBufferedRenderer.cls
              [(vert_source, GL_VERTEX_SHADER);
               (frag_source, GL_FRAGMENT_SHADER);
               (geom_source_with_constants geom_source, GL_GEOMETRY_SHADER)] w)
    as (w2 & vbo & vao & Hinit & Hready & Hvbo & Hvao & _ & _ & Htm & Htex
        & Hd & Hsh); [done| |done|done|].
  { by apply geom_create_shader_stages. }
  destruct (geom_recalculate_spec w2 vbo vao) as (va & Hrun & Hp0);
    [done|done|done|].
  exists (recalculated vbo vao (UIntData (c_uint32 <$> map (tilemap w2))) va w2),
    vbo, vao, va.
  split; [by rewrite Hinit|].
  split; [by apply recalculated_ready|].
  simpl. rewrite !lookup_insert_eq, Htm. split_and!; done.
Qed.

(** A shader file that cannot be read stops the constructor before it
    makes any call into the library: it raises [FileNotFoundError], the
    context is as it was, and the renderer holds no handle. *)
Theorem missing_shader_file_stops_construction w :
  shader_files w "VertexBufferedRenderer.vert" = None
  ∨ shader_files w "VertexBufferedRenderer.frag" = None →
  _OpenGLRenderer.__init__ VertexBufferedRenderer.cls w
  = Raise FileNotFoundError
      (set_self (mkRendererObject (texture_id (tilemap w)) None None None) w).
Proof.
  intros Hmissing.
  unfold _OpenGLRenderer.__init__.
  step_with ltac:(reflexivity).
  step_with ltac:(reflexivity).
  apply bind_Raise. simpl. unfold VertexBufferedRenderer._create_shader.
  unfold read_shader_file at 1. unfold bind at 1. simpl.
  destruct (shader_files w "VertexBufferedRenderer.vert") as [vert|];
    [|done].
  unfold read_shader_file at 1. unfold bind at 1. simpl.
  destruct Hmissing as [?| ->]; done.
Qed.

(** For the point-mode renderer the geometry source is read last, so a
    missing one is found after the other two files are read and before
    anything is compiled. *)
Theorem missing_geometry_source_stops_construction w :
  shader_files w "GeometryShaderRenderer.vert" = None
  ∨ shader_files w "GeometryShaderRenderer.frag" = None
  ∨ shader_files w "GeometryShaderRenderer.geom" = None →
  _OpenGLRenderer.__init__ GeomBufferedRenderer.cls w
  = Raise FileNotFoundError
      (set_self (mkRendererObject (texture_id (tilemap w)) None None None) w).
Proof.
  intros Hmissing.
  unfold _OpenGLRenderer.__init__.
  step_with ltac:(reflexivity).
  step_with ltac:(reflexivity).
  apply bind_Raise. simpl. unfold GeomBufferedRenderer._create_shader.
  unfold read_shader_file at 1. unfold bind at 1. simpl.
  destruct (shader_files w "GeometryShaderRenderer.vert") as [vert|];
    [|done].
  unfold read_shader_file at 1. unfold bind at 1. simpl.
  destruct (shader_files w "GeometryShaderRenderer.frag") as [frag|];
    [|done].
  unfold read_shader_file at 1. unfold bind at 1. simpl.
  destruct Hmissing as [?|[?| ->]]; done.
Qed.

End Construction.

(** ** Releasing the resources *)
Section TeardownMore.
Context `{Constants}.
Import gl.



(** A renderer without a vertex array is never released: the conversion
    of [None] raises inside the [try] before any delete call is made. *)
Lemma destructor_without_vertex_array w :
  _vao_handle (self w) = None → _OpenGLRenderer.__del__ w = Return tt w.
Proof.
  intros Hvao. unfold _OpenGLRenderer.__del__, try_except.
  by erewrite bind_Raise by (by apply handle_arg_None).
Qed.

(** A constructor stopped by a compile or link error, up to the world it
    leaves. *)
Lemma construction_aborts
    (cls : _OpenGLRenderer.Class) (stages : list (string * shader_type))
    (w : World) (log : string) :
  (∀ e, fails (glstate w) e = false) →
  _OpenGLRenderer._create_shader cls
    (set_self (mkRendererObject (texture_id (tilemap w)) None None None) w)
  = _OpenGLRenderer._compile_shader_program stages
      (set_self (mkRendererObject (texture_id (tilemap w)) None None None) w) →
  first_compile_error (glstate w) stages = Some log
  ∨ (first_compile_error (glstate w) stages = None
     ∧ driver_link (glstate w) (link_input stages) = Some log) →
  ∃ w',
    _OpenGLRenderer.__init__ cls w = Raise (RuntimeError log) w'
    ∧ aborted
        (set_self (mkRendererObject (texture_id (tilemap w)) None None None) w)
        w'.
Proof.
  intros Hf Hcls Hfail.
  set (w0 := set_self (mkRendererObject (texture_id (tilemap w))
                                        None None None) w) in *.
  set (p := fresh (glstate w0)).
  set (v0 := set_self (mkRendererObject (texture_id (tilemap w)) (Some p)
                                        None None)
               (set_glstate
                  (set_next_name (p + 1)%N
                     (set_programs
                        (<[p := mkProgram [] false "" ∅]>
                           (programs (glstate w0))) (glstate w0))) w0)).
  assert (compiling w0 p v0 [] []) as Hc.
  { unfold compiling, v0. simpl. split_and!; try done.
    eexists. by rewrite lookup_insert_eq. }
  assert (∃ w', _OpenGLRenderer._compile_shader_program stages w0
                = Raise (RuntimeError log) w' ∧ aborted w0 w')
    as (w' & Hrun & Hab).
  { destruct Hfail as [Herr|[Hok Hlink]].
    - destruct (compile_loop_error w0 p log stages v0 [] [] Hc Herr)
        as (w' & Hrun & Hab).
      exists w'. split; [|done].
      unfold _OpenGLRenderer._compile_shader_program.
      step_call Hf ltac:(unfold glCreateProgram).
      step_with ltac:(reflexivity).
      change (set_self _ _) with v0.
      by erewrite bind_Raise.
    - destruct (compile_loop_ok w0 p stages v0 [] [] Hc Hok)
        as (v1 & hs & Hloop & Hc1).
      edestruct (link_error w0 p v1 hs stages log) as (w' & Hrun & Hab);
        [done..|].
      exists w'. split; [|done].
      unfold _OpenGLRenderer._compile_shader_program.
      step_call Hf ltac:(unfold glCreateProgram).
      step_with ltac:(reflexivity).
      change (set_self _ _) with v0.
      erewrite bind_Return by done. exact Hrun. }
  exists w'. split; [|done].
  unfold _OpenGLRenderer.__init__.
  step_with ltac:(reflexivity).
  step_with ltac:(reflexivity).
  change (set_self _ w) with w0.
  apply bind_Raise. by rewrite Hcls.
Qed.

(** The program of a renderer whose construction failed is never
    deleted: the constructor leaves it allocated and unlinked, and the
    destructor, run on what the constructor left, returns without
    changing anything. *)
Theorem failed_construction_leaks_the_program
    (cls : _OpenGLRenderer.Class) (stages : list (string * shader_type))
    (w : World) (log : string) :
  (∀ e, fails (glstate w) e = false) →
  _OpenGLRenderer._create_shader cls
    (set_self (mkRendererObject (texture_id (tilemap w)) None None None) w)
  = _OpenGLRenderer._compile_shader_program stages
      (set_self (mkRendererObject (texture_id (tilemap w)) None None None) w) →
  first_compile_error (glstate w) stages = Some log
  ∨ (first_compile_error (glstate w) stages = None
     ∧ driver_link (glstate w) (link_input stages) = Some log) →
  ∃ w' p,
    _OpenGLRenderer.__init__ cls w = Raise (RuntimeError log) w'
    ∧ _OpenGLRenderer.__del__ w' = Return tt w'
    ∧ _shader_handle (self w') = Some p
    ∧ is_Some (programs (glstate w') !! p).
Proof.
  intros Hf Hcls Hfail.
  destruct (construction_aborts cls stages w log Hf Hcls Hfail)
    as (w' & Hinit & _ & _ & Hvao & _ & _ & p & pr & Hp & Hpr & _).
  exists w', p. split; [done|].
  split; [by apply destructor_without_vertex_array|].
  split; [done|by eexists].
Qed.

End TeardownMore.

(** ** Setting uniforms *)
Section Uniforms.
Context `{Constants}.
Import gl.


End Uniforms.

(** ** The renderer that leaves the buffers to the library *)
Section PygletMore.
Context `{Constants}.
Import Pyglet_VertexBufferedRenderer.

(** [_update_vbo] reads of the vertex list only the lengths of its two
    arrays. *)
Lemma pyglet_update_vbo_lengths tm vl vl' :
  length (aPosition vl) = length (aPosition vl') →
  length (aTexCoord vl) = length (aTexCoord vl') →
  _update_vbo tm vl = _update_vbo tm vl'.
Proof.
  intros Hp Ht. unfold _update_vbo, assign_slice. by rewrite Hp, Ht.
Qed.

(** [recalculate] after an edit of the tilemap, on the vertex list an
    earlier [recalculate] filled: the arrays come out as on a freshly
    allocated list, the positions as before and the texture coordinates
    those of the edited tilemap. *)
Theorem pyglet_recalculate_follows_tilemap tm tm' :
  tilemap_wf tm → tilemap_wf tm' → TEXTURE_N_TILES_PER_ROW ≠ 0 →
  ∃ vl vl',
    recalculate tm (_allocate_vbo_vao tm) = inr vl
    ∧ recalculate tm' vl = inr vl'
    ∧ aPosition vl' = aPosition vl
    ∧ aTexCoord vl' = texcoords_of tm'
    ∧ length (aTexCoord vl') = length (aTexCoord vl).
Proof.
  intros Hwf Hwf' HN.
  exists (mkVertexList positions_of (texcoords_of tm)),
    (mkVertexList positions_of (texcoords_of tm')).
  unfold recalculate.
  split; [by apply pyglet_update_vbo_arrays|].
  split; [|simpl; by rewrite !length_texcoords_of].
  rewrite <-(pyglet_update_vbo_arrays tm') by done.
  apply pyglet_update_vbo_lengths.
  - unfold _allocate_vbo_vao, vertex_list. cbn [aPosition].
    rewrite length_positions_of, length_replicate.
    destruct Hwf' as (HR & HC & Hlen). unfold tilemap_len.
    rewrite Hlen, Z2Nat.inj_mul by done.
    unfold n_coords_vertex_position. lia.
  - unfold _allocate_vbo_vao, vertex_list. cbn [aTexCoord].
    rewrite length_texcoords_of, length_replicate.
    destruct Hwf' as (HR & HC & Hlen). unfold tilemap_len.
    rewrite Hlen, Z2Nat.inj_mul by done.
    unfold n_coords_texture_coordinates. lia.
Qed.

End PygletMore.

(** * The further results on the small configuration *)
Section MoreDemo.
Local Existing Instance demo.constants.
Import pyglet_math.


Lemma projection_fits_clip_space_witness :
  (0 ≤ Qc_of_Z 1)%Qc ∧ (Qc_of_Z 1 ≤ Qc_of_Z 3)%Qc
  ∧ ∃ m, _AbstractRenderer._get_projection_matrix = inr m
         ∧ let clip := transform m (mkVec4 (Qc_of_Z 1) (Qc_of_Z 3)
                                           (Qc_of_Z 0) (Qc_of_Z 1)) in
           (Qc_of_Z (-1) ≤ v4x clip)%Qc ∧ (v4x clip ≤ Qc_of_Z 1)%Qc
           ∧ (Qc_of_Z (-1) ≤ v4y clip)%Qc ∧ (v4y clip ≤ Qc_of_Z 1)%Qc.
Proof.
  split; [by vm_compute|]. split; [by vm_compute|].
  apply (projection_fits_clip_space (H := demo.constants));
    [simpl; lia|simpl; lia|by vm_compute..].
Defined.


Lemma surplus_tiles_leave_zeros_witness :
  (9 ≤ length (map edge.surplus))%nat
  ∧ VertexBufferedRenderer.build_vertex_data edge.surplus
    = inr (layout edge.surplus ++ replicate 24 (Qc_of_Z 0)).
Proof.
  split; [simpl; lia|].
  apply (surplus_tiles_leave_zeros (H := demo.constants) edge.surplus);
    simpl; lia.
Defined.

Lemma too_few_tiles_raise_IndexError_witness :
  (length (map edge.short) < 9)%nat
  ∧ VertexBufferedRenderer.build_vertex_data edge.short = inl IndexError.
Proof.
  split; [simpl; lia|].
  apply (too_few_tiles_raise_IndexError (H := demo.constants) edge.short);
    simpl; lia.
Defined.

Lemma zero_tiles_per_row_raises_witness :
  TEXTURE_N_TILES_PER_ROW (Constants := edge.no_atlas) = 0
  ∧ VertexBufferedRenderer._update_vbo (H := edge.no_atlas) demo.world
    = Raise ZeroDivisionError
        (set_glstate (gl.set_array_buffer_binding 2 (glstate demo.world))
                     demo.world).
Proof.
  split; [reflexivity|].
  apply (zero_tiles_per_row_raises (H := edge.no_atlas) demo.world 2%N);
    [exact demo_works|reflexivity|exact demo_buffer|reflexivity
    |reflexivity|reflexivity|discriminate].
Defined.

Lemma point_upload_wraps_to_uint32_witness :
  is_Some (gl.buffers (glstate demo.world) !! 2%N)
  ∧ ∃ w' points,
      GeomBufferedRenderer._update_vbo demo.world = Return tt w'
      ∧ gl.buffers (glstate w') !! 2%N = Some (gl.UIntData points)
      ∧ length points = 9%nat.
Proof.
  split; [exact demo_buffer|].
  destruct (point_upload_wraps_to_uint32 demo.world 2%N)
    as (w' & points & Hrun & Hbuf & Hlen & _);
    [exact demo_works|reflexivity|exact demo_buffer|].
  exists w', points. split; [exact Hrun|]. split; [exact Hbuf|exact Hlen].
Defined.

Lemma vertex_array_reads_the_layout_witness :
  ready demo.world ∧ tilemap_wf demo.tiles
  ∧ ∃ w' position texcoord data,
      _OpenGLRenderer.recalculate VertexBufferedRenderer.cls demo.world
      = Return tt w'
      ∧ fetch_attribute position data 53 ++ fetch_attribute texcoord data 53
        = take 4 (drop 20 (quad 2 2 99)).
Proof.
  split; [exact demo_ready|]. split; [exact demo_tilemap_wf|].
  destruct (vertex_array_reads_the_layout (H := demo.constants)
              demo.world 2 2 5)
    as (w' & vao & va & position & texcoord & data & Hrun & _ & _ & _ & _
        & _ & _ & Hfetch);
    [exact demo_ready|exact demo_tilemap_wf|simpl; lia..|].
  exists w', position, texcoord, data. split; [exact Hrun|exact Hfetch].
Defined.

Lemma point_array_reads_the_tile_index_witness :
  ready demo.world ∧ map demo.tiles !! 8%nat = Some 99
  ∧ ∃ w' index points,
      _OpenGLRenderer.recalculate GeomBufferedRenderer.cls demo.world
      = Return tt w'
      ∧ fetch_attribute index points 8 = [99].
Proof.
  split; [exact demo_ready|]. split; [reflexivity|].
  destruct (point_array_reads_the_tile_index (H := demo.constants)
              demo.world 8 99)
    as (w' & vao & va & index & points & Hrun & _ & _ & _ & _ & Hfetch);
    [exact demo_ready|reflexivity|].
  exists w', index, points. split; [exact Hrun|exact Hfetch].
Defined.

Lemma recalculate_touches_only_its_objects_witness :
  ready demo.world ∧ tilemap_wf demo.tiles
  ∧ ∃ w',
      _OpenGLRenderer.recalculate VertexBufferedRenderer.cls demo.world
      = Return tt w'
      ∧ gl.programs (glstate w') = gl.programs (glstate demo.world)
      ∧ self w' = self demo.world.
Proof.
  split; [exact demo_ready|]. split; [exact demo_tilemap_wf|].
  destruct (recalculate_touches_only_its_objects (H := demo.constants)
              demo.world)
    as (w' & vbo & vao & Hrun & _ & _ & _ & _ & Hprog & _ & _ & _ & _ & _
        & Hself);
    [exact demo_ready|exact demo_tilemap_wf|simpl; lia|].
  exists w'. split; [exact Hrun|]. split; [exact Hprog|exact Hself].
Defined.

Lemma recalculate_twice_is_recalculate_once_witness :
  ready demo.world ∧ tilemap_wf demo.tiles
  ∧ ∃ w1 w2,
      _OpenGLRenderer.recalculate VertexBufferedRenderer.cls demo.world
      = Return tt w1
      ∧ _OpenGLRenderer.recalculate VertexBufferedRenderer.cls w1
        = Return tt w2
      ∧ gl.buffers (glstate w2) = gl.buffers (glstate w1).
Proof.
  split; [exact demo_ready|]. split; [exact demo_tilemap_wf|].
  destruct (recalculate_twice_is_recalculate_once (H := demo.constants)
              demo.world)
    as (w1 & w2 & vao & va1 & va2 & Hrun1 & Hrun2 & Hbuf & _);
    [exact demo_ready|exact demo_tilemap_wf|simpl; lia|].
  exists w1, w2. split; [exact Hrun1|]. split; [exact Hrun2|exact Hbuf].
Defined.

Lemma draw_on_empty_grid_raises_witness :
  ready demo.world
  ∧ TILEMAP_N_COLS (Constants := edge.empty_grid) = 0
  ∧ ∃ w',
      VertexBufferedRenderer.draw (H := edge.empty_grid) demo.world
      = Raise ZeroDivisionError w'
      ∧ GeomBufferedRenderer.draw (H := edge.empty_grid) demo.world
        = Raise ZeroDivisionError w'
      ∧ gl.draws (glstate w') = gl.draws (glstate demo.world).
Proof.
  split; [exact demo_ready|]. split; [reflexivity|].
  destruct (draw_on_empty_grid_raises (H := edge.empty_grid) demo.world)
    as (vao & w' & _ & _ & Hvertex & Hpoint & Hdraws & _);
    [exact demo_ready|left; reflexivity|].
  exists w'. split; [exact Hvertex|]. split; [exact Hpoint|exact Hdraws].
Defined.


Lemma draw_is_repeatable_witness :
  ready demo.world
  ∧ ∃ w1 w2 call,
      GeomBufferedRenderer.draw demo.world = Return tt w1
      ∧ GeomBufferedRenderer.draw w1 = Return tt w2
      ∧ gl.draws (glstate w2) = gl.draws (glstate demo.world) ++ [call; call]
      ∧ gl.dc_count call = 9.
Proof.
  split; [exact demo_ready|].
  destruct (draw_is_repeatable (H := demo.constants) demo.world)
    as (w1 & w2 & call & Hrun1 & _ & Hrun2 & Hdraws & _ & Hcount & _);
    [exact demo_ready|simpl; lia..|].
  exists w1, w2, call. split; [exact Hrun1|]. split; [exact Hrun2|].
  split; [exact Hdraws|exact Hcount].
Defined.

Lemma successful_compile_releases_its_shaders_witness :
  (∀ e, gl.fails (glstate demo.unconstructed_accepting) e = false)
  ∧ ∃ w' p pr,
      _OpenGLRenderer._compile_shader_program
        [("void main() {}"%string, gl.GL_VERTEX_SHADER);
         ("void main() {}"%string, gl.GL_FRAGMENT_SHADER)]
        demo.unconstructed_accepting = Return tt w'
      ∧ gl.programs (glstate w') !! p = Some pr
      ∧ gl.pr_linked pr = true ∧ gl.pr_attached pr = [].
Proof.
  split; [reflexivity|].
  destruct (successful_compile_releases_its_shaders
              demo.unconstructed_accepting
              [("void main() {}"%string, gl.GL_VERTEX_SHADER);
               ("void main() {}"%string, gl.GL_FRAGMENT_SHADER)])
    as (w' & p & pr & Hrun & _ & Hpr & Hl & Ha & _);
    [reflexivity..|].
  exists w', p, pr. split; [exact Hrun|]. split; [exact Hpr|].
  split; [exact Hl|exact Ha].
Defined.

Lemma vertex_construction_succeeds_witness :
  (∀ e, gl.fails (glstate demo.unconstructed_accepting) e = false)
  ∧ tilemap_wf demo.tiles
  ∧ ∃ w' vbo,
      _OpenGLRenderer.__init__ VertexBufferedRenderer.cls
        demo.unconstructed_accepting = Return tt w'
      ∧ ready w'
      ∧ gl.buffers (glstate w') !! vbo
        = Some (gl.FloatData (layout demo.tiles)).
Proof.
  split; [reflexivity|]. split; [exact demo_tilemap_wf|].
  destruct (vertex_construction_succeeds (H := demo.constants)
              demo.unconstructed_accepting "void main() {}" "void main() {}")
    as (w' & vbo & vao & va & Hrun & Hready & _ & _ & _ & _ & Hbuf & _);
    [reflexivity|reflexivity|reflexivity|reflexivity|reflexivity|reflexivity
    |exact demo_tilemap_wf|simpl; lia|].
  exists w', vbo. split; [exact Hrun|]. split; [exact Hready|exact Hbuf].
Defined.

Lemma point_construction_succeeds_witness :
  (∀ e, gl.fails (glstate demo.unconstructed_accepting) e = false)
  ∧ ∃ w' vbo,
      _OpenGLRenderer.__init__ GeomBufferedRenderer.cls
        demo.unconstructed_accepting = Return tt w'
      ∧ ready w'
      ∧ gl.buffers (glstate w') !! vbo
        = Some (gl.UIntData (c_uint32 <$> map demo.tiles)).
Proof.
  split; [reflexivity|].
  destruct (point_construction_succeeds (H := demo.constants)
              demo.unconstructed_accepting "void main() {}" "void main() {}"
              "void main() {}")
    as (w' & vbo & vao & va & Hrun & Hready & _ & _ & _ & _ & Hbuf & _);
    [reflexivity..|].
  exists w', vbo. split; [exact Hrun|]. split; [exact Hready|exact Hbuf].
Defined.

Lemma missing_shader_file_stops_construction_witness :
  shader_files edge.no_files "VertexBufferedRenderer.vert" = None
  ∧ _OpenGLRenderer.__init__ VertexBufferedRenderer.cls edge.no_files
    = Raise FileNotFoundError
        (set_self (mkRendererObject 7 None None None) edge.no_files).
Proof.
  split; [reflexivity|].
  apply (missing_shader_file_stops_construction (H := demo.constants)
           edge.no_files).
  left. reflexivity.
Defined.

Lemma missing_geometry_source_stops_construction_witness :
  shader_files edge.no_files "GeometryShaderRenderer.geom" = None
  ∧ _OpenGLRenderer.__init__ GeomBufferedRenderer.cls edge.no_files
    = Raise FileNotFoundError
        (set_self (mkRendererObject 7 None None None) edge.no_files).
Proof.
  split; [reflexivity|].
  apply (missing_geometry_source_stops_construction (H := demo.constants)
           edge.no_files).
  right. right. reflexivity.
Defined.



Lemma failed_construction_leaks_the_program_witness :
  (∀ e, gl.fails (glstate demo.unconstructed) e = false)
  ∧ ∃ w' p,
      _OpenGLRenderer.__init__ VertexBufferedRenderer.cls demo.unconstructed
      = Raise (RuntimeError "0:1(1): error: syntax error") w'
      ∧ _OpenGLRenderer.__del__ w' = Return tt w'
      ∧ is_Some (gl.programs (glstate w') !! p).
Proof.
  split; [reflexivity|].
  destruct (failed_construction_leaks_the_program
              VertexBufferedRenderer.cls
              [("void main() {}"%string, gl.GL_VERTEX_SHADER);
               ("void main() {}"%string, gl.GL_FRAGMENT_SHADER)]
              demo.unconstructed "0:1(1): error: syntax error")
    as (w' & p & Hinit & Hdel & _ & Hleak);
    [reflexivity|reflexivity|left; reflexivity|].
  exists w', p. split; [exact Hinit|]. split; [exact Hdel|exact Hleak].
Defined.


Lemma pyglet_recalculate_follows_tilemap_witness :
  tilemap_wf demo.tiles ∧ tilemap_wf demo.edited
  ∧ ∃ vl vl',
      Pyglet_VertexBufferedRenderer.recalculate demo.tiles
        (Pyglet_VertexBufferedRenderer._allocate_vbo_vao demo.tiles)
      = inr vl
      ∧ Pyglet_VertexBufferedRenderer.recalculate demo.edited vl = inr vl'
      ∧ Pyglet_VertexBufferedRenderer.aPosition vl'
        = Pyglet_VertexBufferedRenderer.aPosition vl.
Proof.
  assert (tilemap_wf demo.edited) as Hwf by (repeat split; done).
  split; [exact demo_tilemap_wf|]. split; [exact Hwf|].
  destruct (pyglet_recalculate_follows_tilemap (H := demo.constants)
              demo.tiles demo.edited)
    as (vl & vl' & Hrun & Hrun' & Hpos & _);
    [exact demo_tilemap_wf|exact Hwf|simpl; lia|].
  exists vl, vl'. split; [exact Hrun|]. split; [exact Hrun'|exact Hpos].
Defined.

End MoreDemo.
